(** * PaperSeeker: a shallow embedding of the paper pipeline

    The development follows the Python sources of the repository:

    - [src/paper_filter.py]   ([KeywordFilter], [PaperFilter]),
    - [src/paper_searcher.py] ([OpenAlexSearcher]),
    - [src/summarizer.py]     ([AbstractSummarizer]),
    - [src/email_sender.py]   ([EmailSender]),
    - [main.py]               ([daily_task]).

    Python values are embedded as the inductive type [pyval]; a Python
    [dict] is an association list with unique keys in insertion order,
    which is what a CPython dict is.  Exceptions are results of the sum
    type [res].  Code that talks to the outside (HTTP, the chat model,
    SMTP, the clock) runs in the monad [M]: it reads the history of the
    events performed so far, asks the [World] for the answer, and emits
    the events it performs.

    The fragment of Python covered is marked in the model itself: where
    an input leaves it (the [repr] of a container, the order of two
    lists, a format field with a specification), the result is
    [Raise NotModelled] and nothing is claimed.

    Strings are byte strings holding UTF-8 text.  Comparison and
    substring search on UTF-8 bytes agree with Python's on code points.
    Case folding ([py_lower]) is modelled on strings of ASCII characters
    and leaves the fragment on any other; white space ([strip]) is the
    white space of [str.isspace], read off the UTF-8 bytes; slicing by a
    character count goes through the UTF-8 lead bytes. *)

From Stdlib Require Import ZArith Ascii String List Lia Permutation Sorted.
From stdpp Require Import base option list strings gmap pretty.

Local Open Scope Z_scope.
Set Warnings "-register-all".

(** ** Exceptions and results *)

Inductive exn : Type :=
| AttributeError
| TypeError
| KeyError
| IndexError
| ValueError
| UnboundLocalError
| NotModelled.   (* the input leaves the fragment of Python modelled here *)

Inductive res (A : Type) : Type :=
| Ok (a : A)
| Raise (e : exn).
Arguments Ok {A} a.
Arguments Raise {A} e.

#[global] Instance res_ret : MRet res := fun A a => Ok a.
#[global] Instance res_bind : MBind res := fun A B f m =>
  match m with
  | Ok a => f a
  | Raise e => Raise e
  end.
#[global] Instance res_fmap : FMap res := fun A B f m =>
  match m with
  | Ok a => Ok (f a)
  | Raise e => Raise e
  end.

(** [[f(x) for x in xs]] with a body that may raise. *)
Fixpoint res_map {A B : Type} (f : A -> res B) (xs : list A) : res (list B) :=
  match xs with
  | [] => Ok []
  | x :: xs' => y ← f x; ys ← res_map f xs'; Ok (y :: ys)
  end.

(** [for x in xs: acc = body(acc, x)] with a body that may raise. *)
Fixpoint res_fold {A S : Type} (body : S -> A -> res S) (acc : S) (xs : list A) : res S :=
  match xs with
  | [] => Ok acc
  | x :: xs' => acc' ← body acc x; res_fold body acc' xs'
  end.

(** ** Python values *)

Inductive pyval : Type :=
| PNone
| PStr (s : string)
| PInt (n : Z)
| PList (l : list pyval)
| PDict (d : list (string * pyval)).

Abbreviation pydict := (list (string * pyval)).

(** Truth value of an object, as tested by [if x:], [x or y], [not x]. *)
Definition truthy (v : pyval) : bool :=
  match v with
  | PNone => false
  | PStr s => negb (String.eqb s "")
  | PInt n => negb (n =? 0)
  | PList l => match l with [] => false | _ => true end
  | PDict d => match d with [] => false | _ => true end
  end.

Fixpoint dict_lookup (k : string) (d : pydict) : option pyval :=
  match d with
  | [] => None
  | (k', v) :: d' => if String.eqb k k' then Some v else dict_lookup k d'
  end.

(** [d.get(k, dflt)] *)
Definition dict_get (k : string) (dflt : pyval) (d : pydict) : pyval :=
  match dict_lookup k d with
  | Some v => v
  | None => dflt
  end.

(** [d[k] = v]: an existing key keeps its position, a new one goes last. *)
Fixpoint dict_set (k : string) (v : pyval) (d : pydict) : pydict :=
  match d with
  | [] => [(k, v)]
  | (k', v') :: d' =>
      if String.eqb k k' then (k, v) :: d' else (k', v') :: dict_set k v d'
  end.

(** [k in d] *)
Definition dict_mem (k : string) (d : pydict) : bool :=
  match dict_lookup k d with Some _ => true | None => false end.

(** [x.get(k, dflt)] on an arbitrary object: only dicts have [get]. *)
Definition py_get (k : string) (dflt : pyval) (x : pyval) : res pyval :=
  match x with
  | PDict d => Ok (dict_get k dflt d)
  | _ => Raise AttributeError
  end.

(** ** Strings *)

Definition ascii_lower (c : ascii) : ascii :=
  let n := N_of_ascii c in
  if ((65 <=? n) && (n <=? 90))%N then ascii_of_N (n + 32) else c.

(** The 26 ASCII capitals folded, every other byte kept. *)
Fixpoint lower (s : string) : string :=
  match s with
  | EmptyString => EmptyString
  | String c s' => String (ascii_lower c) (lower s')
  end.

Fixpoint is_ascii (s : string) : bool :=
  match s with
  | EmptyString => true
  | String c s' => (N_of_ascii c <? 128)%N && is_ascii s'
  end.

(** [s.lower()].  On ASCII text [str.lower] folds the 26 capitals; on
    other characters it follows the Unicode tables, which are outside
    the fragment. *)
Definition py_lower (s : string) : res string :=
  if is_ascii s then Ok (lower s) else Raise NotModelled.

(** [k in text] on strings *)
Fixpoint contains (k text : string) : bool :=
  String.prefix k text ||
  match text with
  | EmptyString => false
  | String _ text' => contains k text'
  end.

(** [sep.join(parts)] *)
Fixpoint join (sep : string) (parts : list string) : string :=
  match parts with
  | [] => ""
  | [p] => p
  | p :: ps => p +:+ sep +:+ join sep ps
  end.

(** [str(x)].  The text of a list or a dict is their [repr], which is
    outside the fragment. *)
Definition py_str (v : pyval) : res string :=
  match v with
  | PNone => Ok "None"
  | PStr s => Ok s
  | PInt n => Ok (pretty n)
  | PList _ | PDict _ => Raise NotModelled
  end.

(** ** More builtins *)

(** [for x in v]: the items a loop over [v] visits.  A dict yields its
    keys, a string its characters. *)
Definition is_cont (c : ascii) : bool :=
  let n := N_of_ascii c in ((128 <=? n) && (n <? 192))%N.

Fixpoint utf8_chars_go (cur : string) (s : string) : list string :=
  match s with
  | EmptyString => [String.rev cur]
  | String c s' =>
      if is_cont c then utf8_chars_go (String c cur) s'
      else String.rev cur :: utf8_chars_go (String c EmptyString) s'
  end.

Definition utf8_chars (s : string) : list string :=
  match s with
  | EmptyString => []
  | String c s' => utf8_chars_go (String c EmptyString) s'
  end.

(** [s[:n]], counted in characters. *)
Fixpoint utf8_take (n : nat) (s : string) : string :=
  match s with
  | EmptyString => EmptyString
  | String c s' =>
      if is_cont c then String c (utf8_take n s')
      else match n with
           | O => EmptyString
           | S n' => String c (utf8_take n' s')
           end
  end.

Definition py_iter (v : pyval) : res (list pyval) :=
  match v with
  | PList l => Ok l
  | PDict d => Ok (map (fun kv => PStr (fst kv)) d)
  | PStr s => Ok (map PStr (utf8_chars s))
  | PNone | PInt _ => Raise TypeError
  end.

(** [x[:n]]: strings and lists can be sliced, [None] and numbers
    cannot; what a dict does with a slice depends on the version. *)
Definition py_slice (n : nat) (x : pyval) : res pyval :=
  match x with
  | PStr s => Ok (PStr (utf8_take n s))
  | PList l => Ok (PList (take n l))
  | PNone | PInt _ => Raise TypeError
  | PDict _ => Raise NotModelled
  end.

(** The text of that [TypeError]. *)
Definition not_subscriptable (x : pyval) : string :=
  match x with
  | PInt _ => "'int' object is not subscriptable"
  | _ => "'NoneType' object is not subscriptable"
  end.

(** [x == n] for an int literal [n] *)
Definition py_eq_int (x : pyval) (n : Z) : bool :=
  match x with
  | PInt m => m =? n
  | _ => false
  end.

(** [x >= n] for an int [n] *)
Definition py_ge_int (x : pyval) (n : Z) : res bool :=
  match x with
  | PInt m => Ok (m >=? n)
  | _ => Raise TypeError
  end.

(** [x < y], as [list.sort] asks it of two keys.  Two lists compare
    element by element in Python; that case is left out. *)
Definition py_lt (x y : pyval) : res bool :=
  match x, y with
  | PStr s, PStr t => Ok (String.ltb s t)
  | PInt m, PInt n => Ok (m <? n)
  | PList _, PList _ => Raise NotModelled
  | _, _ => Raise TypeError
  end.

(** [sep.join(items)]: every item has to be a [str]. *)
Definition py_join (sep : string) (items : list pyval) : res string :=
  strs ← res_map (fun x => match x with PStr s => Ok s | _ => Raise TypeError end) items;
  Ok (join sep strs).

(** [s.split("/")[-1]]: what follows the last slash. *)
Fixpoint last_segment_go (cur : string) (s : string) : string :=
  match s with
  | EmptyString => String.rev cur
  | String c s' =>
      if Ascii.eqb c "/" then last_segment_go EmptyString s'
      else last_segment_go (String c cur) s'
  end.

Definition last_segment (s : string) : string := last_segment_go EmptyString s.

(** [s.rstrip("/")] *)
Fixpoint rstrip_slash (s : string) : string :=
  match s with
  | EmptyString => EmptyString
  | String c s' =>
      match rstrip_slash s' with
      | EmptyString => if Ascii.eqb c "/" then EmptyString else String c EmptyString
      | r => String c r
      end
  end.

(** [list.sort(key=..., reverse=True)] on the decorated list: a stable
    sort into descending key order that asks only [<] of the keys. *)
Fixpoint insert_desc {A : Type} (x : pyval * A) (l : list (pyval * A)) : res (list (pyval * A)) :=
  match l with
  | [] => Ok [x]
  | y :: l' =>
      py_lt (fst x) (fst y) ≫= fun b : bool =>
      if b then cons y <$> insert_desc x l' else Ok (x :: y :: l')
  end.

Fixpoint sort_desc {A : Type} (l : list (pyval * A)) : res (list (pyval * A)) :=
  match l with
  | [] => Ok []
  | x :: l' => s ← sort_desc l'; insert_desc x s
  end.

Definition sort_by_key_reverse {A : Type} (key : A -> pyval) (l : list A) : res (list A) :=
  map snd <$> sort_desc (map (fun x => (key x, x)) l).

(** ** The outside world *)

Inductive event : Type :=
| EvConnect (host : string) (port : Z)
    (* [sock.connect((host, port))] *)
| EvPost (url keyword from_date to_date : string) (per_page : Z)
    (* [session.post(url, json={"query": ...})] *)
| EvGet (url keyword from_date to_date : string) (per_page : Z)
    (* [session.get(url, params=...)] *)
| EvSleep
    (* [time.sleep(0.5)] *)
| EvFilterSingle (title excerpt : pyval)
    (* the request of [PaperFilter.filter_single]: the title and [abstract[:2000]] *)
| EvChat (model system user : string)
    (* [client.chat.completions.create(...)] *)
| EvSendmail (server : string) (port : Z) (sender recipient subject html : string).
    (* [smtplib.SMTP(server, port)] ... [server.sendmail(...)] *)

Inductive http_reply : Type :=
| HttpFailed                 (* a [requests.exceptions.RequestException] *)
| HttpJson (data : pyval).   (* [response.json()] *)

Inductive chat_reply : Type :=
| ChatFailed (msg : string)      (* an exception, with its text *)
| ChatContent (content : string). (* [response.choices[0].message.content or ""] *)

(** What the world answers, given the events performed so far. *)
Record World : Type := {
  now : list event -> Z;
    (* the day of [datetime.now()], as a day number: the proleptic
       Gregorian ordinal of [date.toordinal()], 1 for 0001-01-01 and
       3652059 for 9999-12-31 *)
  strftime : Z -> string;
    (* [date.strftime("%Y-%m-%d")] of a day number *)
  socket_connect : list event -> event -> bool;
  http : list event -> event -> http_reply;
  relevance : list event -> event -> Z * string;
    (* the score and the reason [filter_single] returns *)
  chat : list event -> event -> chat_reply;
  smtp : list event -> event -> bool;
}.

(** A computation reads the history and returns its result together
    with the events it performed, oldest first. *)
Definition M (A : Type) : Type := list event -> res A * list event.

#[global] Instance M_ret : MRet M := fun A a => fun _ => (Ok a, []).
#[global] Instance M_bind : MBind M := fun A B f m => fun h =>
  match m h with
  | (Ok a, es) =>
      match f a (h ++ es) with
      | (r, es') => (r, es ++ es')
      end
  | (Raise e, es) => (Raise e, es)
  end.

Definition lift {A : Type} (r : res A) : M A := fun _ => (r, []).

Definition perform {A : Type} (oracle : list event -> event -> A) (ev : event) : M A :=
  fun h => (Ok (oracle h ev), [ev]).

Definition clock (w : World) : M Z := fun h => (Ok (now w h), []).

(** [for x in xs: acc = body(acc, x)] for a body with effects. *)
Fixpoint M_fold {A S : Type} (body : S -> A -> M S) (acc : S) (xs : list A) : M S :=
  match xs with
  | [] => mret acc
  | x :: xs' => acc' ← body acc x; M_fold body acc' xs'
  end.

(** A local variable: [None] while no assignment has bound it. *)
Definition read_local {A : Type} (x : option A) : res A :=
  match x with
  | Some a => Ok a
  | None => Raise UnboundLocalError
  end.


(** An optional string argument ([Optional[str]]) tested by [if x:]. *)
Definition given (x : option string) : bool :=
  match x with
  | Some s => negb (String.eqb s "")
  | None => false
  end.

Definition dq : string := String "034" EmptyString.
Definition nl : string := String "010" EmptyString.

(** [s.strip()]: the characters of [str.isspace].  In ASCII they are
    the bytes 9 to 13 and 28 to 32; beyond it U+0085 and U+00A0 (two
    bytes in UTF-8) and U+1680, U+2000 to U+200A, U+2028, U+2029,
    U+202F, U+205F and U+3000 (three bytes). *)
Definition is_space (c : ascii) : bool :=
  let n := N_of_ascii c in
  (((9 <=? n) && (n <=? 13)) || ((28 <=? n) && (n <=? 32)))%N.

Definition is_space2 (a b : ascii) : bool :=
  let a := N_of_ascii a in
  let b := N_of_ascii b in
  ((a =? 194) && ((b =? 133) || (b =? 160)))%N.

Definition is_space3 (a b c : ascii) : bool :=
  let a := N_of_ascii a in
  let b := N_of_ascii b in
  let c := N_of_ascii c in
  (((a =? 225) && (b =? 154) && (c =? 128))
   || ((a =? 226) && (b =? 128)
       && (((128 <=? c) && (c <=? 138)) || (c =? 168) || (c =? 169) || (c =? 175)))
   || ((a =? 226) && (b =? 129) && (c =? 159))
   || ((a =? 227) && (b =? 128) && (c =? 128)))%N.

(** [s.lstrip()] *)
Fixpoint lstrip (s : string) : string :=
  match s with
  | EmptyString => EmptyString
  | String a s1 =>
      if is_space a then lstrip s1
      else match s1 with
           | EmptyString => s
           | String b s2 =>
               if is_space2 a b then lstrip s2
               else match s2 with
                    | EmptyString => s
                    | String c s3 => if is_space3 a b c then lstrip s3 else s
                    end
           end
  end.

(** [s.rstrip()] on the bytes of [s] in reverse order. *)
Fixpoint rstrip_rev (s : string) : string :=
  match s with
  | EmptyString => EmptyString
  | String a s1 =>
      if is_space a then rstrip_rev s1
      else match s1 with
           | EmptyString => s
           | String b s2 =>
               if is_space2 b a then rstrip_rev s2
               else match s2 with
                    | EmptyString => s
                    | String c s3 => if is_space3 c b a then rstrip_rev s3 else s
                    end
           end
  end.

Definition strip (s : string) : string :=
  String.rev (rstrip_rev (String.rev (lstrip s))).

(** [s.replace("\n", "<br>")] *)
Fixpoint replace_newlines (s : string) : string :=
  match s with
  | EmptyString => EmptyString
  | String c s' =>
      if Ascii.eqb c "010" then "<br>" +:+ replace_newlines s'
      else String c (replace_newlines s')
  end.

(** [x[:n] + "..."] *)
Definition py_prefix_dots (n : nat) (x : pyval) : res string :=
  match x with
  | PStr s => Ok (utf8_take n s +:+ "...")
  | PDict _ => Raise NotModelled
  | _ => Raise TypeError
  end.

(** [x < n] for an int [n] *)
Definition py_lt_int (x : pyval) (n : Z) : res bool :=
  match x with
  | PInt m => Ok (m <? n)
  | _ => Raise TypeError
  end.

(** [template.format(date=date, count=count)].  Replacement fields are
    plain names; a field with a conversion, a format specification, an
    attribute or an index, and a field that starts with a digit, are
    outside the fragment. *)
Definition field_value (date : string) (count : Z) (name : string) : res string :=
  if String.eqb name "date" then Ok date
  else if String.eqb name "count" then Ok (pretty count)
  else match name with
       | EmptyString => Raise IndexError   (* [{}] without positional arguments *)
       | String c _ =>
           if ((48 <=? N_of_ascii c) && (N_of_ascii c <=? 57))%N
           then Raise NotModelled else Raise KeyError
       end.

Fixpoint format_go (date : string) (count : Z) (field : option string) (s : string)
  : res string :=
  match s with
  | EmptyString =>
      match field with
      | None => Ok EmptyString
      | Some _ => Raise ValueError
      end
  | String c s' =>
      match field with
      | None =>
          if Ascii.eqb c "{" then
            match s' with
            | String "{" s'' => String "{" <$> format_go date count None s''
            | _ => format_go date count (Some EmptyString) s'
            end
          else if Ascii.eqb c "}" then
            match s' with
            | String "}" s'' => String "}" <$> format_go date count None s''
            | _ => Raise ValueError
            end
          else String c <$> format_go date count None s'
      | Some name =>
          if Ascii.eqb c "}" then
            v ← field_value date count (String.rev name);
            rest ← format_go date count None s';
            Ok (v +:+ rest)
          else if Ascii.eqb c "!" || Ascii.eqb c ":" || Ascii.eqb c "."
                  || Ascii.eqb c "[" || Ascii.eqb c "{"
          then Raise NotModelled
          else format_go date count (Some (String c name)) s'
      end
  end.

Definition str_format (template date : string) (count : Z) : res string :=
  format_go date count None template.

(** [[x for x in xs if test(x)]] with a test that may raise. *)
Fixpoint res_filter {A : Type} (test : A -> res bool) (xs : list A) : res (list A) :=
  match xs with
  | [] => Ok []
  | x :: xs' =>
      test x ≫= fun b : bool =>
      ys ← res_filter test xs';
      Ok (if b then x :: ys else ys)
  end.

(** ** [config.py]: the loaded configuration

    [get_config()] reads two YAML files; here the configuration is the
    record of the values its properties return. *)
Module Config.
Record t : Type := {
  smtp_server : string;
  smtp_port : Z;
  sender_email : string;
  sender_password : string;
  recipient_email : string;
  openalex_api_url : string;
  llm_provider : string;
  llm_model : string;
  llm_api_key : string;
  llm_base_url : string;
  max_results : Z;
  days_back : Z;
  relevance_threshold : Z;
  from_date : option string;
  to_date : option string;
  research_keywords : list string;
  exclude_keywords : list string;
  filter_prompt : string;
  summarize_prompt : string;
  email_subject : string;
  email_greeting : string;
  email_footer : string;
  summarize_threshold : Z;
}.

(** The values the properties fall back to on an empty configuration. *)
Definition defaults : t := {|
  smtp_server := "smtp.gmail.com";
  smtp_port := 587;
  sender_email := "";
  sender_password := "";
  recipient_email := "";
  openalex_api_url := "https://api.openalex.org";
  llm_provider := "anthropic";
  llm_model := "claude-sonnet-4-20250514";
  llm_api_key := "";
  llm_base_url := "";
  max_results := 20;
  days_back := 1;
  relevance_threshold := 3;
  from_date := None;
  to_date := None;
  research_keywords := [];
  exclude_keywords := [];
  filter_prompt := "";
  summarize_prompt := "";
  email_subject := "PaperSeeker: {date} Papers ({count})";
  email_greeting := "Hello, here are today's paper recommendations.";
  email_footer := "";
  summarize_threshold := 4;
|}.
End Config.

(** ** [paper_filter.py]: class [KeywordFilter] *)
Module KeywordFilter.
Record t : Type := {
  keywords : list string;
  exclude_keywords : list string;
}.

(** [KeywordFilter.__init__] *)
Definition init (kws : list string) (excl : option (list string)) : res t :=
  ks ← res_map py_lower kws;
  (* [exclude_keywords or []] *)
  es ← res_map py_lower (match excl with
                         | Some e => e
                         | None => []
                         end);
  Ok {| keywords := ks; exclude_keywords := es |}.

(** [KeywordFilter._get_text] *)
Definition _get_text (paper : pydict) : res string :=
  let parts := [ dict_get "title" (PStr "") paper;
                 dict_get "abstract" (PStr "") paper;
                 dict_get "journal" (PStr "") paper ] in
  (* Add authors and concepts *)
  parts ← match dict_get "concepts" (PList []) paper with
           | PList concepts =>
               concepts ← match concepts with
                           | PDict _ :: _ =>
                               res_map (py_get "display_name" (PStr "")) concepts
                           | _ => Ok concepts
                           end;
               Ok (parts ++ concepts)
           | _ => Ok parts
           end;
  strs ← res_map py_str parts;
  Ok (join " " strs).

(** The two loops of [_score_paper], on the lowered text. *)
Definition score_text (self : t) (text : string) : Z :=
  let score := 0 in
  let score :=
    fold_left (fun score keyword =>
                 if contains keyword text then score + 1 else score)
              (keywords self) score in
  (* Penalty for exclude keywords *)
  let score :=
    fold_left (fun score keyword =>
                 if contains keyword text then Z.max 0 (score - 2) else score)
              (exclude_keywords self) score in
  score.

(** [KeywordFilter._score_paper] *)
Definition _score_paper (self : t) (paper : pydict) : res Z :=
  text ← _get_text paper ≫= py_lower;
  Ok (score_text self text).

(** [KeywordFilter.filter_batch]; the flag [show_progress] is not read
    by the method. *)
Definition filter_batch (self : t) (papers : list pydict) (threshold : Z)
  : res (list pydict) :=
  res_fold (fun filtered paper =>
              score ← _score_paper self paper;
              if score >=? threshold
              then Ok (filtered ++ [dict_set "relevance_score" (PInt score) paper])
              else Ok filtered)
           [] papers.
End KeywordFilter.

(** ** [paper_filter.py]: class [PaperFilter] *)
Module PaperFilter.
Record t : Type := {
  provider : string;
  model : string;
  filter_prompt : string;
  client : option (string * string);   (* [OpenAI(api_key, base_url)] or [None] *)
}.

(** [PaperFilter.__init__] *)
Definition init (provider model api_key base_url filter_prompt : string) : t :=
  {| provider := provider;
     model := model;
     filter_prompt := filter_prompt;
     client := if negb (String.eqb api_key "") then Some (api_key, base_url) else None |}.

(** [PaperFilter.filter_single].  The user message holds
    [abstract[:2000]], which is evaluated before the request is made:
    when the abstract cannot be sliced the [except] branch returns its
    default and nothing is sent.  Once the request is made, the rest of
    the [try] block (the reply, the two regular expressions read off
    it, the defaults taken when they do not match or when anything
    raises) always returns a score and a reason; the world supplies the
    pair. *)
Definition filter_single (self : t) (w : World) (title abstract : pyval) : M pydict :=
  match client self with
  | None => mret [("score", PInt 3); ("reason", PStr "No API key")]
  | Some _ =>
      match py_slice 2000 abstract with
      | Ok excerpt =>
          sr ← perform (relevance w) (EvFilterSingle title excerpt);
          mret [("score", PInt sr.1); ("reason", PStr sr.2)]
      | Raise TypeError =>
          mret [("score", PInt 3);
                ("reason", PStr ("Error: " +:+ not_subscriptable abstract))]
      | Raise e => lift (Raise e)
      end
  end.

(** [PaperFilter.filter_batch] *)
Definition filter_batch (self : t) (w : World) (papers : list pydict) (threshold : Z)
  : M (list pydict) :=
  match client self with
  | None => mret papers
  | Some _ =>
      M_fold (fun filtered paper =>
                result ← filter_single self w (dict_get "title" (PStr "") paper)
                                              (dict_get "abstract" (PStr "") paper);
                let score := dict_get "score" (PInt 0) result in
                keep ← lift (py_ge_int score threshold);
                if keep : bool
                then mret (filtered ++
                       [dict_set "relevance_reason" (dict_get "reason" (PStr "") result)
                          (dict_set "relevance_score" score paper)])
                else mret filtered)
             [] papers
  end.
End PaperFilter.

(** ** [paper_searcher.py]: class [OpenAlexSearcher] *)
Module OpenAlexSearcher.
Record t : Type := {
  api_url : string;
}.

(** [OpenAlexSearcher.__init__] *)
Definition init (url : string) : t :=
  {| api_url := rstrip_slash url |}.

(** [OpenAlexSearcher._parse_work] *)
Definition _parse_work (work : pyval) : res pydict :=
  (* Extract authors *)
  authorships ← py_get "authorships" (PList []) work ≫= py_iter;
  authors ← res_fold (fun authors authorship =>
               author ← py_get "author" (PDict []) authorship;
               if truthy author
               then name ← py_get "display_name" (PStr "") author;
                    Ok (authors ++ [name])
               else Ok authors)
             [] authorships;
  (* Extract journal/conference *)
  host ← py_get "journal" (PDict []) work;
  journal ← (if truthy host then py_get "display_name" (PStr "") host else Ok (PStr ""));
  (* Extract concepts/topics *)
  cs ← py_get "concepts" (PList []) work ≫= py_iter;
  concepts ← res_fold (fun concepts concept =>
               level ← py_get "level" (PInt 0) concept;
               if py_eq_int level 0   (* Top-level concepts *)
               then name ← py_get "display_name" (PStr "") concept;
                    Ok (concepts ++ [name])
               else Ok concepts)
             [] cs;
  (* Extract keywords *)
  kws ← py_get "keywords" (PList []) work ≫= py_iter;
  kwds ← res_fold (fun kwds kw =>
               name ← py_get "display_name" (PStr "") kw;
               Ok (kwds ++ [name]))
             [] kws;
  wid ← py_get "id" PNone work;
  id ← (if truthy wid
        then match wid with
             | PStr s => Ok (PStr (last_segment s))
             | _ => Raise AttributeError
             end
        else Ok (PStr ""));
  doi ← py_get "doi" (PStr "") work;
  title ← py_get "title" (PStr "") work;
  publication_date ← py_get "publication_date" (PStr "") work;
  authors5 ← py_join ", " (take 5 authors);   (* Limit to 5 authors *)
  abstract ← py_get "abstract" (PStr "") work;
  language ← py_get "language" (PStr "en") work;
  openalex_url ← py_get "id" (PStr "") work;
  Ok [ ("id", id);
       ("doi", doi);
       ("title", title);
       ("publication_date", publication_date);
       ("journal", journal);
       ("authors", PStr authors5);
       ("abstract", abstract);
       ("language", language);
       ("concepts", PList concepts);
       ("keywords", PList kwds);
       ("openalex_url", openalex_url) ].

(** [OpenAlexSearcher._days_ago].  The subtraction is the one of the
    integers.  A [datetime] has a range, and the code raises
    [OverflowError] when the day asked for leaves it: that case is not
    modelled here, and [days_ago_defined] says that it does not arise. *)
Definition _days_ago (w : World) (days : Z) : M string :=
  today ← clock w;
  mret (strftime w (today - days)).

(** [OpenAlexSearcher._search_rest_api] *)
Definition _search_rest_api (self : t) (w : World)
    (keyword from_date to_date : string) (max_results : Z) : M (list pydict) :=
  let url := api_url self +:+ "/works" in
  reply ← perform (http w) (EvGet url keyword from_date to_date (Z.min max_results 100));
  match reply with
  | HttpJson data =>
      lift (results ← py_get "results" (PList []) data ≫= py_iter;
            res_map _parse_work results)
  | HttpFailed => mret []
  end.

(** [OpenAlexSearcher._search_single_keyword] *)
Definition _search_single_keyword (self : t) (w : World)
    (keyword from_date to_date : string) (max_results : Z) : M (list pydict) :=
  let url := api_url self +:+ "/graphql" in
  reply ← perform (http w) (EvPost url keyword from_date to_date (Z.min max_results 100));
  match reply with
  | HttpJson data =>
      match data with
      | PDict d =>
          works ← lift (py_get "works" (PDict []) (dict_get "data" (PDict []) d)
                         ≫= py_get "results" (PList []));
          (* Handle GraphQL structure *)
          if negb (truthy works) && dict_mem "errors" d
          then (* Fallback: try REST API *)
               _search_rest_api self w keyword from_date to_date max_results
          else lift (py_iter works ≫= res_map _parse_work)
      | _ => lift (Raise AttributeError)
      end
  | HttpFailed => _search_rest_api self w keyword from_date to_date max_results
  end.

(** The body of the inner loop of [search], [# Remove duplicates].
    The set [seen_ids] holds strings; an identifier of another
    hashable type is outside the fragment. *)
Definition remove_duplicate (st : list pydict * gset string) (paper : pydict)
  : res (list pydict * gset string) :=
  let '(new_papers, seen_ids) := st in
  let paper_id := dict_get "id" (PStr "") paper in
  if truthy paper_id
  then match paper_id with
       | PStr s =>
           if bool_decide (s ∉ seen_ids)
           then Ok (new_papers ++ [paper], seen_ids ∪ {[ s ]})
           else Ok (new_papers, seen_ids)
       | PList _ | PDict _ => Raise TypeError
       | _ => Raise NotModelled
       end
  else Ok (new_papers, seen_ids).

(** The body of the outer loop of [search]. *)
Definition search_keyword (self : t) (w : World) (from_dt : string) (to_dt : option string)
    (max_results : Z) (st : list pydict * gset string) (keyword : string)
  : M (list pydict * gset string) :=
  let '(all_papers, seen_ids) := st in
  to_date ← lift (read_local to_dt);
  papers ← _search_single_keyword self w keyword from_dt to_date max_results;
  (* Remove duplicates *)
  st' ← lift (res_fold remove_duplicate ([], seen_ids) papers);
  let new_papers : list pydict := st'.1 in
  let seen_ids : gset string := st'.2 in
  (* Rate limiting *)
  _ ← perform (fun _ _ => tt) EvSleep;
  mret (all_papers ++ new_papers, seen_ids).

(** [OpenAlexSearcher.search].  The parameter [exclude_keywords] is
    not read by the method and is left out.  The local [to_dt] is
    bound only on the branch that assigns it. *)
Definition search (self : t) (w : World)
    (keywords : list string) (days_back max_results : Z)
    (from_date to_date : option string) (verbose : bool) : M (list pydict) :=
  (* Calculate date filter *)
  from_dt ← (if given from_date
             then mret (default "" from_date)
             else _days_ago w days_back);
  dts ← (if given to_date
         then mret (from_dt, to_date)
         else (from_dt ← _days_ago w days_back;   (* Refresh from_dt *)
               mret (from_dt, None)));
  let from_dt : string := dts.1 in
  let to_dt : option string := dts.2 in
  _ ← (if verbose then _ ← lift (read_local to_dt); mret tt else mret tt);
  st ← M_fold (search_keyword self w from_dt to_dt max_results) ([], ∅) keywords;
  (* Sort by publication date (newest first) *)
  lift (sort_by_key_reverse (dict_get "publication_date" (PStr "")) st.1).
End OpenAlexSearcher.

(** ** [summarizer.py]: class [AbstractSummarizer] *)
Module AbstractSummarizer.
Record t : Type := {
  provider : string;
  model : string;
  summarize_prompt : string;
  client : option (string * string);   (* [OpenAI(api_key, base_url)] or [None] *)
}.

(** [AbstractSummarizer.__init__] *)
Definition init (provider model api_key base_url summarize_prompt : string) : t :=
  {| provider := provider;
     model := model;
     summarize_prompt := summarize_prompt;
     client := if negb (String.eqb api_key "") then Some (api_key, base_url) else None |}.

Definition abstract_unavailable : pydict :=
  [ ("zh", PStr "（原文摘要不可用）");
    ("en", PStr "(Abstract not available)") ].

Definition generation_failed (e : string) : pydict :=
  [ ("zh", PStr "（摘要生成失败）");
    ("en", PStr ("(Summary generation failed: " +:+ e +:+ ")")) ].

Definition zh_marker : string := "【中文摘要】".
Definition en_marker : string := "English Abstract:".

(** [# Parse bilingual summary].  [find] gives [None] for Python's -1;
    the offsets 6 and 17 are the lengths of the two markers in
    characters, so the slices start right after them. *)
Definition parse_summary (content : string) : pydict :=
  let zh_match := String.index 0 zh_marker content in
  let en_match := String.index 0 en_marker content in
  let zh :=
    match zh_match, en_match with
    | Some z, Some e =>
        let start := (z + String.length zh_marker)%nat in
        strip (String.substring start (e - start) content)
    | Some z, None =>
        let start := (z + String.length zh_marker)%nat in
        strip (String.substring start (String.length content - start) content)
    | None, _ => ""
    end in
  let en :=
    match en_match with
    | Some e =>
        let start := (e + String.length en_marker)%nat in
        strip (String.substring start (String.length content - start) content)
    | None => ""
    end in
  [ ("zh", PStr zh); ("en", PStr en) ].

(** [AbstractSummarizer._summarize_paper] *)
Definition _summarize_paper (self : t) (w : World) (paper : pydict) : M pydict :=
  let title := dict_get "title" (PStr "") paper in
  let authors := dict_get "authors" (PStr "") paper in
  let journal := dict_get "journal" (PStr "") paper in
  let abstract := dict_get "abstract" (PStr "") paper in
  if negb (truthy abstract)
  then mret abstract_unavailable
  else
    match client self with
    | None =>
        (* [self.client.chat] on [None]: caught by [except Exception] *)
        mret (generation_failed "'NoneType' object has no attribute 'chat'")
    | Some _ =>
        user ← lift (t ← py_str title;
                     a ← py_str authors;
                     j ← py_str journal;
                     b ← py_str abstract;
                     Ok ("标题：" +:+ t +:+ nl +:+ "作者：" +:+ a +:+ nl +:+
                         "期刊：" +:+ j +:+ nl +:+ "原文摘要：" +:+ b));
        reply ← perform (chat w) (EvChat (model self) (summarize_prompt self) user);
        match reply with
        | ChatContent content => mret (parse_summary content)
        | ChatFailed e => mret (generation_failed e)
        end
    end.

(** [AbstractSummarizer.summarize_batch] *)
Definition summarize_batch (self : t) (w : World) (papers : list pydict)
  : M (list pydict) :=
  match client self with
  | None => mret papers
  | Some _ =>
      M_fold (fun results paper =>
                summary ← _summarize_paper self w paper;
                let paper := dict_set "summary_zh" (dict_get "zh" (PStr "") summary) paper in
                let paper := dict_set "summary_en"
                               (dict_get "en" (dict_get "abstract" (PStr "") paper) summary)
                               paper in
                mret (results ++ [paper]))
             [] papers
  end.
End AbstractSummarizer.

(** ** [email_sender.py]: class [EmailSender] *)
Module EmailSender.
Record t : Type := {
  config : Config.t;
  smtp_server : string;
  smtp_port : Z;
  sender_email : string;
  sender_password : string;
  recipient_email : string;
}.

(** [EmailSender.__init__] *)
Definition init (config : Config.t) : t :=
  {| config := config;
     smtp_server := Config.smtp_server config;
     smtp_port := Config.smtp_port config;
     sender_email := Config.sender_email config;
     sender_password := Config.sender_password config;
     recipient_email := Config.recipient_email config |}.

(** [EmailSender._send_email]: the [try] block builds the message and
    hands it to the SMTP session; any exception makes the result
    [False]. *)
Definition _send_email (self : t) (w : World) (subject html_content : string) : M bool :=
  perform (smtp w)
    (EvSendmail (smtp_server self) (smtp_port self)
                (sender_email self) (recipient_email self) subject html_content).

(** The document of [send_empty_result]. *)
Definition empty_result_html (date_str : string) : string :=
  "
        <html><body>
        <h2>No Relevant Papers Found</h2>
        <p>Date: " +:+
  date_str +:+
  "</p>
        <p>No papers matched your research interests today.</p>
        <p>Consider adjusting your keywords in prompts.yaml for better results.</p>
        </body></html>
        ".

(** [EmailSender.send_empty_result] *)
Definition send_empty_result (self : t) (w : World) (date_str : string) : M bool :=
  subject ← lift (str_format (Config.email_subject (config self)) date_str 0);
  let html_content := empty_result_html date_str in
  _send_email self w subject html_content.

(** One entry of the digest: the f-string added to [paper_rows]. *)
Definition paper_card (i score_color score openalex_url title authors journal summary_zh summary_en : string) : string :=
  "
            <div class=" +:+
  dq +:+
  "paper-card" +:+
  dq +:+
  ">
                <div class=" +:+
  dq +:+
  "paper-header" +:+
  dq +:+
  ">
                    <span class=" +:+
  dq +:+
  "paper-number" +:+
  dq +:+
  ">" +:+
  i +:+
  "</span>
                    <span class=" +:+
  dq +:+
  "score-badge" +:+
  dq +:+
  " style=" +:+
  dq +:+
  "background: " +:+
  score_color +:+
  dq +:+
  ">" +:+
  score +:+
  "</span>
                    <h3 class=" +:+
  dq +:+
  "paper-title" +:+
  dq +:+
  "><a href=" +:+
  dq +:+
  openalex_url +:+
  dq +:+
  ">" +:+
  title +:+
  "</a></h3>
                </div>
                <p class=" +:+
  dq +:+
  "paper-meta" +:+
  dq +:+
  "><strong>" +:+
  authors +:+
  "</strong></p>
                <p class=" +:+
  dq +:+
  "paper-meta" +:+
  dq +:+
  ">" +:+
  journal +:+
  "</p>
                <div class=" +:+
  dq +:+
  "summary-section" +:+
  dq +:+
  ">
                    <p class=" +:+
  dq +:+
  "summary-zh" +:+
  dq +:+
  ">" +:+
  summary_zh +:+
  "</p>
                    <p class=" +:+
  dq +:+
  "summary-en" +:+
  dq +:+
  ">" +:+
  summary_en +:+
  "</p>
                </div>
            </div>
            ".

(** The f-string [html] of [_build_html_content]. *)
Definition digest_html (date_str greeting paper_rows footer : string) : string :=
  "
        <!DOCTYPE html>
        <html>
        <head>
            <meta charset=" +:+
  dq +:+
  "UTF-8" +:+
  dq +:+
  ">
            <style>
                body { font-family: Arial, sans-serif; line-height: 1.6; color: #333; max-width: 800px; margin: 0 auto; padding: 20px; }
                .header { text-align: center; padding: 20px 0; border-bottom: 2px solid #4CAF50; margin-bottom: 20px; }
                .greeting { font-size: 16px; margin-bottom: 20px; }
                .paper-card { background: #f9f9f9; border-radius: 8px; padding: 20px; margin-bottom: 20px; }
                .paper-header { display: flex; align-items: flex-start; gap: 10px; margin-bottom: 10px; }
                .paper-number { background: #4CAF50; color: white; width: 28px; height: 28px; border-radius: 50%; display: flex; align-items: center; justify-content: center; font-weight: bold; flex-shrink: 0; }
                .score-badge { color: white; padding: 4px 10px; border-radius: 12px; font-size: 12px; font-weight: bold; flex-shrink: 0; }
                .paper-title { margin: 0; font-size: 16px; }
                .paper-title a { color: #2196F3; text-decoration: none; }
                .paper-title a:hover { text-decoration: underline; }
                .paper-meta { margin: 5px 0; font-size: 13px; color: #666; }
                .summary-section { margin-top: 15px; padding-top: 15px; border-top: 1px solid #ddd; }
                .summary-zh { font-size: 14px; color: #333; margin-bottom: 8px; }
                .summary-en { font-size: 12px; color: #888; font-style: italic; }
                .footer { margin-top: 30px; padding-top: 20px; border-top: 1px solid #ddd; font-size: 12px; color: #888; text-align: center; }
            </style>
        </head>
        <body>
            <div class=" +:+
  dq +:+
  "header" +:+
  dq +:+
  ">
                <h1>PaperSeeker</h1>
                <p>" +:+
  date_str +:+
  "</p>
            </div>
            <div class=" +:+
  dq +:+
  "greeting" +:+
  dq +:+
  ">" +:+
  greeting +:+
  "</div>
            <div class=" +:+
  dq +:+
  "papers" +:+
  dq +:+
  ">
                " +:+
  paper_rows +:+
  "
            </div>
            <div class=" +:+
  dq +:+
  "footer" +:+
  dq +:+
  ">
                " +:+
  footer +:+
  "
            </div>
        </body>
        </html>
        ".

(** The body of the loop of [_build_html_content]. *)
Definition add_paper_row (paper_rows : string) (ip : Z * pydict) : res string :=
  let i := ip.1 in
  let paper := ip.2 in
  let title := dict_get "title" (PStr "Untitled") paper in
  let authors := dict_get "authors" (PStr "Unknown Authors") paper in
  let journal := dict_get "journal" (PStr "Unknown Journal") paper in
  let summary_zh := dict_get "summary_zh" (PStr "") paper in
  let summary_en := dict_get "summary_en" (PStr "") paper in
  let score := dict_get "relevance_score" (PInt 0) paper in
  let reason := dict_get "relevance_reason" (PStr "") paper in
  let openalex_url := dict_get "openalex_url" (PStr "") paper in
  (* Generate color based on score *)
  py_ge_int score 4 ≫= fun ge4 : bool =>
  score_color ← (if ge4 then Ok "#4CAF50"
                 else py_ge_int score 3 ≫= fun ge3 : bool =>
                      Ok (if ge3 then "#2196F3" else "#FF9800"));
  score ← py_str score;
  openalex_url ← py_str openalex_url;
  title ← py_str title;
  authors ← py_str authors;
  journal ← py_str journal;
  summary_zh ← py_str summary_zh;
  summary_en ← py_str summary_en;
  Ok (paper_rows +:+
      paper_card (pretty i) score_color score openalex_url title authors journal
                 summary_zh summary_en).

(** [EmailSender._build_html_content] *)
Definition _build_html_content (self : t) (papers : list pydict) (date_str : string)
  : res string :=
  let greeting := Config.email_greeting (config self) in
  let footer := replace_newlines (Config.email_footer (config self)) in
  paper_rows ← res_fold add_paper_row "" (zip (seqZ 1 (Z.of_nat (length papers))) papers);
  Ok (digest_html date_str greeting paper_rows footer).

(** [EmailSender.send] *)
Definition send (self : t) (w : World) (papers : list pydict) (date_str : string) : M bool :=
  if String.eqb (sender_email self) "" || String.eqb (recipient_email self) ""
  then mret false
  else
    subject ← lift (str_format (Config.email_subject (config self)) date_str
                               (Z.of_nat (length papers)));
    html_content ← lift (_build_html_content self papers date_str);
    _send_email self w subject html_content.
End EmailSender.

(** ** [main.py]: [daily_task]

    The configuration is the one [get_config()] has loaded. *)

(** [x or y] on an optional int and on an optional string. *)
Definition int_or (x : option Z) (y : Z) : Z :=
  match x with
  | Some n => if n =? 0 then y else n
  | None => y
  end.

Definition str_or (x y : option string) : option string :=
  if given x then x else y.

(** The block [# Filter papers (keyword pre-filter + AI refinement)]. *)
Definition filter_papers (w : World) (config : Config.t) (papers : list pydict)
  : M (list pydict) :=
  if negb (String.eqb (Config.llm_api_key config) "") then
    let ai_filter :=
      PaperFilter.init (Config.llm_provider config) (Config.llm_model config)
                       (Config.llm_api_key config) (Config.llm_base_url config)
                       (Config.filter_prompt config) in
    (* Quick keyword filter *)
    keyword_filter ← lift (KeywordFilter.init (Config.research_keywords config)
                                              (Some (Config.exclude_keywords config)));
    candidates ← lift (KeywordFilter.filter_batch keyword_filter papers 1);
    (* AI refinement *)
    PaperFilter.filter_batch ai_filter w candidates (Config.relevance_threshold config)
  else
    keyword_filter ← lift (KeywordFilter.init (Config.research_keywords config)
                                              (Some (Config.exclude_keywords config)));
    lift (KeywordFilter.filter_batch keyword_filter papers
            (Config.relevance_threshold config)).

Definition low_relevance (paper : pydict) : pydict :=
  dict_set "summary_en" (PStr "(Low relevance, basic info only)")
    (dict_set "summary_zh" (PStr "（相关性较低，仅保留基本信息）") paper).

Definition original_abstract (paper : pydict) : res pydict :=
  zh ← py_prefix_dots 300 (dict_get "abstract" (PStr "") paper);
  Ok (dict_set "summary_en" (PStr "(No English summary available)")
        (dict_set "summary_zh" (PStr zh) paper)).

(** The block [# Generate summaries (only for high-score papers)]. *)
Definition summarize_papers (w : World) (config : Config.t) (filtered_papers : list pydict)
  : M (list pydict) :=
  let summarize_threshold := Config.summarize_threshold config in
  papers_for_summary ←
    lift (res_filter (fun p => py_ge_int (dict_get "relevance_score" (PInt 0) p)
                                         summarize_threshold) filtered_papers);
  papers_without_summary ←
    lift (res_filter (fun p => py_lt_int (dict_get "relevance_score" (PInt 0) p)
                                         summarize_threshold) filtered_papers);
  if negb (String.eqb (Config.llm_api_key config) "") then
    let summarizer :=
      AbstractSummarizer.init (Config.llm_provider config) (Config.llm_model config)
                              (Config.llm_api_key config) (Config.llm_base_url config)
                              (Config.summarize_prompt config) in
    summarized ← match papers_for_summary with
                 | [] => mret []
                 | _ :: _ =>
                     AbstractSummarizer.summarize_batch summarizer w papers_for_summary
                 end;
    (* Low-score papers without summary *)
    mret (summarized ++ map low_relevance papers_without_summary)
  else
    (* No API key, use original abstract *)
    lift (res_map original_abstract filtered_papers).

Definition daily_task (w : World) (config : Config.t)
    (from_date to_date : option string) (days_back : option Z) : M unit :=
  (* Test email connection *)
  let email_sender := EmailSender.init config in
  reachable ← perform (socket_connect w)
                (EvConnect (Config.smtp_server config) (Config.smtp_port config));
  if negb reachable then mret tt   (* Aborting task *)
  else
  (* Search papers *)
  let searcher := OpenAlexSearcher.init (Config.openalex_api_url config) in
  papers ← OpenAlexSearcher.search searcher w
             (Config.research_keywords config)
             (int_or days_back (Config.days_back config))
             (Config.max_results config)
             (str_or from_date (Config.from_date config))
             (str_or to_date (Config.to_date config))
             false;
  match papers with
  | [] => mret tt   (* No papers found today *)
  | _ :: _ =>
      filtered_papers ← filter_papers w config papers;
      match filtered_papers with
      | [] =>
          (* No relevant papers found today, sending notification email *)
          today ← clock w;
          let date_str := strftime w (today - 1) in
          let email_sender := EmailSender.init config in
          _ ← EmailSender.send_empty_result email_sender w date_str;
          mret tt
      | _ :: _ =>
          papers_with_summary ← summarize_papers w config filtered_papers;
          (* Send email *)
          today ← clock w;
          let date_str := strftime w today in
          let email_sender := EmailSender.init config in
          _ ← EmailSender.send email_sender w papers_with_summary date_str;
          mret tt
      end
  end.

(** ** The properties, in the words of the specification *)






(** The normalized identifier and the publication date of a record, as
    [search] reads them. *)
Definition paper_id (paper : pydict) : pyval := dict_get "id" (PStr "") paper.
Definition publication_date (paper : pydict) : pyval :=
  dict_get "publication_date" (PStr "") paper.

(** [p] stands in [raw] at a place where no earlier record has its
    identifier. *)
Definition first_occurrence (p : pydict) (raw : list pydict) : Prop :=
  ∃ pre post, raw = pre ++ p :: post ∧ paper_id p ∉ (paper_id <$> pre).

(** The per-keyword results [search] aggregates: one list per keyword,
    each the answer of [_search_single_keyword] for that keyword over
    the date window from [from_dt] to [to_dt]. *)
Definition fetched_for (self : OpenAlexSearcher.t) (w : World)
    (from_dt to_dt : string) (max_results : Z)
    (keywords : list string) (fetched : list (list pydict)) : Prop :=
  Forall2 (fun keyword papers =>
             ∃ h es, OpenAlexSearcher._search_single_keyword
                       self w keyword from_dt to_dt max_results h = (Ok papers, es))
          keywords fetched.

(** [a >= b] on publication dates. *)
Definition date_ge (a b : pyval) : Prop :=
  match a, b with
  | PStr s, PStr t => (t ≤ s)%string
  | PInt m, PInt n => n ≤ m
  | _, _ => False
  end.

(** The same on the decorated list that is sorted. *)
Definition key_ge {A : Type} (x y : pyval * A) : Prop := date_ge x.1 y.1.

Definition is_mail (ev : event) : bool :=
  match ev with EvSendmail _ _ _ _ _ _ => true | _ => false end.

(** The record of the scenario: what [_parse_work] makes of a provider
    payload that only has the title. *)
Definition battery_work : pyval :=
  PDict [ ("title", PStr "Battery battery research") ].

Definition battery_paper : pydict :=
  [ ("id", PStr "");
    ("doi", PStr "");
    ("title", PStr "Battery battery research");
    ("publication_date", PStr "");
    ("journal", PStr "");
    ("authors", PStr "");
    ("abstract", PStr "");
    ("language", PStr "en");
    ("concepts", PList []);
    ("keywords", PList []);
    ("openalex_url", PStr "") ].

(** The filter [KeywordFilter(["battery"])] builds. *)
Definition battery_filter : KeywordFilter.t :=
  {| KeywordFilter.keywords := ["battery"]; KeywordFilter.exclude_keywords := [] |}.

(** What the loop of [search] maintains: [seen_ids] holds the
    identifiers of [all_papers], which are pairwise distinct and none of
    them empty. *)
Definition seen_inv (all_papers : list pydict) (seen_ids : gset string) : Prop :=
  (∀ s, s ∈ seen_ids ↔ PStr s ∈ paper_id <$> all_papers)
  ∧ NoDup (paper_id <$> all_papers)
  ∧ Forall (fun p => truthy (paper_id p) = true) all_papers.

(** ** A sample run

    A world whose provider answers every GraphQL query with the same
    four works: two with distinct identifiers, one without identifier,
    and one that repeats the first identifier. *)
Definition sample_works : pyval :=
  PList [ PDict [ ("id", PStr "https://openalex.org/W1");
                  ("title", PStr "Battery battery research");
                  ("publication_date", PStr "2024-01-02") ];
          PDict [ ("id", PStr "https://openalex.org/W2");
                  ("title", PStr "Solar cells");
                  ("publication_date", PStr "2024-01-05");
                  ("abstract", PStr "Perovskite solar cells.") ];
          PDict [ ("title", PStr "No identifier");
                  ("publication_date", PStr "2024-01-09") ];
          PDict [ ("id", PStr "https://openalex.org/W1");
                  ("title", PStr "Battery battery research, again");
                  ("publication_date", PStr "2024-01-07") ] ].

Definition sample_world : World := {|
  (* the 31st of January 2024; the dates of that month are formatted *)
  now := fun _ => 738916;
  strftime := fun d => "2024-01-" +:+ (if d - 738885 <? 10 then "0" else "")
                       +:+ pretty (d - 738885);
  socket_connect := fun _ _ => true;
  http := fun _ ev =>
    match ev with
    | EvPost _ _ _ _ _ =>
        HttpJson (PDict [ ("data", PDict [ ("works", PDict [ ("results", sample_works) ]) ]) ])
    | _ => HttpFailed
    end;
  relevance := fun _ _ => (3, "relevant");
  chat := fun _ _ => ChatFailed "timeout";
  smtp := fun _ _ => true;
|}.

(** The same world with the mail server out of reach. *)
Definition offline_world : World := {|
  now := now sample_world;
  strftime := strftime sample_world;
  socket_connect := fun _ _ => false;
  http := http sample_world;
  relevance := relevance sample_world;
  chat := chat sample_world;
  smtp := smtp sample_world;
|}.

Definition sample_searcher : OpenAlexSearcher.t :=
  OpenAlexSearcher.init "https://api.openalex.org".

Definition sample_W1 : pydict :=
  [ ("id", PStr "W1"); ("doi", PStr "");
    ("title", PStr "Battery battery research");
    ("publication_date", PStr "2024-01-02");
    ("journal", PStr ""); ("authors", PStr ""); ("abstract", PStr "");
    ("language", PStr "en"); ("concepts", PList []); ("keywords", PList []);
    ("openalex_url", PStr "https://openalex.org/W1") ].

Definition sample_W2 : pydict :=
  [ ("id", PStr "W2"); ("doi", PStr "");
    ("title", PStr "Solar cells");
    ("publication_date", PStr "2024-01-05");
    ("journal", PStr ""); ("authors", PStr "");
    ("abstract", PStr "Perovskite solar cells.");
    ("language", PStr "en"); ("concepts", PList []); ("keywords", PList []);
    ("openalex_url", PStr "https://openalex.org/W2") ].

Definition sample_no_id : pydict :=
  [ ("id", PStr ""); ("doi", PStr "");
    ("title", PStr "No identifier");
    ("publication_date", PStr "2024-01-09");
    ("journal", PStr ""); ("authors", PStr ""); ("abstract", PStr "");
    ("language", PStr "en"); ("concepts", PList []); ("keywords", PList []);
    ("openalex_url", PStr "") ].

Definition sample_events : list event :=
  [ EvPost "https://api.openalex.org/graphql" "battery" "2024-01-24" "2024-02-01" 20;
    EvSleep;
    EvPost "https://api.openalex.org/graphql" "solar" "2024-01-24" "2024-02-01" 20;
    EvSleep ].

(** Every event a computation performs satisfies [P], whatever the
    history and the result. *)
Definition emits {A : Type} (P : event -> Prop) (m : M A) : Prop :=
  ∀ h r es, m h = (r, es) → Forall P es.

Definition no_mail (ev : event) : Prop := is_mail ev = false.

Definition sample_summarizer : AbstractSummarizer.t :=
  AbstractSummarizer.init "openai" "gpt-4" "sk-sample" "" "Summarize.".

(** A configuration with one research keyword and an explicit end date. *)
Definition sample_config : Config.t := {|
  Config.smtp_server := "smtp.example.org";
  Config.smtp_port := 587;
  Config.sender_email := "bot@example.org";
  Config.sender_password := "secret";
  Config.recipient_email := "reader@example.org";
  Config.openalex_api_url := "https://api.openalex.org";
  Config.llm_provider := "openai";
  Config.llm_model := "gpt-4";
  Config.llm_api_key := "";
  Config.llm_base_url := "";
  Config.max_results := 20;
  Config.days_back := 7;
  Config.relevance_threshold := 3;
  Config.from_date := None;
  Config.to_date := Some "2024-02-01";
  Config.research_keywords := ["battery"];
  Config.exclude_keywords := [];
  Config.filter_prompt := "";
  Config.summarize_prompt := "";
  Config.email_subject := "PaperSeeker: {date} Papers ({count})";
  Config.email_greeting := "Hello";
  Config.email_footer := "";
  Config.summarize_threshold := 4;
|}.





(** * More of the code *)

(** ** [_parse_work], piece by piece

    The bodies of its three loops, and what they are expected to meet in
    a payload of the provider's schema. *)
Definition add_author (authors : list pyval) (authorship : pyval) : res (list pyval) :=
  author ← py_get "author" (PDict []) authorship;
  if truthy author
  then name ← py_get "display_name" (PStr "") author;
       Ok (authors ++ [name])
  else Ok authors.

Definition add_concept (concepts : list pyval) (concept : pyval) : res (list pyval) :=
  level ← py_get "level" (PInt 0) concept;
  if py_eq_int level 0
  then name ← py_get "display_name" (PStr "") concept;
       Ok (concepts ++ [name])
  else Ok concepts.

Definition add_keyword (kwds : list pyval) (kw : pyval) : res (list pyval) :=
  name ← py_get "display_name" (PStr "") kw;
  Ok (kwds ++ [name]).

(** An authorship entry and the name it contributes: none when its
    [author] is missing or empty. *)
Definition authorship_name (authorship : pyval) (name : option string) : Prop :=
  ∃ da, authorship = PDict da
        ∧ match name with
          | None => truthy (dict_get "author" (PDict []) da) = false
          | Some n =>
              ∃ d, dict_get "author" (PDict []) da = PDict d
                   ∧ d ≠ []
                   ∧ dict_get "display_name" (PStr "") d = PStr n
          end.

(** A concept entry with its level and its name, read with the defaults
    of [_parse_work]. *)
Definition concept_entry (concept : pyval) (lv : pyval * pyval) : Prop :=
  ∃ dc, concept = PDict dc
        ∧ dict_get "level" (PInt 0) dc = lv.1
        ∧ dict_get "display_name" (PStr "") dc = lv.2.

Definition is_dict (v : pyval) : Prop := ∃ d, v = PDict d.

(** A work of the provider's schema: the list fields are lists of
    objects, every author has a string name, the venue is an object or
    missing, the identifier a string or missing. *)
Definition schema_work (d : pydict) : Prop :=
  (∃ authorships names,
      dict_get "authorships" (PList []) d = PList authorships
      ∧ Forall2 authorship_name authorships names)
  ∧ (truthy (dict_get "journal" (PDict []) d) = false ∨ is_dict (dict_get "journal" (PDict []) d))
  ∧ (∃ concepts, dict_get "concepts" (PList []) d = PList concepts ∧ Forall is_dict concepts)
  ∧ (∃ kws, dict_get "keywords" (PList []) d = PList kws ∧ Forall is_dict kws)
  ∧ (truthy (dict_get "id" PNone d) = false ∨ ∃ s, dict_get "id" PNone d = PStr s).

(** The keys of a record, in order. *)
Definition dict_keys (d : pydict) : list string := d.*1.

Definition paper_keys : list string :=
  [ "id"; "doi"; "title"; "publication_date"; "journal"; "authors"; "abstract";
    "language"; "concepts"; "keywords"; "openalex_url" ].

(** A sample work with seven authors, the third without author entry,
    and concepts of several levels. *)
Definition sample_author (n : string) : pyval :=
  PDict [ ("author", PDict [ ("id", PStr "A"); ("display_name", PStr n) ]) ].

Definition sample_work : pydict :=
  [ ("id", PStr "https://openalex.org/W7");
    ("title", PStr "Grid storage");
    ("journal", PDict [ ("id", PStr "S1"); ("display_name", PStr "Energy") ]);
    ("authorships",
       PList [ sample_author "Ada"; sample_author "Bo"; PDict [ ("author", PNone) ];
               sample_author "Cy"; sample_author "Di"; sample_author "Ed";
               sample_author "Flo" ]);
    ("concepts",
       PList [ PDict [ ("display_name", PStr "Physics"); ("level", PInt 0) ];
               PDict [ ("display_name", PStr "Battery"); ("level", PInt 2) ];
               PDict [ ("display_name", PStr "Engineering") ] ]);
    ("keywords", PList [ PDict [ ("display_name", PStr "storage") ] ]) ].

Definition sample_work_paper : pydict :=
  [ ("id", PStr "W7"); ("doi", PStr "");
    ("title", PStr "Grid storage");
    ("publication_date", PStr "");
    ("journal", PStr "Energy");
    ("authors", PStr "Ada, Bo, Cy, Di, Ed");
    ("abstract", PStr "");
    ("language", PStr "en");
    ("concepts", PList [ PStr "Physics"; PStr "Engineering" ]);
    ("keywords", PList [ PStr "storage" ]);
    ("openalex_url", PStr "https://openalex.org/W7") ].

(** ** The requests of [search] *)

(** The events of one keyword: the GraphQL request, the REST request
    when the code falls back to it, and the pause. *)
Definition keyword_events (self : OpenAlexSearcher.t)
    (from_dt to_dt : string) (max_results : Z) (keyword : string) (fallback : bool)
  : list event :=
  EvPost (OpenAlexSearcher.api_url self +:+ "/graphql") keyword from_dt to_dt
         (Z.min max_results 100)
  :: (if fallback
      then [ EvGet (OpenAlexSearcher.api_url self +:+ "/works") keyword from_dt to_dt
                   (Z.min max_results 100) ]
      else [])
  ++ [ EvSleep ].

(** The day [days] days before today is a day of [datetime]:
    [datetime.now() - timedelta(days=days)] returns.  (A [timedelta]
    holds at most 999999999 days, a [datetime] the days 0001-01-01 to
    9999-12-31.) *)
Definition days_ago_defined (w : World) (h : list event) (days : Z) : Prop :=
  Z.abs days ≤ 999999999 ∧ 1 ≤ now w h - days ≤ 3652059.

(** The start of the date window of a search begun at the history [h]. *)
Definition start_date (w : World) (days_back : Z) (from_date : option string)
    (h : list event) : string :=
  if given from_date then default "" from_date else strftime w (now w h - days_back).

(** The sample world with the provider out of reach. *)
Definition unreachable_world : World := {|
  now := now sample_world;
  strftime := strftime sample_world;
  socket_connect := socket_connect sample_world;
  http := fun _ _ => HttpFailed;
  relevance := relevance sample_world;
  chat := chat sample_world;
  smtp := smtp sample_world;
|}.

(** A sort key that is the day [d]. *)
Definition is_date (d : string) (key : pyval) : bool :=
  match key with
  | PStr s => String.eqb s d
  | _ => false
  end.

(** A record published on the day [d]. *)
Definition has_date (d : string) (paper : pydict) : bool :=
  is_date d (dict_get "publication_date" (PStr "") paper).

(** ** The keyword filter *)

(** The filter [KeywordFilter(["battery", "solar"], ["research"])] builds. *)
Definition sample_keyword_filter : KeywordFilter.t :=
  {| KeywordFilter.keywords := ["battery"; "solar"];
     KeywordFilter.exclude_keywords := ["research"] |}.


(** ** The model filter *)

(** The request [filter_single] makes for a record: the title and the
    first 2000 characters of the abstract; none when the abstract
    cannot be sliced. *)
Definition filter_request (paper : pydict) : option event :=
  match py_slice 2000 (dict_get "abstract" (PStr "") paper) with
  | Ok excerpt => Some (EvFilterSingle (dict_get "title" (PStr "") paper) excerpt)
  | Raise _ => None
  end.

(** The score and the reason [filter_single] returns for a record, at
    the history [h]: the answer to the request, or the default of the
    [except] branch. *)
Definition verdict (w : World) (h : list event) (paper : pydict) : Z * string :=
  match filter_request paper with
  | Some request => relevance w h request
  | None => (3, "Error: " +:+ not_subscriptable (dict_get "abstract" (PStr "") paper))
  end.

(** A record whose abstract is not an object. *)
Definition plain_abstract (paper : pydict) : Prop :=
  ∀ d, dict_get "abstract" (PStr "") paper ≠ PDict d.

(** A record with the score and the reason of the model attached. *)
Definition attach_verdict (pv : pydict * (Z * string)) : pydict :=
  dict_set "relevance_reason" (PStr pv.2.2) (dict_set "relevance_score" (PInt pv.2.1) pv.1).

(** A kept record and its verdict: the score reaches the threshold, and
    it is the default 3 when no request was made for the record. *)
Definition kept_verdict (threshold : Z) (pv : pydict * (Z * string)) : Prop :=
  threshold ≤ pv.2.1
  ∧ (filter_request pv.1 = None →
     pv.2 = (3, "Error: " +:+ not_subscriptable (dict_get "abstract" (PStr "") pv.1))).

(** A record of the provider whose abstract is null. *)
Definition sample_null_abstract : pydict :=
  [ ("id", PStr "W3"); ("title", PStr "Battery recycling"); ("abstract", PNone) ].

Definition sample_filter : PaperFilter.t :=
  PaperFilter.init "openai" "gpt-4" "sk-sample" "" "Rate the paper.".

(** ** The summaries *)

(** A request of the summarizer [self] to its model. *)
Definition summary_request (self : AbstractSummarizer.t) (ev : event) : Prop :=
  ∃ user, ev = EvChat (AbstractSummarizer.model self)
                      (AbstractSummarizer.summarize_prompt self) user.

(** [q] is the record [p] with two summary strings set. *)
Definition with_summaries (p q : pydict) : Prop :=
  ∃ zh en, q = dict_set "summary_en" (PStr en) (dict_set "summary_zh" (PStr zh) p).

(** The relevance score of a record, as an integer. *)
Definition score_of (paper : pydict) : Z :=
  match dict_get "relevance_score" (PInt 0) paper with
  | PInt s => s
  | _ => 0
  end.

(** The two lists [daily_task] splits the filtered records into. *)
Definition for_summary (config : Config.t) (paper : pydict) : bool :=
  Config.summarize_threshold config <=? score_of paper.

Definition without_summary (config : Config.t) (paper : pydict) : bool :=
  score_of paper <? Config.summarize_threshold config.

(** [q] is the record [p] as it is sent when there is no API key. *)
Definition with_abstract_excerpt (p q : pydict) : Prop :=
  ∃ a, dict_get "abstract" (PStr "") p = PStr a
       ∧ q = dict_set "summary_en" (PStr "(No English summary available)")
               (dict_set "summary_zh" (PStr (utf8_take 300 a +:+ "...")) p).

(** The sample configuration with an API key and an end date. *)
Definition keyed_config : Config.t := {|
  Config.smtp_server := "smtp.example.org";
  Config.smtp_port := 587;
  Config.sender_email := "bot@example.org";
  Config.sender_password := "secret";
  Config.recipient_email := "reader@example.org";
  Config.openalex_api_url := "https://api.openalex.org";
  Config.llm_provider := "openai";
  Config.llm_model := "gpt-4";
  Config.llm_api_key := "sk-sample";
  Config.llm_base_url := "";
  Config.max_results := 20;
  Config.days_back := 7;
  Config.relevance_threshold := 3;
  Config.from_date := None;
  Config.to_date := Some "2024-02-01";
  Config.research_keywords := ["battery"];
  Config.exclude_keywords := [];
  Config.filter_prompt := "";
  Config.summarize_prompt := "Summarize.";
  Config.email_subject := "PaperSeeker: {date} Papers ({count})";
  Config.email_greeting := "Hello";
  Config.email_footer := "";
  Config.summarize_threshold := 4;
|}.

(** Two filtered records, one above and one below the summary threshold. *)
Definition scored_papers : list pydict :=
  [ dict_set "relevance_score" (PInt 3) sample_W1;
    dict_set "relevance_score" (PInt 5) sample_W2 ].

(** ** The mails of a run *)



(** ** [main.py]: [run_test] *)

(** [d[k]] *)
Definition dict_item (k : string) (d : pydict) : res pyval :=
  match dict_lookup k d with
  | Some v => Ok v
  | None => Raise KeyError
  end.

(** [run_test], on the configuration [get_config()] has loaded.  The
    searcher is built with the default address, and the search is asked
    for with [verbose=True] and without dates. *)
Definition run_test (w : World) (config : Config.t) : M unit :=
  (* Test search *)
  let searcher := OpenAlexSearcher.init "https://api.openalex.org" in
  test_papers ← OpenAlexSearcher.search searcher w
                  (take 2 (Config.research_keywords config)) 7 5 None None true;
  match test_papers with
  | [] => mret tt
  | _ :: _ =>
      (* Test filter *)
      keyword_filter ← lift (KeywordFilter.init (Config.research_keywords config)
                                                (Some (Config.exclude_keywords config)));
      filtered ← lift (KeywordFilter.filter_batch keyword_filter test_papers 3);
      _ ← (if truthy (PList (PDict <$> filtered))
              && negb (String.eqb (Config.llm_api_key config) "")
           then
             (* Test AI filter *)
             let ai_filter :=
               PaperFilter.init (Config.llm_provider config) (Config.llm_model config)
                                (Config.llm_api_key config) (Config.llm_base_url config)
                                (Config.filter_prompt config) in
             M_fold (fun _ paper =>
                       result ← PaperFilter.filter_single ai_filter w
                                  (dict_get "title" (PStr "") paper)
                                  (dict_get "abstract" (PStr "") paper);
                       _ ← lift (dict_item "score" result);
                       _ ← lift (dict_item "reason" result);
                       mret tt)
                    tt (take 2 test_papers)
           else mret tt);
      (* Test email sender *)
      let email_sender := EmailSender.init config in
      mret tt
  end.

(** The probe of the mail server. *)
Definition probe (config : Config.t) : event :=
  EvConnect (Config.smtp_server config) (Config.smtp_port config).

(** The default configuration with one research keyword: no end date. *)
Definition undated_config : Config.t := {|
  Config.smtp_server := "smtp.gmail.com";
  Config.smtp_port := 587;
  Config.sender_email := "";
  Config.sender_password := "";
  Config.recipient_email := "";
  Config.openalex_api_url := "https://api.openalex.org";
  Config.llm_provider := "anthropic";
  Config.llm_model := "claude-sonnet-4-20250514";
  Config.llm_api_key := "";
  Config.llm_base_url := "";
  Config.max_results := 20;
  Config.days_back := 1;
  Config.relevance_threshold := 3;
  Config.from_date := None;
  Config.to_date := None;
  Config.research_keywords := ["battery"];
  Config.exclude_keywords := [];
  Config.filter_prompt := "";
  Config.summarize_prompt := "";
  Config.email_subject := "PaperSeeker: {date} Papers ({count})";
  Config.email_greeting := "Hello, here are today's paper recommendations.";
  Config.email_footer := "";
  Config.summarize_threshold := 4;
|}.


(** ** The digest *)

(** The fields of a record the digest shows, with the text shown for a
    missing field. *)
Definition shown_fields : list (string * string) :=
  [ ("title", "Untitled"); ("authors", "Unknown Authors"); ("journal", "Unknown Journal");
    ("summary_zh", ""); ("summary_en", ""); ("openalex_url", "") ].

Definition sample_sender : EmailSender.t := EmailSender.init sample_config.



(** ** The reply of the model *)

(** A reply of the form the summarizer parses. *)
Definition bilingual_reply (zh en : string) : string :=
  AbstractSummarizer.zh_marker +:+ zh +:+ AbstractSummarizer.en_marker +:+ en.

Definition sample_reply_zh : string := "　本文综述了固态电池的研究进展。　
".

Definition sample_reply_en : string := " The paper reviews solid-state batteries. ".

(** ** The stages of a run *)






(** ** The records of a search *)

(** A record [_parse_work] has made of some work. *)
Definition parsed_record (paper : pydict) : Prop :=
  ∃ work, OpenAlexSearcher._parse_work work = Ok paper.

(** ** The address of the provider *)

(** [n] slashes. *)
Fixpoint slashes (n : nat) : string :=
  match n with
  | O => ""
  | S n' => String "/" (slashes n')
  end.

(** ** Runs that end without a notice *)


(** * Proofs *)

(** ** Results *)

Lemma res_bind_ok {A B : Type} (m : res A) (f : A -> res B) (b : B) :
  m ≫= f = Ok b ↔ ∃ a, m = Ok a ∧ f a = Ok b.
Proof.
  destruct m as [a|e]; simpl.
  - split; [intros H; exists a; auto | intros (a' & [= <-] & H); exact H].
  - split; [discriminate | intros (a' & [=] & _)].
Qed.

Lemma res_fmap_ok {A B : Type} (m : res A) (f : A -> B) (b : B) :
  f <$> m = Ok b ↔ ∃ a, m = Ok a ∧ b = f a.
Proof.
  destruct m as [a|e]; simpl.
  - split; [intros [= <-]; eauto | intros (a' & [= <-] & ->); reflexivity].
  - split; [discriminate | intros (a' & [=] & _)].
Qed.

Lemma res_fold_app {A S : Type} (body : S -> A -> res S) (acc : S) (xs ys : list A) :
  res_fold body acc (xs ++ ys) = res_fold body acc xs ≫= fun acc' => res_fold body acc' ys.
Proof.
  revert acc; induction xs as [|x xs IH]; intros acc; simpl; [reflexivity|].
  destruct (body acc x) as [acc'|e]; simpl; [apply IH | reflexivity].
Qed.

(** ** Dictionaries *)

Lemma dict_lookup_set_eq (k : string) (v : pyval) (d : pydict) :
  dict_lookup k (dict_set k v d) = Some v.
Proof.
  induction d as [|[k' v'] d IH]; simpl.
  - by rewrite String.eqb_refl.
  - destruct (String.eqb k k') eqn:E; simpl; rewrite ?String.eqb_refl, ?E; auto.
Qed.

Lemma dict_lookup_set_ne (k k' : string) (v : pyval) (d : pydict) :
  k ≠ k' → dict_lookup k' (dict_set k v d) = dict_lookup k' d.
Proof.
  intros Hne. induction d as [|[k0 v0] d IH]; simpl.
  - destruct (String.eqb_spec k' k); congruence.
  - destruct (String.eqb_spec k k0) as [->|Hk]; simpl.
    + destruct (String.eqb_spec k' k0); congruence.
    + destruct (String.eqb_spec k' k0); congruence.
Qed.

Lemma dict_get_set_eq (k : string) (v dflt : pyval) (d : pydict) :
  dict_get k dflt (dict_set k v d) = v.
Proof. unfold dict_get. by rewrite dict_lookup_set_eq. Qed.

Lemma dict_get_set_ne (k k' : string) (v dflt : pyval) (d : pydict) :
  k ≠ k' → dict_get k' dflt (dict_set k v d) = dict_get k' dflt d.
Proof. intros. unfold dict_get. by rewrite dict_lookup_set_ne. Qed.


(** ** Substrings *)

Lemma prefix_spec (k t : string) :
  String.prefix k t = true ↔ ∃ post, t = k +:+ post.
Proof.
  revert t; induction k as [|c k IH]; intros t.
  - destruct t; simpl; split; eauto.
  - destruct t as [|c' t]; simpl.
    + split; [discriminate | intros [post [=]]].
    + destruct (ascii_dec c c') as [->|Hc].
      * rewrite IH. split.
        -- intros [post ->]. exists post. reflexivity.
        -- intros [post H]. exists post.
           change (String c' k +:+ post) with (String c' (k +:+ post)) in H.
           congruence.
      * split; [discriminate|]. intros [post H].
        change (String c k +:+ post) with (String c (k +:+ post)) in H.
        congruence.
Qed.

(** [contains] is Python's [in]: the keyword stands somewhere in the text. *)
Lemma contains_spec (k t : string) :
  contains k t = true ↔ ∃ pre post, t = pre +:+ k +:+ post.
Proof.
  induction t as [|c t IH]; cbn [contains].
  - rewrite orb_false_r, prefix_spec. split.
    + intros [post H]. exists "", post. exact H.
    + intros (pre & post & H). destruct pre as [|c' pre]; [eauto|].
      change (String c' pre +:+ k +:+ post) with (String c' (pre +:+ k +:+ post)) in H.
      discriminate.
  - rewrite orb_true_iff, IH, prefix_spec. split.
    + intros [[post H] | (pre & post & ->)].
      * exists "", post. exact H.
      * exists (String c pre), post. reflexivity.
    + intros (pre & post & H). destruct pre as [|c' pre].
      * left. eauto.
      * right.
        change (String c' pre +:+ k +:+ post) with (String c' (pre +:+ k +:+ post)) in H.
        injection H as _ ->. eauto.
Qed.

(** ** [KeywordFilter]: the score *)










Lemma battery_filter_init : KeywordFilter.init ["battery"] None = Ok battery_filter.
Proof. reflexivity. Qed.

(** The provider payload of the scenario parses to [battery_paper]. *)
Lemma battery_work_parses :
  OpenAlexSearcher._parse_work battery_work = Ok battery_paper.
Proof. reflexivity. Qed.

(** C3, as stated, fails: the score of the record is not 2. *)
Lemma battery_score_not_two :
  ¬ (KeywordFilter._score_paper battery_filter battery_paper = Ok 2
     ∧ (∃ kept, KeywordFilter.filter_batch battery_filter [battery_paper] 1 = Ok [kept])
     ∧ KeywordFilter.filter_batch battery_filter [battery_paper] 3 = Ok []).
Proof. intros [H _]. vm_compute in H. discriminate. Qed.

(** C3, amended. With the keyword list ["battery"] and no exclusions, the
    record whose title is "Battery battery research" scores 1: a keyword
    counts once, however often it occurs. [filter_batch] keeps the record
    at threshold 1, with the score 1 attached, and rejects it at
    threshold 3. *)
Theorem battery_scenario :
  KeywordFilter._score_paper battery_filter battery_paper = Ok 1
  ∧ KeywordFilter.filter_batch battery_filter [battery_paper] 1
    = Ok [dict_set "relevance_score" (PInt 1) battery_paper]
  ∧ KeywordFilter.filter_batch battery_filter [battery_paper] 3 = Ok [].
Proof. repeat split; reflexivity. Qed.

(** ** [KeywordFilter]: the batch *)









(** ** Sorting, newest first *)

Lemma ltb_false_le (s t : string) : String.ltb s t = false → (t ≤ s)%string.
Proof.
  unfold String.le, String.ltb, String.leb. rewrite (String.compare_antisym s t).
  destruct (String.compare t s); simpl; intros H; try discriminate; exact I.
Qed.

Lemma ltb_true_le (s t : string) : String.ltb s t = true → (s ≤ t)%string.
Proof.
  unfold String.le, String.ltb, String.leb.
  destruct (String.compare s t); simpl; intros H; try discriminate; exact I.
Qed.

Lemma py_lt_false_ge (x y : pyval) : py_lt x y = Ok false → date_ge x y.
Proof.
  destruct x, y; simpl; intros [= H]; [by apply ltb_false_le | lia].
Qed.

Lemma py_lt_true_ge (x y : pyval) : py_lt x y = Ok true → date_ge y x.
Proof.
  destruct x, y; simpl; intros [= H]; [by apply ltb_true_le | lia].
Qed.

Section Sorting.
Context {A : Type}.
Implicit Types (x y : pyval * A) (l r : list (pyval * A)).

Lemma insert_desc_perm (x : pyval * A) (l r : list (pyval * A)) :
  insert_desc x l = Ok r → r ≡ₚ x :: l.
Proof.
  revert r; induction l as [|y l IH]; intros r; cbn [insert_desc].
  - intros [= <-]. reflexivity.
  - destruct (py_lt x.1 y.1) as [[]|]; cbn [mbind res_bind]; try discriminate.
    + destruct (insert_desc x l) as [r'|]; simpl; intros [= <-].
      rewrite (IH r' eq_refl). apply perm_swap.
    + intros [= <-]. reflexivity.
Qed.

Lemma insert_desc_hd (x y : pyval * A) (l r : list (pyval * A)) :
  insert_desc x l = Ok r → key_ge y x → HdRel key_ge y l → HdRel key_ge y r.
Proof.
  destruct l as [|z l]; cbn [insert_desc].
  - intros [= <-] Hyx _. by constructor.
  - destruct (py_lt x.1 z.1) as [[]|]; cbn [mbind res_bind]; try discriminate.
    + destruct (insert_desc x l) as [r'|]; simpl; intros [= <-] _ Hy.
      inversion Hy; subst. by constructor.
    + intros [= <-] Hyx _. by constructor.
Qed.

Lemma insert_desc_sorted (x : pyval * A) (l r : list (pyval * A)) :
  insert_desc x l = Ok r → Sorted key_ge l → Sorted key_ge r.
Proof.
  revert r; induction l as [|y l IH]; intros r; cbn [insert_desc].
  - intros [= <-] _. repeat constructor.
  - destruct (py_lt x.1 y.1) as [[]|] eqn:Hlt; cbn [mbind res_bind]; try discriminate.
    + destruct (insert_desc x l) as [r'|] eqn:Hr'; simpl; intros [= <-] Hs.
      inversion Hs; subst. constructor; [by apply IH|].
      eapply insert_desc_hd; eauto. by apply py_lt_true_ge.
    + intros [= <-] Hs. constructor; [exact Hs|].
      constructor. by apply py_lt_false_ge.
Qed.

Lemma sort_desc_spec (l r : list (pyval * A)) :
  sort_desc l = Ok r → r ≡ₚ l ∧ Sorted key_ge r.
Proof.
  revert r; induction l as [|x l IH]; intros r; cbn [sort_desc].
  - intros [= <-]. split; [reflexivity | constructor].
  - destruct (sort_desc l) as [s|]; cbn [mbind res_bind]; [|discriminate].
    destruct (IH s eq_refl) as [Hp Hs]. intros Hr. split.
    + rewrite (insert_desc_perm _ _ _ Hr). by constructor.
    + by eapply insert_desc_sorted.
Qed.

Lemma sorted_map_snd (key : A -> pyval) (r : list (pyval * A)) :
  Forall (fun kx => kx.1 = key kx.2) r →
  Sorted key_ge r →
  Sorted (fun p q => date_ge (key p) (key q)) (map snd r).
Proof.
  induction 2 as [|x r Hs IH Hhd]; simpl; [constructor|].
  inversion H; subst. constructor; [by apply IH|].
  destruct Hhd as [|y r Hxy]; simpl; constructor.
  inversion H3; subst. unfold key_ge in Hxy. congruence.
Qed.

Lemma sort_by_key_reverse_spec (key : A -> pyval) (l out : list A) :
  sort_by_key_reverse key l = Ok out →
  out ≡ₚ l ∧ Sorted (fun p q => date_ge (key p) (key q)) out.
Proof.
  unfold sort_by_key_reverse. intros H.
  apply res_fmap_ok in H as (r & Hr & ->).
  apply sort_desc_spec in Hr as [Hp Hs]. split.
  - change (snd <$> r ≡ₚ l). rewrite Hp, <- list_fmap_compose.
    by rewrite list_fmap_id.
  - apply sorted_map_snd; [|exact Hs].
    rewrite Hp. apply Forall_forall. intros kx Hin.
    apply list_elem_of_fmap in Hin as (x & -> & _). reflexivity.
Qed.

Lemma sorted_adjacent (R : A -> A -> Prop) (l : list A) (i : nat) (p q : A) :
  Sorted R l → l !! i = Some p → l !! S i = Some q → R p q.
Proof.
  intros Hs. revert i. induction Hs as [|x l Hs IH Hhd]; intros i; [done|].
  destruct i as [|i]; simpl.
  - intros [= ->] Hq. destruct Hhd as [|y l Hxy]; simpl in Hq; [done|].
    by injection Hq as ->.
  - apply IH.
Qed.
End Sorting.

(** ** The monad of effects *)

Lemma M_bind_ok {A B : Type} (m : M A) (f : A -> M B) (h : list event) (b : B) (es : list event) :
  (m ≫= f) h = (Ok b, es) →
  ∃ a es1 es2, m h = (Ok a, es1) ∧ f a (h ++ es1) = (Ok b, es2) ∧ es = es1 ++ es2.
Proof.
  unfold mbind, M_bind. destruct (m h) as [[a|e] es1]; [|discriminate].
  destruct (f a (h ++ es1)) as [r es2] eqn:E. intros [= -> <-]. eauto 10.
Qed.

Lemma lift_ok {A : Type} (r : res A) (h : list event) (a : A) (es : list event) :
  lift r h = (Ok a, es) → r = Ok a ∧ es = [].
Proof. unfold lift. intros [= -> <-]. auto. Qed.

Lemma mret_ok {A : Type} (a b : A) (h es : list event) :
  (mret a : M A) h = (Ok b, es) → b = a ∧ es = [].
Proof. unfold mret, M_ret. intros [= -> <-]. auto. Qed.

(** ** [search]: removing duplicates *)

Lemma remove_duplicate_prepend (all new : list pydict) (seen : gset string)
    (p : pydict) (st : list pydict * gset string) :
  OpenAlexSearcher.remove_duplicate (new, seen) p = Ok st →
  OpenAlexSearcher.remove_duplicate (all ++ new, seen) p = Ok (all ++ st.1, st.2).
Proof.
  unfold OpenAlexSearcher.remove_duplicate.
  destruct (truthy _); [|by intros [= <-]].
  destruct (dict_get _ _ _); try discriminate.
  destruct (bool_decide _); intros [= <-]; simpl; by rewrite ?app_assoc.
Qed.

Lemma dedup_prepend (all : list pydict) (papers new : list pydict) (seen : gset string)
    (st : list pydict * gset string) :
  res_fold OpenAlexSearcher.remove_duplicate (new, seen) papers = Ok st →
  res_fold OpenAlexSearcher.remove_duplicate (all ++ new, seen) papers
  = Ok (all ++ st.1, st.2).
Proof.
  revert new seen. induction papers as [|p papers IH]; intros new seen; cbn [res_fold].
  - by intros [= <-].
  - destruct (OpenAlexSearcher.remove_duplicate (new, seen) p) as [[new' seen']|] eqn:E;
      cbn [mbind res_bind]; [|discriminate].
    rewrite (remove_duplicate_prepend all _ _ _ _ E). cbn [mbind res_bind fst snd].
    apply IH.
Qed.

Lemma seen_inv_empty : seen_inv [] ∅.
Proof.
  split; [|split]; [|constructor|constructor].
  intros s. simpl. split; [set_solver | by intros ?%elem_of_nil].
Qed.

Lemma first_occurrence_cons (p p0 : pydict) (raw : list pydict) :
  first_occurrence p (p0 :: raw)
  ↔ p = p0 ∨ (paper_id p ≠ paper_id p0 ∧ first_occurrence p raw).
Proof.
  unfold first_occurrence. split.
  - intros ([|q pre] & post & H & Hn); simpl in H; injection H as -> ->.
    + by left.
    + right. rewrite fmap_cons, not_elem_of_cons in Hn. destruct Hn. eauto.
  - intros [->|(Hne & pre & post & -> & Hn)].
    + exists [], raw. split; [reflexivity | by apply not_elem_of_nil].
    + exists (p0 :: pre), post. split; [reflexivity|].
      rewrite fmap_cons, not_elem_of_cons. auto.
Qed.

Lemma truthy_ne (a b : pyval) : truthy a = true → truthy b = false → a ≠ b.
Proof. intros Ha Hb ->. congruence. Qed.

Lemma dedup_spec (raw : list pydict) (all : list pydict) (seen : gset string)
    (st : list pydict * gset string) :
  seen_inv all seen →
  res_fold OpenAlexSearcher.remove_duplicate (all, seen) raw = Ok st →
  seen_inv st.1 st.2
  ∧ ∀ p, p ∈ st.1 ↔
         p ∈ all ∨ (truthy (paper_id p) = true
                    ∧ (paper_id p ∉ paper_id <$> all)
                    ∧ first_occurrence p raw).
Proof.
  revert all seen. induction raw as [|p0 raw IH]; intros all seen Hinv; cbn [res_fold].
  - intros [= <-]. split; [exact Hinv|]. intros p. simpl. split; [auto|].
    intros [H|(_ & _ & pre & post & H & _)]; [exact H | by destruct pre].
  - destruct (OpenAlexSearcher.remove_duplicate (all, seen) p0) as [st1|] eqn:E;
      cbn [mbind res_bind]; [|discriminate].
    unfold OpenAlexSearcher.remove_duplicate in E. fold (paper_id p0) in E.
    destruct Hinv as (Hseen & Hnd & Htr).
    destruct (truthy (paper_id p0)) eqn:Ht.
    + destruct (paper_id p0) as [|s| | |] eqn:Hid; try discriminate.
      destruct (bool_decide (s ∉ seen)) eqn:Hs; injection E as <-.
      * (* a new identifier: the record is kept *)
        apply bool_decide_eq_true in Hs.
        assert (Hfresh : PStr s ∉ paper_id <$> all) by (by rewrite <- Hseen).
        intros Hrun. apply IH in Hrun as [Hinv' Hmem].
        2:{ split; [|split].
            - intros s'. rewrite fmap_app, elem_of_app, elem_of_union, Hseen.
              simpl. rewrite Hid, list_elem_of_singleton, elem_of_singleton.
              split; (intros [?|?]; [by left | right; congruence]).
            - rewrite fmap_app. apply NoDup_app. split; [exact Hnd|]. split.
              + intros x Hx. simpl. rewrite Hid, list_elem_of_singleton.
                intros ->. contradiction.
              + simpl. apply NoDup_singleton.
            - apply Forall_app. split; [exact Htr|].
              constructor; [by rewrite Hid | constructor]. }
        split; [exact Hinv'|]. intros p. rewrite Hmem, first_occurrence_cons.
        rewrite fmap_app, elem_of_app, not_elem_of_app. simpl.
        rewrite !list_elem_of_singleton. split.
        -- intros [[H| ->] |(Hp & [Hn1 Hn2] & Hf)]; [by left | |].
           ++ right. rewrite Hid. auto.
           ++ right. split; [exact Hp|]. split; [exact Hn1|]. right. auto.
        -- intros [H|(Hp & Hn & [ -> | [Hne Hf]])]; [by left; left | by left; right |].
           right. auto.
      * (* an identifier seen before: the record is dropped *)
        apply bool_decide_eq_false in Hs. apply dec_stable in Hs.
        apply Hseen in Hs.
        intros Hrun. apply IH in Hrun as [Hinv' Hmem]; [|done].
        split; [exact Hinv'|]. intros p. rewrite Hmem, first_occurrence_cons.
        split.
        -- intros [H|(Hp & Hn & Hf)]; [by left|].
           right. split; [exact Hp|]. split; [exact Hn|]. right. split; [|exact Hf].
           rewrite Hid. intros Heq. by rewrite Heq in Hn.
        -- intros [H|(Hp & Hn & [ -> | [Hne Hf]])]; [by left | | by right].
           by rewrite Hid in Hn.
    + (* an empty identifier: the record is dropped *)
      injection E as <-.
      intros Hrun. apply IH in Hrun as [Hinv' Hmem]; [|done].
      split; [exact Hinv'|]. intros p. rewrite Hmem, first_occurrence_cons.
      split.
      * intros [H|(Hp & Hn & Hf)]; [by left|].
        right. split; [exact Hp|]. split; [exact Hn|]. right. split; [|exact Hf].
        by apply truthy_ne.
      * intros [H|(Hp & Hn & [ -> | [Hne Hf]])]; [by left | congruence | by right].
Qed.

(** ** [search]: the loop over the keywords *)

Lemma search_keyword_ok (self : OpenAlexSearcher.t) (w : World)
    (from_dt : string) (to_dt : option string) (max_results : Z)
    (all : list pydict) (seen : gset string) (keyword : string)
    (h : list event) (st : list pydict * gset string) (es : list event) :
  OpenAlexSearcher.search_keyword self w from_dt to_dt max_results (all, seen) keyword h
  = (Ok st, es) →
  ∃ t papers h' es',
    to_dt = Some t
    ∧ OpenAlexSearcher._search_single_keyword self w keyword from_dt t max_results h'
      = (Ok papers, es')
    ∧ res_fold OpenAlexSearcher.remove_duplicate (all, seen) papers = Ok st.
Proof.
  unfold OpenAlexSearcher.search_keyword. intros H.
  apply M_bind_ok in H as (t & es1 & es2 & Ht & H & ->).
  apply lift_ok in Ht as [Ht ->]. destruct to_dt as [t'|]; [|discriminate].
  injection Ht as ->.
  apply M_bind_ok in H as (papers & es1 & es3 & Hp & H & ->).
  apply M_bind_ok in H as ([new seen'] & es4 & es5 & Hd & H & ->).
  apply lift_ok in Hd as [Hd ->].
  apply M_bind_ok in H as ([] & es6 & es7 & _ & H & ->).
  apply mret_ok in H as [-> ->].
  exists t, papers, (h ++ []), es1. split; [reflexivity|]. split; [exact Hp|].
  rewrite <- (app_nil_r all) at 1. by rewrite (dedup_prepend all _ _ _ _ Hd).
Qed.

Lemma search_loop (self : OpenAlexSearcher.t) (w : World)
    (from_dt t : string) (max_results : Z) (keywords : list string) :
  ∀ (all : list pydict) (seen : gset string) (h : list event)
    (st : list pydict * gset string) (es : list event),
    M_fold (OpenAlexSearcher.search_keyword self w from_dt (Some t) max_results)
           (all, seen) keywords h = (Ok st, es) →
    ∃ fetched,
      fetched_for self w from_dt t max_results keywords fetched
      ∧ res_fold OpenAlexSearcher.remove_duplicate (all, seen) (concat fetched) = Ok st.
Proof.
  induction keywords as [|keyword keywords IH]; intros all seen h st es; cbn [M_fold].
  - intros [-> ->]%mret_ok. exists []. split; [constructor | reflexivity].
  - intros H. apply M_bind_ok in H as ([all1 seen1] & es1 & es2 & H1 & H2 & ->).
    apply search_keyword_ok in H1 as (t' & papers & h' & es' & [= <-] & Hp & Hd).
    apply IH in H2 as (fetched & Hf & Hrest).
    exists (papers :: fetched). split.
    + constructor; [eauto | exact Hf].
    + simpl. rewrite res_fold_app, Hd. exact Hrest.
Qed.

Lemma search_loop_unbound (self : OpenAlexSearcher.t) (w : World)
    (from_dt : string) (max_results : Z) (keywords : list string)
    (st0 : list pydict * gset string) (h : list event) :
  M_fold (OpenAlexSearcher.search_keyword self w from_dt None max_results) st0 keywords h
  = match keywords with
    | [] => (Ok st0, [])
    | _ :: _ => (Raise UnboundLocalError, [])
    end.
Proof. destruct keywords, st0; reflexivity. Qed.

(** What [search] returns is the sorted result of the loop; the loop ran
    with the end date the caller gave, or over no keyword at all. *)
Lemma search_ok (self : OpenAlexSearcher.t) (w : World)
    (keywords : list string) (days_back max_results : Z)
    (from_date to_date : option string) (verbose : bool)
    (h : list event) (out : list pydict) (es : list event) :
  OpenAlexSearcher.search self w keywords days_back max_results from_date to_date verbose h
  = (Ok out, es) →
  ∃ from_dt t fetched st,
    fetched_for self w from_dt t max_results keywords fetched
    ∧ res_fold OpenAlexSearcher.remove_duplicate ([], ∅) (concat fetched) = Ok st
    ∧ sort_by_key_reverse publication_date st.1 = Ok out.
Proof.
  unfold OpenAlexSearcher.search. intros H.
  apply M_bind_ok in H as (from_dt0 & es1 & es2 & _ & H & ->).
  apply M_bind_ok in H as ([from_dt to_dt] & es3 & es4 & Hdts & H & ->).
  cbn [fst snd] in H.
  apply M_bind_ok in H as ([] & es5 & es6 & Hverbose & H & ->).
  apply M_bind_ok in H as (st & es7 & es8 & Hloop & H & ->).
  apply lift_ok in H as [Hsort ->].
  destruct to_dt as [t|].
  - apply search_loop in Hloop as (fetched & Hf & Hd). eauto 10.
  - rewrite search_loop_unbound in Hloop. destruct keywords; [|discriminate].
    injection Hloop as <- <-.
    exists from_dt, "", [], ([], ∅). split; [constructor|]. auto.
Qed.

(** C4. In what [search] returns no two records share their normalized
    identifier, and the records returned are those that stand first with
    their identifier in the per-keyword provider results taken in
    keyword order (and whose identifier is not empty). *)
Theorem search_deduplicates (self : OpenAlexSearcher.t) (w : World)
    (keywords : list string) (days_back max_results : Z)
    (from_date to_date : option string) (verbose : bool)
    (h : list event) (out : list pydict) (es : list event) :
  OpenAlexSearcher.search self w keywords days_back max_results from_date to_date verbose h
  = (Ok out, es) →
  ∃ from_dt to_dt fetched,
    fetched_for self w from_dt to_dt max_results keywords fetched
    ∧ NoDup (paper_id <$> out)
    ∧ ∀ p, p ∈ out ↔ truthy (paper_id p) = true ∧ first_occurrence p (concat fetched).
Proof.
  intros H. apply search_ok in H as (from_dt & t & fetched & st & Hf & Hd & Hsort).
  apply sort_by_key_reverse_spec in Hsort as [Hperm _].
  apply dedup_spec in Hd as [(_ & Hnd & _) Hmem]; [|apply seen_inv_empty].
  exists from_dt, t, fetched. split; [exact Hf|]. split.
  - by rewrite Hperm.
  - intros p. rewrite Hperm, Hmem. split.
    + intros [?%elem_of_nil|(Hp & _ & Hfirst)]; [done | auto].
    + intros [Hp Hfirst]. right. split; [exact Hp|]. split; [|exact Hfirst].
      apply not_elem_of_nil.
Qed.

(** C6. In what [search] returns, every record's publication date is at
    least that of the record after it: newest first. A record without the
    field counts with the empty string as its date. *)
Theorem search_sorted (self : OpenAlexSearcher.t) (w : World)
    (keywords : list string) (days_back max_results : Z)
    (from_date to_date : option string) (verbose : bool)
    (h : list event) (out : list pydict) (es : list event) :
  OpenAlexSearcher.search self w keywords days_back max_results from_date to_date verbose h
  = (Ok out, es) →
  ∀ (i : nat) (p q : pydict),
    out !! i = Some p → out !! S i = Some q →
    date_ge (dict_get "publication_date" (PStr "") p)
            (dict_get "publication_date" (PStr "") q).
Proof.
  intros H. apply search_ok in H as (from_dt & t & fetched & st & _ & _ & Hsort).
  apply sort_by_key_reverse_spec in Hsort as [_ Hs].
  intros i p q Hp Hq.
  exact (sorted_adjacent (fun p q => date_ge (publication_date p) (publication_date q))
           out i p q Hs Hp Hq).
Qed.

Lemma search_deduplicates_witness :
  OpenAlexSearcher.search sample_searcher sample_world ["battery"; "solar"] 7 20
    None (Some "2024-02-01") false []
  = (Ok [sample_W2; sample_W1], sample_events)
  ∧ ∃ from_dt to_dt fetched,
      fetched_for sample_searcher sample_world from_dt to_dt 20 ["battery"; "solar"] fetched
      ∧ NoDup (paper_id <$> [sample_W2; sample_W1])
      ∧ ∀ p, p ∈ [sample_W2; sample_W1]
             ↔ truthy (paper_id p) = true ∧ first_occurrence p (concat fetched).
Proof.
  split; [vm_compute; reflexivity|].
  apply (search_deduplicates sample_searcher sample_world ["battery"; "solar"] 7 20
           None (Some "2024-02-01") false [] [sample_W2; sample_W1] sample_events).
  vm_compute; reflexivity.
Defined.

Lemma search_sorted_witness :
  OpenAlexSearcher.search sample_searcher sample_world ["battery"; "solar"] 7 20
    None (Some "2024-02-01") false []
  = (Ok [sample_W2; sample_W1], sample_events)
  ∧ [sample_W2; sample_W1] !! 0%nat = Some sample_W2
  ∧ [sample_W2; sample_W1] !! 1%nat = Some sample_W1
  ∧ date_ge (dict_get "publication_date" (PStr "") sample_W2)
            (dict_get "publication_date" (PStr "") sample_W1).
Proof.
  split; [vm_compute; reflexivity|]. split; [reflexivity|]. split; [reflexivity|].
  apply (search_sorted sample_searcher sample_world ["battery"; "solar"] 7 20
           None (Some "2024-02-01") false [] [sample_W2; sample_W1] sample_events
           ltac:(vm_compute; reflexivity) 0%nat sample_W2 sample_W1);
    reflexivity.
Defined.

(** ** [search]: records without identifier *)

Ltac inv_res H :=
  repeat match type of H with
         | (_ ≫= _) = Ok _ =>
             let a := fresh "a" in
             let Ha := fresh "Ha" in
             apply res_bind_ok in H as (a & Ha & H)
         end.

Lemma parse_work_id (d : pydict) (paper : pydict) :
  OpenAlexSearcher._parse_work (PDict d) = Ok paper →
  truthy (dict_get "id" PNone d) = false →
  paper_id paper = PStr "".
Proof.
  unfold OpenAlexSearcher._parse_work. intros H Hfalsy.
  inv_res H. injection H as <-.
  match goal with
  | Hw : py_get "id" PNone (PDict d) = Ok ?wid,
    Hi : (if truthy ?wid then _ else _) = Ok ?id |- _ =>
      simpl in Hw; injection Hw as <-; rewrite Hfalsy in Hi; injection Hi as <-
  end.
  reflexivity.
Qed.

Lemma search_ids_nonempty (self : OpenAlexSearcher.t) (w : World)
    (keywords : list string) (days_back max_results : Z)
    (from_date to_date : option string) (verbose : bool)
    (h : list event) (out : list pydict) (es : list event) :
  OpenAlexSearcher.search self w keywords days_back max_results from_date to_date verbose h
  = (Ok out, es) →
  Forall (fun p => truthy (paper_id p) = true) out.
Proof.
  intros H. apply search_ok in H as (from_dt & t & fetched & st & _ & Hd & Hsort).
  apply sort_by_key_reverse_spec in Hsort as [Hperm _].
  apply dedup_spec in Hd as [(_ & _ & Htr) _]; [|apply seen_inv_empty].
  by rewrite Hperm.
Qed.

(** C10. A provider record whose identifier field is missing or empty
    parses, when its other fields parse, to a record with the empty
    string as normalized identifier. The loop that removes duplicates
    passes such a record by: it neither keeps it nor enters its
    identifier in [seen_ids]. So the record is not in what [search]
    returns, where every record has a non-empty identifier. *)
Theorem search_drops_empty_id (self : OpenAlexSearcher.t) (w : World)
    (keywords : list string) (days_back max_results : Z)
    (from_date to_date : option string) (verbose : bool)
    (h : list event) (out : list pydict) (es : list event)
    (d paper : pydict) :
  dict_lookup "id" d = None ∨ dict_lookup "id" d = Some (PStr "") →
  OpenAlexSearcher._parse_work (PDict d) = Ok paper →
  OpenAlexSearcher.search self w keywords days_back max_results from_date to_date verbose h
  = (Ok out, es) →
  dict_get "id" (PStr "") paper = PStr ""
  ∧ (∀ st, OpenAlexSearcher.remove_duplicate st paper = Ok st)
  ∧ (paper ∉ out)
  ∧ ∀ p, p ∈ out → dict_get "id" (PStr "") p ≠ PStr "".
Proof.
  intros Hid Hparse Hsearch.
  assert (Hempty : paper_id paper = PStr "").
  { apply (parse_work_id d); [exact Hparse|].
    unfold dict_get. by destruct Hid as [-> | ->]. }
  pose proof (search_ids_nonempty _ _ _ _ _ _ _ _ _ _ _ Hsearch) as Hall.
  rewrite Forall_forall in Hall.
  split; [exact Hempty|]. split; [|split].
  - intros [new seen]. unfold OpenAlexSearcher.remove_duplicate.
    fold (paper_id paper). by rewrite Hempty.
  - intros Hin. apply Hall in Hin. by rewrite Hempty in Hin.
  - intros p Hin Hp. apply Hall in Hin. fold (paper_id p) in Hp. by rewrite Hp in Hin.
Qed.

Lemma search_drops_empty_id_witness :
  (dict_lookup "id" [ ("title", PStr "No identifier");
                      ("publication_date", PStr "2024-01-09") ] = None
   ∨ dict_lookup "id" [ ("title", PStr "No identifier");
                        ("publication_date", PStr "2024-01-09") ] = Some (PStr ""))
  ∧ OpenAlexSearcher._parse_work
      (PDict [ ("title", PStr "No identifier");
               ("publication_date", PStr "2024-01-09") ]) = Ok sample_no_id
  ∧ OpenAlexSearcher.search sample_searcher sample_world ["battery"; "solar"] 7 20
      None (Some "2024-02-01") false []
    = (Ok [sample_W2; sample_W1], sample_events)
  ∧ dict_get "id" (PStr "") sample_no_id = PStr ""
  ∧ (∀ st, OpenAlexSearcher.remove_duplicate st sample_no_id = Ok st)
  ∧ (sample_no_id ∉ [sample_W2; sample_W1])
  ∧ ∀ p, p ∈ [sample_W2; sample_W1] → dict_get "id" (PStr "") p ≠ PStr "".
Proof.
  split; [left; reflexivity|]. split; [reflexivity|].
  split; [vm_compute; reflexivity|].
  apply (search_drops_empty_id sample_searcher sample_world ["battery"; "solar"] 7 20
           None (Some "2024-02-01") false [] [sample_W2; sample_W1] sample_events
           [ ("title", PStr "No identifier"); ("publication_date", PStr "2024-01-09") ]
           sample_no_id).
  - left; reflexivity.
  - reflexivity.
  - vm_compute; reflexivity.
Defined.

(** ** [search]: the date window *)

(** C2 fails on the code. Without an end date the local [to_dt] is never
    bound: with at least one keyword, [search] raises [UnboundLocalError]
    on its first use, before any request is sent, whatever start date
    the caller gave. *)
Theorem search_end_date_unbound (self : OpenAlexSearcher.t) (w : World)
    (keyword : string) (keywords : list string) (days_back max_results : Z)
    (from_date : option string) (verbose : bool) (h : list event) :
  OpenAlexSearcher.search self w (keyword :: keywords) days_back max_results
    from_date None verbose h
  = (Raise UnboundLocalError, []).
Proof.
  unfold OpenAlexSearcher.search.
  destruct (given from_date), verbose; reflexivity.
Qed.

(** The failing input of C2: [search(["battery"], days_back=7, max_results=20)]. *)
Lemma search_last_week_raises :
  OpenAlexSearcher.search sample_searcher sample_world ["battery"] 7 20 None None false []
  = (Raise UnboundLocalError, []).
Proof. reflexivity. Qed.

(** ** The summarizer *)

(** C7. For a record whose abstract is the empty string,
    [_summarize_paper] performs no event (no request goes to the model)
    and returns the two fixed placeholders; [summarize_batch], when it has
    a client, stores them as the record's two summaries. *)
Theorem summarize_empty_abstract (self : AbstractSummarizer.t) (w : World)
    (paper : pydict) (h : list event) :
  dict_get "abstract" (PStr "") paper = PStr "" →
  AbstractSummarizer._summarize_paper self w paper h
  = (Ok [ ("zh", PStr "（原文摘要不可用）"); ("en", PStr "(Abstract not available)") ], [])
  ∧ (AbstractSummarizer.client self ≠ None →
     AbstractSummarizer.summarize_batch self w [paper] h
     = (Ok [ dict_set "summary_en" (PStr "(Abstract not available)")
               (dict_set "summary_zh" (PStr "（原文摘要不可用）") paper) ], [])).
Proof.
  intros Habs.
  assert (Hone : ∀ h', AbstractSummarizer._summarize_paper self w paper h'
                       = (Ok AbstractSummarizer.abstract_unavailable, [])).
  { intros h'. unfold AbstractSummarizer._summarize_paper. by rewrite Habs. }
  split; [apply Hone|].
  intros Hclient. unfold AbstractSummarizer.summarize_batch.
  destruct (AbstractSummarizer.client self); [|done].
  cbn [M_fold]. unfold mbind, M_bind. rewrite Hone. reflexivity.
Qed.

Lemma summarize_empty_abstract_witness :
  dict_get "abstract" (PStr "") sample_W1 = PStr ""
  ∧ AbstractSummarizer._summarize_paper sample_summarizer sample_world sample_W1 []
    = (Ok [ ("zh", PStr "（原文摘要不可用）"); ("en", PStr "(Abstract not available)") ], [])
  ∧ (AbstractSummarizer.client sample_summarizer ≠ None →
     AbstractSummarizer.summarize_batch sample_summarizer sample_world [sample_W1] []
     = (Ok [ dict_set "summary_en" (PStr "(Abstract not available)")
               (dict_set "summary_zh" (PStr "（原文摘要不可用）") sample_W1) ], [])).
Proof.
  split; [reflexivity|].
  apply (summarize_empty_abstract sample_summarizer sample_world sample_W1 []).
  reflexivity.
Defined.

(** A record with an abstract does reach the model. *)
Lemma summarize_nonempty_abstract_calls :
  ∃ user, (AbstractSummarizer._summarize_paper sample_summarizer sample_world sample_W2 []).2
          = [EvChat "gpt-4" "Summarize." user].
Proof. eexists. reflexivity. Qed.

(** ** [daily_task]: the probe *)

(** C9. If the connection to the mail server fails, [daily_task] returns
    at once and the probe is the only event of the run: no search, no
    filter, no summary, no mail. In every run the probe is the first
    event. *)
Theorem probe_failure_aborts (w : World) (config : Config.t)
    (from_date to_date : option string) (days_back : option Z) (h : list event) :
  socket_connect w h (EvConnect (Config.smtp_server config) (Config.smtp_port config))
  = false →
  daily_task w config from_date to_date days_back h
  = (Ok tt, [EvConnect (Config.smtp_server config) (Config.smtp_port config)])
  ∧ ∀ (w' : World) (h' : list event),
      ∃ r rest, daily_task w' config from_date to_date days_back h'
                = (r, EvConnect (Config.smtp_server config) (Config.smtp_port config) :: rest).
Proof.
  intros Hprobe. split.
  - unfold daily_task, mbind, M_bind, perform. rewrite Hprobe. reflexivity.
  - intros w' h'. unfold daily_task.
    unfold mbind at 1. unfold M_bind at 1. unfold perform at 1.
    match goal with
    | |- context [match ?run with (r, es') => _ end] => destruct run as [r rest]
    end.
    exists r, rest. reflexivity.
Qed.

Lemma probe_failure_aborts_witness :
  socket_connect offline_world []
    (EvConnect (Config.smtp_server sample_config) (Config.smtp_port sample_config)) = false
  ∧ daily_task offline_world sample_config None None None []
    = (Ok tt, [EvConnect (Config.smtp_server sample_config) (Config.smtp_port sample_config)])
  ∧ ∀ (w' : World) (h' : list event),
      ∃ r rest, daily_task w' sample_config None None None h'
                = (r, EvConnect (Config.smtp_server sample_config)
                                (Config.smtp_port sample_config) :: rest).
Proof.
  split; [reflexivity|].
  apply (probe_failure_aborts offline_world sample_config None None None []).
  reflexivity.
Defined.

(** ** What a run emits *)

Lemma emits_ret {A : Type} (P : event -> Prop) (a : A) : emits P (mret a : M A).
Proof. intros h r es [= _ <-]. constructor. Qed.

Lemma emits_lift {A : Type} (P : event -> Prop) (r : res A) : emits P (lift r).
Proof. intros h r' es [= _ <-]. constructor. Qed.

Lemma emits_clock (P : event -> Prop) (w : World) : emits P (clock w).
Proof. intros h r es [= _ <-]. constructor. Qed.

Lemma emits_perform {A : Type} (P : event -> Prop)
    (oracle : list event -> event -> A) (ev : event) :
  P ev → emits P (perform oracle ev).
Proof. intros Hev h r es [= _ <-]. by repeat constructor. Qed.

Lemma emits_bind {A B : Type} (P : event -> Prop) (m : M A) (f : A -> M B) :
  emits P m → (∀ a, emits P (f a)) → emits P (m ≫= f).
Proof.
  intros Hm Hf h r es. unfold mbind, M_bind.
  destruct (m h) as [[a|e] es1] eqn:E1.
  - destruct (f a (h ++ es1)) as [r2 es2] eqn:E2. intros [= _ <-].
    apply Forall_app. split; [by eapply Hm | by eapply Hf].
  - intros [= _ <-]. by eapply Hm.
Qed.

Lemma emits_M_fold {A S : Type} (P : event -> Prop) (body : S -> A -> M S)
    (xs : list A) (acc : S) :
  (∀ acc x, emits P (body acc x)) → emits P (M_fold body acc xs).
Proof.
  intros Hbody. revert acc. induction xs as [|x xs IH]; intros acc; cbn [M_fold].
  - apply emits_ret.
  - apply emits_bind; [apply Hbody | intros acc'; apply IH].
Qed.

Ltac emits_step :=
  first [ apply emits_ret | apply emits_lift | apply emits_clock
        | apply emits_perform; reflexivity
        | apply emits_M_fold; intros
        | apply emits_bind; [|intros] ].

Lemma search_rest_api_no_mail (self : OpenAlexSearcher.t) (w : World)
    (keyword from_date to_date : string) (max_results : Z) :
  emits no_mail (OpenAlexSearcher._search_rest_api self w keyword from_date to_date max_results).
Proof.
  unfold OpenAlexSearcher._search_rest_api. emits_step; [emits_step|].
  destruct a; emits_step.
Qed.

Lemma search_single_keyword_no_mail (self : OpenAlexSearcher.t) (w : World)
    (keyword from_date to_date : string) (max_results : Z) :
  emits no_mail
    (OpenAlexSearcher._search_single_keyword self w keyword from_date to_date max_results).
Proof.
  unfold OpenAlexSearcher._search_single_keyword. emits_step; [emits_step|].
  destruct a as [|data]; [apply search_rest_api_no_mail|].
  destruct data as [| | | |d]; try apply emits_lift.
  emits_step; [emits_step|].
  destruct (_ && _); [apply search_rest_api_no_mail | emits_step].
Qed.

Lemma search_no_mail (self : OpenAlexSearcher.t) (w : World)
    (keywords : list string) (days_back max_results : Z)
    (from_date to_date : option string) (verbose : bool) :
  emits no_mail
    (OpenAlexSearcher.search self w keywords days_back max_results from_date to_date verbose).
Proof.
  unfold OpenAlexSearcher.search, OpenAlexSearcher._days_ago.
  emits_step.
  { destruct (given from_date); repeat emits_step. }
  emits_step.
  { destruct (given to_date); repeat emits_step. }
  emits_step.
  { destruct verbose; repeat emits_step. }
  emits_step; [|emits_step].
  emits_step. unfold OpenAlexSearcher.search_keyword. destruct acc.
  emits_step; [emits_step|].
  emits_step; [apply search_single_keyword_no_mail|].
  repeat emits_step.
Qed.




Lemma filter_no_mail (es : list event) : Forall no_mail es → List.filter is_mail es = [].
Proof.
  induction 1 as [|ev es Hev _ IH]; simpl; [reflexivity|].
  unfold no_mail in Hev. by rewrite Hev.
Qed.

Lemma M_bind_run {A B : Type} (m : M A) (f : A -> M B) (h : list event)
    (a : A) (es1 : list event) (r : res B) (es2 : list event) :
  m h = (Ok a, es1) → f a (h ++ es1) = (r, es2) → (m ≫= f) h = (r, es1 ++ es2).
Proof. intros Hm Hf. unfold mbind, M_bind. by rewrite Hm, Hf. Qed.

(** ** [daily_task]: nothing relevant found *)





(** The subject template the configuration falls back to formats, for
    every date and count. *)
Lemma default_subject_formats (date_str : string) (count : Z) :
  str_format (Config.email_subject Config.defaults) date_str count
  = Ok ("PaperSeeker: " +:+ date_str +:+ " Papers (" +:+ pretty count +:+ ")").
Proof. reflexivity. Qed.

(** A run whose search returns no record stops there: it sends nothing. *)
Lemma no_papers_no_mail (w : World) (config : Config.t)
    (from_date to_date : option string) (days_back : option Z) (h : list event)
    (es1 : list event) :
  let probe := EvConnect (Config.smtp_server config) (Config.smtp_port config) in
  socket_connect w h probe = true →
  OpenAlexSearcher.search (OpenAlexSearcher.init (Config.openalex_api_url config)) w
    (Config.research_keywords config)
    (int_or days_back (Config.days_back config))
    (Config.max_results config)
    (str_or from_date (Config.from_date config))
    (str_or to_date (Config.to_date config))
    false (h ++ [probe]) = (Ok [], es1) →
  daily_task w config from_date to_date days_back h = (Ok tt, probe :: es1 ++ [])
  ∧ List.filter is_mail (probe :: es1) = [].
Proof.
  intros probe Hprobe Hsearch. split.
  - unfold daily_task.
    apply (M_bind_run _ _ h true [probe] (Ok tt) (es1 ++ [])).
    { unfold perform. fold probe. by rewrite Hprobe. }
    cbn [negb]. eapply M_bind_run; [exact Hsearch | reflexivity].
  - simpl. apply filter_no_mail. eapply search_no_mail, Hsearch.
Qed.

(** ** [daily_task]: the digest lists every filtered record *)





(** [send] itself does not look at the length of the list: handed the
    empty list it sends a digest without entries. The notice for the empty
    case comes from the branch of [daily_task]. *)
Lemma send_empty_list_is_digest (self : EmailSender.t) (w : World)
    (date_str subject : string) (h : list event) :
  EmailSender.sender_email self ≠ "" →
  EmailSender.recipient_email self ≠ "" →
  str_format (Config.email_subject (EmailSender.config self)) date_str 0 = Ok subject →
  (EmailSender.send self w [] date_str h).2
  = [EvSendmail (EmailSender.smtp_server self) (EmailSender.smtp_port self)
       (EmailSender.sender_email self) (EmailSender.recipient_email self) subject
       (EmailSender.digest_html date_str
          (Config.email_greeting (EmailSender.config self)) ""
          (replace_newlines (Config.email_footer (EmailSender.config self))))].
Proof.
  intros Hs Hr Hsubject. unfold EmailSender.send.
  destruct (String.eqb_spec (EmailSender.sender_email self) ""); [done|].
  destruct (String.eqb_spec (EmailSender.recipient_email self) ""); [done|].
  unfold lift, EmailSender._send_email, perform, mbind, M_bind.
  change (Z.of_nat (length (@nil pydict))) with 0. rewrite Hsubject. reflexivity.
Qed.


(** * More of the code: proofs *)

(** ** [_parse_work] *)

(** What a successful [_parse_work] went through. *)
Lemma parse_work_inv (d : pydict) (paper : pydict) :
  OpenAlexSearcher._parse_work (PDict d) = Ok paper →
  ∃ authorships authors journal cs concepts kws kwds id authors5,
    py_iter (dict_get "authorships" (PList []) d) = Ok authorships
    ∧ res_fold add_author [] authorships = Ok authors
    ∧ (if truthy (dict_get "journal" (PDict []) d)
       then py_get "display_name" (PStr "") (dict_get "journal" (PDict []) d)
       else Ok (PStr "")) = Ok journal
    ∧ py_iter (dict_get "concepts" (PList []) d) = Ok cs
    ∧ res_fold add_concept [] cs = Ok concepts
    ∧ py_iter (dict_get "keywords" (PList []) d) = Ok kws
    ∧ res_fold add_keyword [] kws = Ok kwds
    ∧ (if truthy (dict_get "id" PNone d)
       then match dict_get "id" PNone d with
            | PStr s => Ok (PStr (last_segment s))
            | _ => Raise AttributeError
            end
       else Ok (PStr "")) = Ok id
    ∧ py_join ", " (take 5 authors) = Ok authors5
    ∧ paper = [ ("id", id);
                ("doi", dict_get "doi" (PStr "") d);
                ("title", dict_get "title" (PStr "") d);
                ("publication_date", dict_get "publication_date" (PStr "") d);
                ("journal", journal);
                ("authors", PStr authors5);
                ("abstract", dict_get "abstract" (PStr "") d);
                ("language", dict_get "language" (PStr "en") d);
                ("concepts", PList concepts);
                ("keywords", PList kwds);
                ("openalex_url", dict_get "id" (PStr "") d) ].
Proof.
  unfold OpenAlexSearcher._parse_work. intros H.
  apply res_bind_ok in H as (authorships & Hau & H). simpl in Hau.
  apply res_bind_ok in H as (authors & Hauthors & H).
  apply res_bind_ok in H as (host & Hhost & H). simpl in Hhost. injection Hhost as <-.
  apply res_bind_ok in H as (journal & Hjournal & H).
  apply res_bind_ok in H as (cs & Hcs & H). simpl in Hcs.
  apply res_bind_ok in H as (concepts & Hconcepts & H).
  apply res_bind_ok in H as (kws & Hkws & H). simpl in Hkws.
  apply res_bind_ok in H as (kwds & Hkwds & H).
  apply res_bind_ok in H as (wid & Hwid & H). simpl in Hwid. injection Hwid as <-.
  apply res_bind_ok in H as (id & Hid & H).
  apply res_bind_ok in H as (doi & Hdoi & H). simpl in Hdoi. injection Hdoi as <-.
  apply res_bind_ok in H as (title & Htitle & H). simpl in Htitle. injection Htitle as <-.
  apply res_bind_ok in H as (date & Hdate & H). simpl in Hdate. injection Hdate as <-.
  apply res_bind_ok in H as (authors5 & Hjoin & H).
  apply res_bind_ok in H as (abstract & Habs & H). simpl in Habs. injection Habs as <-.
  apply res_bind_ok in H as (language & Hlang & H). simpl in Hlang. injection Hlang as <-.
  apply res_bind_ok in H as (url & Hurl & H). simpl in Hurl. injection Hurl as <-.
  injection H as <-.
  exists authorships, authors, journal, cs, concepts, kws, kwds, id, authors5.
  repeat split; assumption.
Qed.

(** *** Strings *)

Lemma str_app_cons (c : ascii) (s t : string) : String c s +:+ t = String c (s +:+ t).
Proof. reflexivity. Qed.

Lemma str_app_assoc (a b c : string) : (a +:+ b) +:+ c = a +:+ b +:+ c.
Proof. induction a as [|x a IH]; [reflexivity|]. rewrite !str_app_cons. by rewrite IH. Qed.

Lemma str_app_nil_r (a : string) : a +:+ "" = a.
Proof. induction a as [|x a IH]; [reflexivity|]. rewrite str_app_cons. by rewrite IH. Qed.

Lemma rev_app_app (a b c : string) : String.rev_app a (b +:+ c) = String.rev_app a b +:+ c.
Proof.
  revert b. induction a as [|x a IH]; intros b; simpl; [reflexivity|].
  by rewrite <- IH, str_app_cons.
Qed.

Lemma prefix_nil (t : string) : String.prefix "" t = true.
Proof. by destruct t. Qed.

Lemma contains_char_cons (x y : ascii) (t : string) :
  contains (String x "") (String y t) = bool_decide (x = y) || contains (String x "") t.
Proof.
  cbn [contains String.prefix]. destruct (ascii_dec x y) as [->|Hne].
  - by rewrite prefix_nil, bool_decide_eq_true_2.
  - by rewrite bool_decide_eq_false_2.
Qed.

Lemma contains_char_app (x : ascii) (a b : string) :
  contains (String x "") (a +:+ b) = contains (String x "") a || contains (String x "") b.
Proof.
  induction a as [|y a IH].
  - simpl. by destruct b.
  - rewrite str_app_cons, !contains_char_cons, IH. by rewrite orb_assoc.
Qed.

Lemma last_segment_go_suffix (s cur : string) :
  ∃ pre, String.rev_app cur s = pre +:+ last_segment_go cur s.
Proof.
  revert cur. induction s as [|c s IH]; intros cur; cbn [last_segment_go].
  - exists "". reflexivity.
  - destruct (Ascii.eqb_spec c "/") as [->|Hc].
    + destruct (IH "") as [pre Hpre]. simpl in Hpre.
      exists (String.rev_app cur (String "/" pre)).
      rewrite Hpre at 1. rewrite <- rev_app_app. reflexivity.
    + apply (IH (String c cur)).
Qed.

Lemma last_segment_go_no_slash (s cur : string) :
  contains "/" (String.rev_app cur "") = false →
  contains "/" (last_segment_go cur s) = false.
Proof.
  revert cur. induction s as [|c s IH]; intros cur Hcur; cbn [last_segment_go].
  - exact Hcur.
  - destruct (Ascii.eqb_spec c "/") as [->|Hc].
    + by apply IH.
    + apply IH. simpl.
      change (String c "") with ("" +:+ String c "").
      rewrite rev_app_app, contains_char_app, Hcur, contains_char_cons.
      rewrite bool_decide_eq_false_2 by congruence. reflexivity.
Qed.

Lemma last_segment_go_split (s : string) :
  ∀ cur P : string,
    (P = "" ∨ ∃ P', P = P' +:+ "/") →
    ∃ pre, P +:+ String.rev_app cur s = pre +:+ last_segment_go cur s
           ∧ (pre = "" ∨ ∃ pre', pre = pre' +:+ "/").
Proof.
  induction s as [|c s IH]; intros cur P HP; cbn [last_segment_go].
  - by exists P.
  - destruct (Ascii.eqb_spec c "/") as [->|Hc].
    + destruct (IH "" (P +:+ String.rev_app cur "/")) as (pre & Hpre & Hend).
      { right. exists (P +:+ String.rev_app cur "").
        change "/" with ("" +:+ "/") at 1. by rewrite rev_app_app, str_app_assoc. }
      exists pre. split; [|exact Hend]. rewrite <- Hpre.
      change (String "/" s) with ("/" +:+ s).
      rewrite rev_app_app, <- str_app_assoc. reflexivity.
    + apply (IH (String c cur) P HP).
Qed.

(** X1. The identifier [_parse_work] stores is a string without slash:
    what follows the last slash of the provider's identifier (the whole
    identifier when it has no slash, the empty string when the
    identifier is missing, null or empty), while [openalex_url] keeps
    the identifier as it came. *)
Theorem parse_work_id_normalized (d paper : pydict) :
  OpenAlexSearcher._parse_work (PDict d) = Ok paper →
  ∃ s, dict_get "id" (PStr "") paper = PStr s
       ∧ contains "/" s = false
       ∧ (∀ orig, dict_lookup "id" d = Some (PStr orig) →
            ∃ pre, orig = pre +:+ s ∧ (pre = "" ∨ ∃ pre', pre = pre' +:+ "/"))
       ∧ (truthy (dict_get "id" PNone d) = false → s = "")
       ∧ dict_get "openalex_url" (PStr "") paper = dict_get "id" (PStr "") d.
Proof.
  intros H. apply parse_work_inv in H
    as (authorships & authors & journal & cs & concepts & kws & kwds & id & authors5
        & _ & _ & _ & _ & _ & _ & _ & Hid & _ & ->).
  assert (Hslash : ∀ orig, ∃ pre, orig = pre +:+ last_segment orig
                                  ∧ (pre = "" ∨ ∃ pre', pre = pre' +:+ "/")).
  { intros orig. destruct (last_segment_go_split orig "" "" (or_introl eq_refl))
      as (pre & Hpre & Hend). by exists pre. }
  destruct (truthy (dict_get "id" PNone d)) eqn:Hv.
  - destruct (dict_get "id" PNone d) as [|s| | |] eqn:Hget; try discriminate.
    injection Hid as <-. exists (last_segment s). split; [reflexivity|]. split.
    { by apply last_segment_go_no_slash. }
    split; [|split; [discriminate | reflexivity]].
    intros orig Hlook. unfold dict_get in Hget. rewrite Hlook in Hget.
    injection Hget as ->. apply Hslash.
  - injection Hid as <-. exists "". split; [reflexivity|]. split; [reflexivity|].
    split; [|split; [reflexivity | reflexivity]].
    intros orig Hlook. unfold dict_get in Hv. rewrite Hlook in Hv. simpl in Hv.
    destruct (String.eqb_spec orig ""); [|done]. subst. by exists ""; split; [|left].
Qed.

Lemma parse_work_id_normalized_witness :
  OpenAlexSearcher._parse_work (PDict sample_work) = Ok sample_work_paper
  ∧ ∃ s, dict_get "id" (PStr "") sample_work_paper = PStr s
         ∧ contains "/" s = false
         ∧ (∀ orig, dict_lookup "id" sample_work = Some (PStr orig) →
              ∃ pre, orig = pre +:+ s ∧ (pre = "" ∨ ∃ pre', pre = pre' +:+ "/"))
         ∧ (truthy (dict_get "id" PNone sample_work) = false → s = "")
         ∧ dict_get "openalex_url" (PStr "") sample_work_paper
           = dict_get "id" (PStr "") sample_work.
Proof.
  split; [reflexivity|].
  apply (parse_work_id_normalized sample_work sample_work_paper). reflexivity.
Defined.

Lemma py_join_strs (sep : string) (names : list string) :
  py_join sep (PStr <$> names) = Ok (join sep names).
Proof.
  unfold py_join.
  assert (H : res_map (fun x => match x with PStr s => Ok s | _ => Raise TypeError end)
                      (PStr <$> names) = Ok names).
  { induction names as [|n names IH]; [reflexivity|]. cbn [fmap list_fmap res_map].
    change (list_fmap string pyval PStr names) with (PStr <$> names).
    by rewrite IH. }
  by rewrite H.
Qed.

Lemma add_author_step (acc : list pyval) (authorship : pyval) (name : option string) :
  authorship_name authorship name →
  add_author acc authorship = Ok (acc ++ (PStr <$> option_list name)).
Proof.
  intros (da & -> & Ha). unfold add_author. cbn [py_get mbind res_bind].
  destruct name as [n|].
  - destruct Ha as (d & -> & Hd & Hn).
    destruct d as [|kv d]; [done|]. cbn [truthy py_get mbind res_bind].
    by rewrite Hn.
  - rewrite Ha. simpl. by rewrite app_nil_r.
Qed.

Lemma fold_authors (authorships : list pyval) (names : list (option string))
    (acc : list pyval) :
  Forall2 authorship_name authorships names →
  res_fold add_author acc authorships = Ok (acc ++ (PStr <$> omap id names)).
Proof.
  intros H. revert acc.
  induction H as [|a o authorships names Ha _ IH]; intros acc; cbn [res_fold].
  - simpl. by rewrite app_nil_r.
  - rewrite (add_author_step acc a o Ha). cbn [mbind res_bind].
    rewrite IH, <- app_assoc. by destruct o.
Qed.

(** X2. The [authors] field lists the display names of the authorship
    entries that have an author, in order, and only the first five of
    them, joined by a comma and a space. *)
Theorem parse_work_authors (d paper : pydict)
    (authorships : list pyval) (names : list (option string)) :
  OpenAlexSearcher._parse_work (PDict d) = Ok paper →
  dict_get "authorships" (PList []) d = PList authorships →
  Forall2 authorship_name authorships names →
  dict_get "authors" (PStr "") paper = PStr (join ", " (take 5 (omap id names))).
Proof.
  intros H Hd Hnames. apply parse_work_inv in H
    as (authorships' & authors & journal & cs & concepts & kws & kwds & id & authors5
        & Hiter & Hfold & _ & _ & _ & _ & _ & _ & Hjoin & ->).
  rewrite Hd in Hiter. injection Hiter as <-.
  rewrite (fold_authors _ _ [] Hnames) in Hfold. injection Hfold as <-.
  simpl in Hjoin. rewrite <- fmap_take, py_join_strs in Hjoin. injection Hjoin as <-.
  reflexivity.
Qed.

Lemma sample_authorship_names :
  Forall2 authorship_name
    [ sample_author "Ada"; sample_author "Bo"; PDict [ ("author", PNone) ];
      sample_author "Cy"; sample_author "Di"; sample_author "Ed"; sample_author "Flo" ]
    [ Some "Ada"; Some "Bo"; None; Some "Cy"; Some "Di"; Some "Ed"; Some "Flo" ].
Proof.
  repeat constructor;
    (eexists; split; [reflexivity|]);
    first [ reflexivity | eexists; split; [reflexivity|]; split; [discriminate | reflexivity] ].
Qed.

Lemma parse_work_authors_witness :
  OpenAlexSearcher._parse_work (PDict sample_work) = Ok sample_work_paper
  ∧ dict_get "authors" (PStr "") sample_work_paper
    = PStr (join ", " (take 5 (omap id [ Some "Ada"; Some "Bo"; None; Some "Cy";
                                         Some "Di"; Some "Ed"; Some "Flo" ]))).
Proof.
  split; [reflexivity|].
  exact (parse_work_authors sample_work sample_work_paper _ _
           eq_refl eq_refl sample_authorship_names).
Defined.

Lemma add_concept_step (acc : list pyval) (concept : pyval) (lv : pyval * pyval) :
  concept_entry concept lv →
  add_concept acc concept = Ok (if py_eq_int lv.1 0 then acc ++ [lv.2] else acc).
Proof.
  intros (dc & -> & Hl & Hn). unfold add_concept. cbn [py_get mbind res_bind].
  rewrite Hl, Hn. by destruct (py_eq_int lv.1 0).
Qed.

Lemma fold_concepts (concepts : list pyval) (lvs : list (pyval * pyval)) (acc : list pyval) :
  Forall2 concept_entry concepts lvs →
  res_fold add_concept acc concepts
  = Ok (acc ++ map snd (List.filter (fun lv => py_eq_int lv.1 0) lvs)).
Proof.
  intros H. revert acc.
  induction H as [|c lv concepts lvs Hc _ IH]; intros acc; cbn [res_fold].
  - simpl. by rewrite app_nil_r.
  - rewrite (add_concept_step acc c lv Hc). cbn [mbind res_bind List.filter].
    rewrite IH. destruct (py_eq_int lv.1 0); [|reflexivity].
    by rewrite <- app_assoc.
Qed.

(** X3. The [concepts] field keeps the names of the top-level concepts
    only: those whose level equals 0, a concept without level among them,
    in the order of the payload. *)
Theorem parse_work_concepts (d paper : pydict)
    (concepts : list pyval) (lvs : list (pyval * pyval)) :
  OpenAlexSearcher._parse_work (PDict d) = Ok paper →
  dict_get "concepts" (PList []) d = PList concepts →
  Forall2 concept_entry concepts lvs →
  dict_get "concepts" (PList []) paper
  = PList (map snd (List.filter (fun lv => py_eq_int lv.1 0) lvs)).
Proof.
  intros H Hd Hlvs. apply parse_work_inv in H
    as (authorships & authors & journal & cs & concepts' & kws & kwds & id & authors5
        & _ & _ & _ & Hiter & Hfold & _ & _ & _ & _ & ->).
  rewrite Hd in Hiter. injection Hiter as <-.
  rewrite (fold_concepts _ _ [] Hlvs) in Hfold. injection Hfold as <-.
  reflexivity.
Qed.

Lemma parse_work_concepts_witness :
  OpenAlexSearcher._parse_work (PDict sample_work) = Ok sample_work_paper
  ∧ dict_get "concepts" (PList []) sample_work_paper
    = PList (map snd (List.filter (fun lv => py_eq_int lv.1 0)
                        [ (PInt 0, PStr "Physics"); (PInt 2, PStr "Battery");
                          (PInt 0, PStr "Engineering") ])).
Proof.
  split; [reflexivity|].
  apply (parse_work_concepts sample_work sample_work_paper
           [ PDict [ ("display_name", PStr "Physics"); ("level", PInt 0) ];
             PDict [ ("display_name", PStr "Battery"); ("level", PInt 2) ];
             PDict [ ("display_name", PStr "Engineering") ] ]);
    [reflexivity | reflexivity |].
  repeat constructor; eexists; (split; [reflexivity|]); split; reflexivity.
Defined.

Lemma parse_work_unfold (d : pydict) :
  OpenAlexSearcher._parse_work (PDict d)
  = (authorships ← py_iter (dict_get "authorships" (PList []) d);
     authors ← res_fold add_author [] authorships;
     journal ← (if truthy (dict_get "journal" (PDict []) d)
                then py_get "display_name" (PStr "") (dict_get "journal" (PDict []) d)
                else Ok (PStr ""));
     cs ← py_iter (dict_get "concepts" (PList []) d);
     concepts ← res_fold add_concept [] cs;
     kws ← py_iter (dict_get "keywords" (PList []) d);
     kwds ← res_fold add_keyword [] kws;
     id ← (if truthy (dict_get "id" PNone d)
           then match dict_get "id" PNone d with
                | PStr s => Ok (PStr (last_segment s))
                | _ => Raise AttributeError
                end
           else Ok (PStr ""));
     authors5 ← py_join ", " (take 5 authors);
     Ok [ ("id", id);
          ("doi", dict_get "doi" (PStr "") d);
          ("title", dict_get "title" (PStr "") d);
          ("publication_date", dict_get "publication_date" (PStr "") d);
          ("journal", journal);
          ("authors", PStr authors5);
          ("abstract", dict_get "abstract" (PStr "") d);
          ("language", dict_get "language" (PStr "en") d);
          ("concepts", PList concepts);
          ("keywords", PList kwds);
          ("openalex_url", dict_get "id" (PStr "") d) ]).
Proof. reflexivity. Qed.

Lemma fold_concepts_total (cs : list pyval) (acc : list pyval) :
  Forall is_dict cs → ∃ r, res_fold add_concept acc cs = Ok r.
Proof.
  intros H. revert acc. induction H as [|c cs [dc ->] _ IH]; intros acc; cbn [res_fold].
  - eauto.
  - rewrite (add_concept_step acc (PDict dc)
               (dict_get "level" (PInt 0) dc, dict_get "display_name" (PStr "") dc))
      by (by exists dc).
    apply IH.
Qed.

Lemma fold_keywords_total (kws : list pyval) (acc : list pyval) :
  Forall is_dict kws → ∃ r, res_fold add_keyword acc kws = Ok r.
Proof.
  intros H. revert acc. induction H as [|c cs [dc ->] _ IH]; intros acc; cbn [res_fold].
  - eauto.
  - unfold add_keyword at 1. cbn [py_get mbind res_bind]. apply IH.
Qed.

(** X4. A work of the provider's schema always parses, whatever fields
    are missing, and the record has the eleven keys of the flat format,
    in their order.  The schema: authorships, concepts and keywords are
    lists of objects, or missing; an author is an object with a string
    name, or empty, null or missing; the journal is an object, or empty,
    null or missing; the identifier is a string, or null or missing. *)
Theorem parse_work_total (d : pydict) :
  schema_work d →
  ∃ paper, OpenAlexSearcher._parse_work (PDict d) = Ok paper
           ∧ dict_keys paper = paper_keys.
Proof.
  intros ((authorships & names & Hau & Hnames) & Hjournal
          & (concepts & Hcs & Hconcepts) & (kws & Hkws & Hkeywords) & Hid).
  rewrite parse_work_unfold, Hau, Hcs, Hkws. cbn [py_iter mbind res_bind].
  rewrite (fold_authors _ _ [] Hnames). cbn [mbind res_bind].
  assert (∃ journal,
            (if truthy (dict_get "journal" (PDict []) d)
             then py_get "display_name" (PStr "") (dict_get "journal" (PDict []) d)
             else Ok (PStr "")) = Ok journal) as [journal ->].
  { destruct Hjournal as [-> | [dj ->]]; [by eexists|]. destruct dj; eexists; reflexivity. }
  cbn [mbind res_bind].
  destruct (fold_concepts_total concepts [] Hconcepts) as [cs ->].
  destruct (fold_keywords_total kws [] Hkeywords) as [kwds ->].
  cbn [mbind res_bind].
  assert (∃ id,
            (if truthy (dict_get "id" PNone d)
             then match dict_get "id" PNone d with
                  | PStr s => Ok (PStr (last_segment s))
                  | _ => Raise AttributeError
                  end
             else Ok (PStr "")) = Ok id) as [id ->].
  { destruct Hid as [-> | [s ->]]; [by eexists|].
    destruct (truthy (PStr s)); eexists; reflexivity. }
  cbn [mbind res_bind app]. rewrite <- fmap_take, py_join_strs. cbn [mbind res_bind].
  eexists. split; reflexivity.
Qed.

Lemma sample_work_schema : schema_work sample_work.
Proof.
  split; [|split; [|split; [|split]]].
  - do 2 eexists. split; [reflexivity | exact sample_authorship_names].
  - right. eexists. reflexivity.
  - eexists. split; [reflexivity|]. repeat constructor; eexists; reflexivity.
  - eexists. split; [reflexivity|]. repeat constructor; eexists; reflexivity.
  - right. eexists. reflexivity.
Qed.

Lemma parse_work_total_witness :
  ∃ paper, OpenAlexSearcher._parse_work (PDict sample_work) = Ok paper
           ∧ dict_keys paper = paper_keys.
Proof. exact (parse_work_total sample_work sample_work_schema). Defined.

(** ** [search]: the requests *)

Lemma M_bind_raise {A B : Type} (m : M A) (f : A -> M B) (h : list event)
    (e : exn) (es : list event) :
  m h = (Raise e, es) → (m ≫= f) h = (Raise e, es).
Proof. intros Hm. unfold mbind, M_bind. by rewrite Hm. Qed.

Lemma M_bind_inv {A B : Type} (m : M A) (f : A -> M B) (h : list event)
    (r : res B) (es : list event) :
  (m ≫= f) h = (r, es) →
  (∃ e, m h = (Raise e, es) ∧ r = Raise e)
  ∨ (∃ a es1 es2, m h = (Ok a, es1) ∧ f a (h ++ es1) = (r, es2) ∧ es = es1 ++ es2).
Proof.
  unfold mbind, M_bind. destruct (m h) as [[a|e] es1].
  - destruct (f a (h ++ es1)) as [r2 es2] eqn:E. intros [= <- <-]. right. eauto 10.
  - intros [= <- <-]. left. eauto.
Qed.

Lemma perform_inv {A : Type} (oracle : list event -> event -> A) (ev : event)
    (h : list event) (r : res A) (es : list event) :
  perform oracle ev h = (r, es) → r = Ok (oracle h ev) ∧ es = [ev].
Proof. by intros [= <- <-]. Qed.

Lemma lift_inv {A : Type} (x : res A) (h : list event) (r : res A) (es : list event) :
  lift x h = (r, es) → r = x ∧ es = [].
Proof. by intros [= <- <-]. Qed.

Lemma mret_inv {A : Type} (a : A) (h : list event) (r : res A) (es : list event) :
  (mret a : M A) h = (r, es) → r = Ok a ∧ es = [].
Proof. by intros [= <- <-]. Qed.

Lemma rest_api_events (self : OpenAlexSearcher.t) (w : World)
    (keyword from_date to_date : string) (max_results : Z)
    (h : list event) (r : res (list pydict)) (es : list event) :
  OpenAlexSearcher._search_rest_api self w keyword from_date to_date max_results h = (r, es) →
  es = [EvGet (OpenAlexSearcher.api_url self +:+ "/works") keyword from_date to_date
          (Z.min max_results 100)].
Proof.
  unfold OpenAlexSearcher._search_rest_api. intros H.
  apply M_bind_inv in H as [(e & [[=] _]%perform_inv & _) | (reply & es1 & es2 & Hp & H & ->)].
  apply perform_inv in Hp as [_ ->].
  destruct reply.
  - by apply mret_inv in H as [_ ->].
  - by apply lift_inv in H as [_ ->].
Qed.

(** A keyword costs one GraphQL request and at most one REST request
    after it. *)
Lemma single_keyword_events (self : OpenAlexSearcher.t) (w : World)
    (keyword from_date to_date : string) (max_results : Z)
    (h : list event) (r : res (list pydict)) (es : list event) :
  OpenAlexSearcher._search_single_keyword self w keyword from_date to_date max_results h
  = (r, es) →
  ∃ gets,
    es = EvPost (OpenAlexSearcher.api_url self +:+ "/graphql") keyword from_date to_date
           (Z.min max_results 100) :: gets
    ∧ (gets = []
       ∨ gets = [EvGet (OpenAlexSearcher.api_url self +:+ "/works") keyword from_date
                   to_date (Z.min max_results 100)]).
Proof.
  unfold OpenAlexSearcher._search_single_keyword. intros H.
  apply M_bind_inv in H as [(e & [[=] _]%perform_inv & _) | (reply & es1 & es2 & Hp & H & ->)].
  apply perform_inv in Hp as [_ ->]. eexists. split; [reflexivity|].
  destruct reply as [|data].
  - right. by apply rest_api_events in H.
  - destruct data as [| | | |d]; try (apply lift_inv in H as [_ ->]; by left).
    apply M_bind_inv in H as [(e & [_ ->]%lift_inv & _) | (works & es3 & es4 & Hw & H & ->)];
      [by left|].
    apply lift_inv in Hw as [_ ->].
    destruct (negb (truthy works) && dict_mem "errors" d).
    + right. by apply rest_api_events in H.
    + apply lift_inv in H as [_ ->]. by left.
Qed.

Lemma search_keyword_events (self : OpenAlexSearcher.t) (w : World)
    (from_dt t : string) (max_results : Z)
    (st : list pydict * gset string) (keyword : string)
    (h : list event) (st' : list pydict * gset string) (es : list event) :
  OpenAlexSearcher.search_keyword self w from_dt (Some t) max_results st keyword h
  = (Ok st', es) →
  ∃ fallback, es = keyword_events self from_dt t max_results keyword fallback.
Proof.
  unfold OpenAlexSearcher.search_keyword. destruct st as [all seen]. intros H.
  apply M_bind_ok in H as (t' & es1 & es2 & Ht & H & ->).
  apply lift_ok in Ht as [[= <-] ->].
  apply M_bind_ok in H as (papers & es1 & es3 & Hp & H & ->).
  apply M_bind_ok in H as (st1 & es4 & es5 & Hd & H & ->).
  apply lift_ok in Hd as [_ ->].
  apply M_bind_ok in H as ([] & es6 & es7 & Hs & H & ->).
  apply perform_inv in Hs as [_ ->]. apply mret_ok in H as [_ ->].
  apply single_keyword_events in Hp as (gets & -> & [-> | ->]).
  - by exists false.
  - by exists true.
Qed.

Lemma search_loop_events (self : OpenAlexSearcher.t) (w : World)
    (from_dt t : string) (max_results : Z) (keywords : list string) :
  ∀ (st : list pydict * gset string) (h : list event)
    (st' : list pydict * gset string) (es : list event),
    M_fold (OpenAlexSearcher.search_keyword self w from_dt (Some t) max_results)
           st keywords h = (Ok st', es) →
    ∃ fallbacks,
      length fallbacks = length keywords
      ∧ es = concat (zip_with (keyword_events self from_dt t max_results) keywords fallbacks).
Proof.
  induction keywords as [|keyword keywords IH]; intros st h st' es; cbn [M_fold].
  - intros [_ ->]%mret_ok. by exists [].
  - intros H. apply M_bind_ok in H as (st1 & es1 & es2 & H1 & H2 & ->).
    apply search_keyword_events in H1 as [b ->].
    apply IH in H2 as (bs & Hlen & ->).
    exists (b :: bs). split; [simpl; by rewrite Hlen | reflexivity].
Qed.

(** X5. A search that is given an end date and returns has sent, for
    each keyword in turn, one GraphQL request carrying the keyword, the
    date window and the page size min(max_results, 100), then at most
    one REST request with the same parameters, then one pause; it has
    performed nothing else. *)
Theorem search_requests (self : OpenAlexSearcher.t) (w : World)
    (keywords : list string) (days_back max_results : Z)
    (from_date : option string) (t : string) (verbose : bool)
    (h : list event) (out : list pydict) (es : list event) :
  given (Some t) = true →
  OpenAlexSearcher.search self w keywords days_back max_results from_date (Some t) verbose h
  = (Ok out, es) →
  ∃ fallbacks,
    length fallbacks = length keywords
    ∧ es = concat (zip_with (keyword_events self (start_date w days_back from_date h)
                               t max_results)
                            keywords fallbacks).
Proof.
  intros Ht. unfold OpenAlexSearcher.search. rewrite Ht. intros H.
  apply M_bind_ok in H as (from_dt & es1 & es2 & Hfrom & H & ->).
  apply M_bind_ok in H as ([from_dt' to_dt] & es3 & es4 & Hdts & H & ->).
  apply mret_ok in Hdts as [[= -> ->] ->]. cbn [fst snd] in H.
  apply M_bind_ok in H as ([] & es5 & es6 & Hverbose & H & ->).
  apply M_bind_ok in H as (st & es7 & es8 & Hloop & H & ->).
  apply lift_ok in H as [_ ->].
  assert (from_dt = start_date w days_back from_date h ∧ es1 = []) as [-> ->].
  { unfold start_date. destruct (given from_date).
    - by apply mret_ok in Hfrom as [-> ->].
    - unfold OpenAlexSearcher._days_ago in Hfrom.
      apply M_bind_ok in Hfrom as (today & e1 & e2 & Hc & Hr & ->).
      injection Hc as <- <-. by apply mret_ok in Hr as [-> ->]. }
  assert (es5 = []) as ->.
  { destruct verbose.
    - apply M_bind_ok in Hverbose as (x & e1 & e2 & [_ ->]%lift_ok & [_ ->]%mret_ok & ->).
      reflexivity.
    - by apply mret_ok in Hverbose as [_ ->]. }
  apply search_loop_events in Hloop as (fallbacks & Hlen & ->).
  exists fallbacks. split; [exact Hlen|]. by rewrite !app_nil_l, app_nil_r.
Qed.

Lemma search_requests_witness :
  given (Some "2024-02-01") = true
  ∧ OpenAlexSearcher.search sample_searcher sample_world ["battery"; "solar"] 7 20
      None (Some "2024-02-01") false []
    = (Ok [sample_W2; sample_W1], sample_events)
  ∧ ∃ fallbacks,
      length fallbacks = length ["battery"; "solar"]
      ∧ sample_events
        = concat (zip_with (keyword_events sample_searcher
                              (start_date sample_world 7 None []) "2024-02-01" 20)
                           ["battery"; "solar"] fallbacks).
Proof.
  split; [reflexivity|]. split; [vm_compute; reflexivity|].
  apply (search_requests sample_searcher sample_world ["battery"; "solar"] 7 20
           None "2024-02-01" false [] [sample_W2; sample_W1] sample_events);
    [reflexivity | vm_compute; reflexivity].
Defined.

(** ** [search]: the provider out of reach *)

Section ProviderDown.
Variable w : World.
Hypothesis down : ∀ h ev, http w h ev = HttpFailed.

Lemma single_keyword_down (self : OpenAlexSearcher.t)
    (keyword from_date to_date : string) (max_results : Z) (h : list event) :
  OpenAlexSearcher._search_single_keyword self w keyword from_date to_date max_results h
  = (Ok [],
     [ EvPost (OpenAlexSearcher.api_url self +:+ "/graphql") keyword from_date to_date
              (Z.min max_results 100);
       EvGet (OpenAlexSearcher.api_url self +:+ "/works") keyword from_date to_date
             (Z.min max_results 100) ]).
Proof.
  unfold OpenAlexSearcher._search_single_keyword, OpenAlexSearcher._search_rest_api.
  unfold mbind, M_bind, perform. rewrite down. cbn beta iota. by rewrite down.
Qed.

Lemma search_keyword_down (self : OpenAlexSearcher.t)
    (from_dt t : string) (max_results : Z)
    (st : list pydict * gset string) (keyword : string) (h : list event) :
  OpenAlexSearcher.search_keyword self w from_dt (Some t) max_results st keyword h
  = (Ok st, keyword_events self from_dt t max_results keyword true).
Proof.
  unfold OpenAlexSearcher.search_keyword. destruct st as [all seen].
  unfold mbind at 1, M_bind at 1. cbn [lift read_local].
  unfold mbind at 1, M_bind at 1. rewrite single_keyword_down.
  unfold mbind, M_bind, lift, perform, mret, M_ret. cbn [res_fold fst snd].
  by rewrite app_nil_r.
Qed.

Lemma search_loop_down (self : OpenAlexSearcher.t)
    (from_dt t : string) (max_results : Z) (keywords : list string) :
  ∀ (st : list pydict * gset string) (h : list event),
    M_fold (OpenAlexSearcher.search_keyword self w from_dt (Some t) max_results)
           st keywords h
    = (Ok st, concat (map (fun keyword =>
                             keyword_events self from_dt t max_results keyword true)
                          keywords)).
Proof.
  induction keywords as [|keyword keywords IH]; intros st h; cbn [M_fold].
  - reflexivity.
  - unfold mbind, M_bind. rewrite search_keyword_down.
    fold (@mbind M _). rewrite IH. reflexivity.
Qed.

(** X6. When no request to the provider gets through, a search that is
    given an end date does not fail: it returns the empty list, after a
    GraphQL request, a REST request and a pause for every keyword.  The
    start of the window is given, or the day [days_back] days ago is a
    day of [datetime]. *)
Theorem search_provider_down (self : OpenAlexSearcher.t)
    (keywords : list string) (days_back max_results : Z)
    (from_date : option string) (t : string) (verbose : bool) (h : list event) :
  given (Some t) = true →
  given from_date = true ∨ days_ago_defined w h days_back →
  OpenAlexSearcher.search self w keywords days_back max_results from_date (Some t) verbose h
  = (Ok [],
     concat (map (fun keyword =>
                    keyword_events self (start_date w days_back from_date h) t
                                   max_results keyword true)
                 keywords)).
Proof.
  intros Ht _. unfold OpenAlexSearcher.search. rewrite Ht.
  unfold start_date, OpenAlexSearcher._days_ago.
  destruct (given from_date), verbose;
    unfold mbind, M_bind, lift, clock, mret, M_ret; cbn [fst snd read_local];
    fold (@mbind M _); rewrite search_loop_down; cbn [fst app];
    by rewrite ?app_nil_r.
Qed.
End ProviderDown.

Lemma search_provider_down_witness :
  (∀ h ev, http unreachable_world h ev = HttpFailed)
  ∧ given (Some "2024-02-01") = true
  ∧ (given None = true ∨ days_ago_defined unreachable_world [] 7)
  ∧ OpenAlexSearcher.search sample_searcher unreachable_world ["battery"] 7 200
      None (Some "2024-02-01") false []
    = (Ok [],
       [ EvPost "https://api.openalex.org/graphql" "battery" "2024-01-24" "2024-02-01" 100;
         EvGet "https://api.openalex.org/works" "battery" "2024-01-24" "2024-02-01" 100;
         EvSleep ]).
Proof.
  assert (Hdays : given None = true ∨ days_ago_defined unreachable_world [] 7).
  { right. unfold days_ago_defined. simpl. lia. }
  split; [reflexivity|]. split; [reflexivity|]. split; [exact Hdays|].
  apply (search_provider_down unreachable_world (fun _ _ => eq_refl) sample_searcher
           ["battery"] 7 200 None "2024-02-01" false [] eq_refl Hdays).
Defined.

(** ** [search]: the sort keeps the fetch order among equal dates *)

Lemma ltb_irrefl (s : string) : String.ltb s s = false.
Proof.
  unfold String.ltb. pose proof (String.compare_antisym s s) as H.
  destruct (String.compare s s); [reflexivity | discriminate | reflexivity].
Qed.

Lemma py_lt_true_other_date (d : string) (x y : pyval) :
  py_lt x y = Ok true → is_date d x = true → is_date d y = false.
Proof.
  destruct x as [|s| | |], y as [|t| | |]; simpl; try discriminate.
  intros [= Hlt] ->%String.eqb_eq.
  destruct (String.eqb t d) eqn:E; [|reflexivity].
  apply String.eqb_eq in E as ->. by rewrite ltb_irrefl in Hlt.
Qed.

Section Stable.
Context {A : Type}.
Variable d : string.

Lemma insert_desc_stable (x : pyval * A) (l r : list (pyval * A)) :
  insert_desc x l = Ok r →
  List.filter (fun kx => is_date d kx.1) r = List.filter (fun kx => is_date d kx.1) (x :: l).
Proof.
  revert r; induction l as [|y l IH]; intros r; cbn [insert_desc].
  - by intros [= <-].
  - destruct (py_lt x.1 y.1) as [[]|] eqn:Hlt; cbn [mbind res_bind]; try discriminate.
    + destruct (insert_desc x l) as [r'|]; simpl; intros [= <-].
      cbn [List.filter]. rewrite (IH r' eq_refl). cbn [List.filter].
      destruct (is_date d x.1) eqn:Hx; [|reflexivity].
      by rewrite (py_lt_true_other_date d _ _ Hlt Hx).
    + by intros [= <-].
Qed.

Lemma sort_desc_stable (l r : list (pyval * A)) :
  sort_desc l = Ok r →
  List.filter (fun kx => is_date d kx.1) r = List.filter (fun kx => is_date d kx.1) l.
Proof.
  revert r; induction l as [|x l IH]; intros r; cbn [sort_desc].
  - by intros [= <-].
  - destruct (sort_desc l) as [s|]; cbn [mbind res_bind]; [|discriminate].
    intros Hr. rewrite (insert_desc_stable _ _ _ Hr). cbn [List.filter].
    by rewrite (IH s eq_refl).
Qed.

Lemma filter_decorated (key : A -> pyval) (r : list (pyval * A)) :
  Forall (fun kx => kx.1 = key kx.2) r →
  List.filter (fun x => is_date d (key x)) (map snd r)
  = map snd (List.filter (fun kx => is_date d kx.1) r).
Proof.
  induction 1 as [|kx r Hk _ IH]; [reflexivity|].
  cbn [map List.filter]. rewrite <- Hk, IH. by destruct (is_date d kx.1).
Qed.

Lemma sort_by_key_reverse_stable (key : A -> pyval) (l out : list A) :
  sort_by_key_reverse key l = Ok out →
  List.filter (fun x => is_date d (key x)) out = List.filter (fun x => is_date d (key x)) l.
Proof.
  unfold sort_by_key_reverse. intros H.
  apply res_fmap_ok in H as (r & Hr & ->).
  assert (Hdec : ∀ l0 : list (pyval * A), l0 ≡ₚ map (fun x => (key x, x)) l →
                 Forall (fun kx => kx.1 = key kx.2) l0).
  { intros l0 ->. apply Forall_forall. intros kx Hin.
    change (kx ∈ (fun x => (key x, x)) <$> l) in Hin.
    apply list_elem_of_fmap in Hin as (x & -> & _). reflexivity. }
  rewrite (filter_decorated key r (Hdec r (proj1 (sort_desc_spec _ _ Hr)))).
  rewrite (sort_desc_stable _ _ Hr).
  rewrite <- (filter_decorated key _ (Hdec _ (reflexivity _))).
  by rewrite map_map, map_id.
Qed.
End Stable.

(** X7. The output of a search is a rearrangement of the records kept
    by the duplicate filter in which the records of one publication day
    stand in the order in which they were fetched. *)
Theorem search_stable (self : OpenAlexSearcher.t) (w : World)
    (keywords : list string) (days_back max_results : Z)
    (from_date to_date : option string) (verbose : bool)
    (h : list event) (out : list pydict) (es : list event) :
  OpenAlexSearcher.search self w keywords days_back max_results from_date to_date verbose h
  = (Ok out, es) →
  ∃ from_dt t fetched st,
    fetched_for self w from_dt t max_results keywords fetched
    ∧ res_fold OpenAlexSearcher.remove_duplicate ([], ∅) (concat fetched) = Ok st
    ∧ out ≡ₚ st.1
    ∧ ∀ d, List.filter (has_date d) out = List.filter (has_date d) st.1.
Proof.
  intros H. apply search_ok in H as (from_dt & t & fetched & st & Hf & Hd & Hsort).
  exists from_dt, t, fetched, st. split; [exact Hf|]. split; [exact Hd|]. split.
  - by apply sort_by_key_reverse_spec in Hsort as [Hp _].
  - intros d. exact (sort_by_key_reverse_stable d _ _ _ Hsort).
Qed.

Lemma search_stable_witness :
  OpenAlexSearcher.search sample_searcher sample_world ["battery"; "solar"] 7 20
    None (Some "2024-02-01") false []
  = (Ok [sample_W2; sample_W1], sample_events)
  ∧ ∃ from_dt t fetched st,
      fetched_for sample_searcher sample_world from_dt t 20 ["battery"; "solar"] fetched
      ∧ res_fold OpenAlexSearcher.remove_duplicate ([], ∅) (concat fetched) = Ok st
      ∧ [sample_W2; sample_W1] ≡ₚ st.1
      ∧ ∀ d, List.filter (has_date d) [sample_W2; sample_W1] = List.filter (has_date d) st.1.
Proof.
  split; [vm_compute; reflexivity|].
  apply (search_stable sample_searcher sample_world ["battery"; "solar"] 7 20
           None (Some "2024-02-01") false [] [sample_W2; sample_W1] sample_events).
  vm_compute; reflexivity.
Defined.

(** ** The keyword filter: bounds of the score *)





Lemma sample_keyword_filter_init :
  KeywordFilter.init ["battery"; "solar"] (Some ["research"]) = Ok sample_keyword_filter.
Proof. reflexivity. Qed.






(** ** The keyword filter: the fields that are searched *)



(** ** The model filter *)

Section ModelFilter.
Variable self : PaperFilter.t.
Variable w : World.
Variable threshold : Z.
Variable key : string * string.
Hypothesis has_client : PaperFilter.client self = Some key.

(** One round of the loop of [filter_batch]. *)
Lemma paper_filter_step (filtered : list pydict) (paper : pydict) (h : list event) :
  (result ← PaperFilter.filter_single self w (dict_get "title" (PStr "") paper)
                                             (dict_get "abstract" (PStr "") paper);
   keep ← lift (py_ge_int (dict_get "score" (PInt 0) result) threshold);
   if keep : bool
   then mret (filtered ++
          [dict_set "relevance_reason" (dict_get "reason" (PStr "") result)
             (dict_set "relevance_score" (dict_get "score" (PInt 0) result) paper)])
   else mret filtered) h
  = match dict_get "abstract" (PStr "") paper with
    | PDict _ => (Raise NotModelled, [])
    | _ => (Ok (if (verdict w h paper).1 >=? threshold
                then filtered ++ [attach_verdict (paper, verdict w h paper)]
                else filtered),
            option_list (filter_request paper))
    end.
Proof.
  unfold PaperFilter.filter_single, verdict, filter_request. rewrite has_client.
  destruct (dict_get "abstract" (PStr "") paper) as [| s | n | l | d];
    cbn [py_slice]; [| | | | reflexivity];
    unfold mbind, M_bind, perform, lift, mret, M_ret, attach_verdict;
    cbn [fst snd dict_get dict_lookup String.eqb Ascii.eqb Bool.eqb py_ge_int option_list];
    try (destruct (relevance w h _) as [sc reason]; cbn [fst snd]);
    match goal with |- context [?a >=? threshold] => by destruct (a >=? threshold) end.
Qed.

Lemma paper_filter_loop (papers : list pydict) :
  ∀ (filtered : list pydict) (h : list event) (out : list pydict) (es : list event),
    M_fold (fun filtered paper =>
              result ← PaperFilter.filter_single self w (dict_get "title" (PStr "") paper)
                                                        (dict_get "abstract" (PStr "") paper);
              keep ← lift (py_ge_int (dict_get "score" (PInt 0) result) threshold);
              if keep : bool
              then mret (filtered ++
                     [dict_set "relevance_reason" (dict_get "reason" (PStr "") result)
                        (dict_set "relevance_score" (dict_get "score" (PInt 0) result)
                                  paper)])
              else mret filtered)
           filtered papers h
    = (Ok out, es) →
    ∃ scored : list (pydict * (Z * string)),
      out = filtered ++ map attach_verdict scored
      ∧ es = omap filter_request papers
      ∧ scored.*1 `sublist_of` papers
      ∧ Forall (kept_verdict threshold) scored.
Proof.
  induction papers as [|paper papers IH]; intros filtered h out es; cbn [M_fold].
  - intros [-> ->]%mret_ok. exists []. simpl. by rewrite app_nil_r.
  - intros H. apply M_bind_ok in H as (filtered' & es1 & es2 & Hstep & H & ->).
    rewrite paper_filter_step in Hstep.
    assert (Hstep' : filtered' = (if (verdict w h paper).1 >=? threshold
                                  then filtered ++ [attach_verdict (paper, verdict w h paper)]
                                  else filtered)
                     ∧ es1 = option_list (filter_request paper)).
    { destruct (dict_get "abstract" (PStr "") paper); try discriminate;
        by inversion Hstep. }
    destruct Hstep' as [-> ->]. clear Hstep.
    apply IH in H as (scored & -> & -> & Hsub & Hall).
    assert (Hes : option_list (filter_request paper) ++ omap filter_request papers
                  = omap filter_request (paper :: papers)).
    { cbn [omap list_omap]. by destruct (filter_request paper). }
    destruct (Z.geb_spec (verdict w h paper).1 threshold) as [Hge|Hlt].
    + exists ((paper, verdict w h paper) :: scored). split; [|split; [|split]].
      * cbn [map]. by rewrite <- app_assoc.
      * exact Hes.
      * cbn [fmap list_fmap fst]. by apply sublist_skip.
      * constructor; [|exact Hall]. split; [exact Hge|].
        cbn [fst snd]. intros Hnone. unfold verdict. by rewrite Hnone.
    + exists scored. split; [reflexivity|]. split; [exact Hes|].
      split; [by apply sublist_cons | exact Hall].
Qed.

Lemma paper_filter_loop_total (papers : list pydict) :
  Forall plain_abstract papers →
  ∀ (filtered : list pydict) (h : list event),
  ∃ out es,
    M_fold (fun filtered paper =>
              result ← PaperFilter.filter_single self w (dict_get "title" (PStr "") paper)
                                                        (dict_get "abstract" (PStr "") paper);
              keep ← lift (py_ge_int (dict_get "score" (PInt 0) result) threshold);
              if keep : bool
              then mret (filtered ++
                     [dict_set "relevance_reason" (dict_get "reason" (PStr "") result)
                        (dict_set "relevance_score" (dict_get "score" (PInt 0) result)
                                  paper)])
              else mret filtered)
           filtered papers h
    = (Ok out, es).
Proof.
  induction 1 as [|paper papers Hplain _ IH]; intros filtered h; cbn [M_fold].
  - by eexists _, _.
  - unfold mbind at 1, M_bind at 1. rewrite paper_filter_step.
    unfold plain_abstract in Hplain.
    destruct (dict_get "abstract" (PStr "") paper) as [| s | n | l | d] eqn:Ha;
      [| | | | by destruct (Hplain d)];
      match goal with
      | |- context [M_fold ?b ?f papers ?h'] =>
          destruct (IH f h') as (out & es & ->); by eexists _, _
      end.
Qed.

(** X11. With an API key, on records whose abstract is not an object,
    the model filter does not fail.  It sends one request for every
    candidate whose abstract can be sliced, in order, with the title and
    the first 2000 characters of the abstract, and none for a candidate
    whose abstract is null or a number: such a candidate gets the
    default score 3.  What it returns are candidates in their order,
    each with the score and the reason attached, and every attached
    score reaches the threshold. *)
Theorem paper_filter_batch_spec (papers : list pydict) (h : list event) :
  Forall plain_abstract papers →
  ∃ scored : list (pydict * (Z * string)),
    PaperFilter.filter_batch self w papers threshold h
    = (Ok (map attach_verdict scored), omap filter_request papers)
    ∧ scored.*1 `sublist_of` papers
    ∧ Forall (kept_verdict threshold) scored.
Proof.
  intros Hplain. unfold PaperFilter.filter_batch. rewrite has_client.
  destruct (paper_filter_loop_total papers Hplain [] h) as (out & es & Hrun).
  rewrite Hrun.
  apply paper_filter_loop in Hrun as (scored & -> & -> & Hsub & Hall).
  by exists scored.
Qed.
End ModelFilter.

Lemma paper_filter_batch_spec_witness :
  PaperFilter.client sample_filter = Some ("sk-sample", "")
  ∧ Forall plain_abstract [sample_W2; sample_null_abstract]
  ∧ ∃ scored : list (pydict * (Z * string)),
      PaperFilter.filter_batch sample_filter sample_world [sample_W2; sample_null_abstract] 3 []
      = (Ok (map attach_verdict scored),
         omap filter_request [sample_W2; sample_null_abstract])
      ∧ scored.*1 `sublist_of` [sample_W2; sample_null_abstract]
      ∧ Forall (kept_verdict 3) scored.
Proof.
  assert (Hplain : Forall plain_abstract [sample_W2; sample_null_abstract])
    by (repeat constructor; intros d; discriminate).
  split; [reflexivity|]. split; [exact Hplain|].
  apply (paper_filter_batch_spec sample_filter sample_world 3 ("sk-sample", "") eq_refl
           [sample_W2; sample_null_abstract] [] Hplain).
Defined.

(** ** The summarizer *)

Lemma summarize_paper_shape (self : AbstractSummarizer.t) (w : World) (paper : pydict)
    (h : list event) (r : res pydict) (es : list event) :
  AbstractSummarizer._summarize_paper self w paper h = (r, es) →
  (∀ summary, r = Ok summary → ∃ zh en, summary = [("zh", PStr zh); ("en", PStr en)])
  ∧ (es = [] ∨ ∃ ev, es = [ev] ∧ summary_request self ev).
Proof.
  unfold AbstractSummarizer._summarize_paper.
  destruct (negb (truthy (dict_get "abstract" (PStr "") paper))).
  { intros [-> ->]%mret_inv. split; [|by left].
    intros summary [= <-]. unfold AbstractSummarizer.abstract_unavailable. eauto. }
  destruct (AbstractSummarizer.client self) as [c|].
  2:{ intros [-> ->]%mret_inv. split; [|by left].
      intros summary [= <-]. unfold AbstractSummarizer.generation_failed. eauto. }
  intros H.
  apply M_bind_inv in H as [(e & [_ ->]%lift_inv & ->) | (user & es1 & es2 & Hu & H & ->)].
  { split; [discriminate | by left]. }
  apply lift_inv in Hu as [_ ->].
  apply M_bind_inv in H as [(e & [[=] _]%perform_inv & _) | (reply & es3 & es4 & Hp & H & ->)].
  apply perform_inv in Hp as [_ ->].
  assert (es4 = [] ∧ ∀ summary, r = Ok summary →
                       ∃ zh en, summary = [("zh", PStr zh); ("en", PStr en)]) as [-> Hr].
  { destruct reply; apply mret_inv in H as [-> ->]; (split; [reflexivity|]);
      intros summary [= <-].
    - unfold AbstractSummarizer.generation_failed. eauto.
    - unfold AbstractSummarizer.parse_summary. eauto. }
  split; [exact Hr|]. right. eexists. split; [reflexivity|]. by eexists.
Qed.

Lemma summarize_batch_loop (self : AbstractSummarizer.t) (w : World) (papers : list pydict) :
  ∀ (results : list pydict) (h : list event) (out : list pydict) (es : list event),
    M_fold (fun results paper =>
              summary ← AbstractSummarizer._summarize_paper self w paper;
              let paper := dict_set "summary_zh" (dict_get "zh" (PStr "") summary) paper in
              let paper := dict_set "summary_en"
                             (dict_get "en" (dict_get "abstract" (PStr "") paper) summary)
                             paper in
              mret (results ++ [paper]))
           results papers h = (Ok out, es) →
    ∃ added,
      out = results ++ added
      ∧ Forall2 with_summaries papers added
      ∧ (length es ≤ length papers)%nat
      ∧ Forall (summary_request self) es.
Proof.
  match goal with |- ∀ results h out es, M_fold ?b _ _ _ = _ → _ => set (body := b) end.
  induction papers as [|paper papers IH]; intros results h out es; cbn [M_fold].
  - intros [-> ->]%mret_ok. exists []. rewrite app_nil_r.
    split; [reflexivity|]. split; [constructor|]. split; [simpl; lia | constructor].
  - intros H. apply M_bind_ok in H as (results' & es1 & es2 & Hstep & H & ->).
    apply IH in H as (added & -> & Hadded & Hlen & Hes).
    subst body. cbn beta in Hstep.
    apply M_bind_ok in Hstep as (summary & es3 & es4 & Hsum & Hstep & ->).
    apply mret_ok in Hstep as [-> ->].
    apply summarize_paper_shape in Hsum as [Hshape Hev].
    destruct (Hshape summary eq_refl) as (zh & en & ->).
    cbn [dict_get dict_lookup String.eqb Ascii.eqb Bool.eqb].
    exists (dict_set "summary_en" (PStr en) (dict_set "summary_zh" (PStr zh) paper) :: added).
    split; [by rewrite <- app_assoc|]. split; [constructor; [by exists zh, en | exact Hadded]|].
    rewrite app_nil_r.
    destruct Hev as [-> | (ev & -> & Hev)]; simpl; (split; [lia|]); [exact Hes|].
    by constructor.
Qed.

Lemma summarize_batch_shape (self : AbstractSummarizer.t) (w : World)
    (papers : list pydict) (h : list event) (out : list pydict) (es : list event) :
  AbstractSummarizer.client self ≠ None →
  AbstractSummarizer.summarize_batch self w papers h = (Ok out, es) →
  Forall2 with_summaries papers out
  ∧ (length es ≤ length papers)%nat
  ∧ Forall (summary_request self) es.
Proof.
  intros Hclient. unfold AbstractSummarizer.summarize_batch.
  destruct (AbstractSummarizer.client self) as [c|]; [|done].
  intros H. apply summarize_batch_loop in H as (added & -> & H). exact H.
Qed.

(** X12. A summarizer with an API key returns the records it was
    given, in order, each with the two strings summary_zh and
    summary_en set and nothing else changed; it sends at most one
    request per record, each to the configured model with the
    configured prompt. *)
Theorem summarize_batch_spec (self : AbstractSummarizer.t) (w : World)
    (papers : list pydict) (h : list event) (out : list pydict) (es : list event) :
  AbstractSummarizer.client self ≠ None →
  AbstractSummarizer.summarize_batch self w papers h = (Ok out, es) →
  Forall2 with_summaries papers out
  ∧ (length es ≤ length papers)%nat
  ∧ Forall (summary_request self) es.
Proof.
  intros Hclient. unfold AbstractSummarizer.summarize_batch.
  destruct (AbstractSummarizer.client self) as [c|]; [|done].
  intros H. apply summarize_batch_loop in H as (added & -> & Hadded & Hlen & Hes).
  split; [exact Hadded|]. split; [exact Hlen | exact Hes].
Qed.

Lemma summarize_batch_spec_witness :
  AbstractSummarizer.client sample_summarizer ≠ None
  ∧ (∃ out es,
       AbstractSummarizer.summarize_batch sample_summarizer sample_world
         [sample_W1; sample_W2] [] = (Ok out, es)
       ∧ Forall2 with_summaries [sample_W1; sample_W2] out
       ∧ (length es ≤ length [sample_W1; sample_W2])%nat
       ∧ Forall (summary_request sample_summarizer) es).
Proof.
  split; [discriminate|].
  eexists _, _. split; [vm_compute; reflexivity|].
  eapply (summarize_batch_spec sample_summarizer sample_world [sample_W1; sample_W2] []);
    [discriminate | vm_compute; reflexivity].
Defined.

(** ** [daily_task]: the summaries *)

Lemma res_filter_ge (t : Z) (papers yes : list pydict) :
  res_filter (fun p => py_ge_int (dict_get "relevance_score" (PInt 0) p) t) papers = Ok yes →
  yes = List.filter (fun p => t <=? score_of p) papers.
Proof.
  revert yes. induction papers as [|p papers IH]; intros yes; cbn [res_filter].
  - by intros [= <-].
  - intros H. apply res_bind_ok in H as (b & Hb & H).
    apply res_bind_ok in H as (ys & Hys & H). injection H as <-.
    cbn [List.filter]. rewrite <- (IH ys Hys). unfold score_of.
    destruct (dict_get "relevance_score" (PInt 0) p); try discriminate.
    injection Hb as <-. by rewrite Z.geb_leb.
Qed.

Lemma res_filter_lt (t : Z) (papers no : list pydict) :
  res_filter (fun p => py_lt_int (dict_get "relevance_score" (PInt 0) p) t) papers = Ok no →
  no = List.filter (fun p => score_of p <? t) papers.
Proof.
  revert no. induction papers as [|p papers IH]; intros no; cbn [res_filter].
  - by intros [= <-].
  - intros H. apply res_bind_ok in H as (b & Hb & H).
    apply res_bind_ok in H as (ys & Hys & H). injection H as <-.
    cbn [List.filter]. rewrite <- (IH ys Hys). unfold score_of.
    destruct (dict_get "relevance_score" (PInt 0) p); try discriminate.
    by injection Hb as <-.
Qed.

(** X13. With an API key, the records whose score is below the summary
    threshold never reach the model: they get the fixed low-relevance
    texts and are placed after the summarised records; the model gets
    at most one request per record at or above the threshold. *)
Theorem summarize_papers_with_key (w : World) (config : Config.t)
    (filtered_papers : list pydict) (h : list event) (out : list pydict) (es : list event) :
  Config.llm_api_key config ≠ "" →
  summarize_papers w config filtered_papers h = (Ok out, es) →
  ∃ summarized,
    out = summarized
          ++ map low_relevance
               (List.filter (without_summary config) filtered_papers)
    ∧ Forall2 with_summaries
        (List.filter (for_summary config) filtered_papers)
        summarized
    ∧ (length es
       ≤ length (List.filter (for_summary config) filtered_papers))%nat
    ∧ Forall (fun ev => ∃ user, ev = EvChat (Config.llm_model config)
                                       (Config.summarize_prompt config) user) es.
Proof.
  intros Hkey. unfold summarize_papers. intros H.
  apply M_bind_ok in H as (yes & es1 & es2 & Hyes & H & ->).
  apply lift_ok in Hyes as [->%res_filter_ge ->].
  apply M_bind_ok in H as (no & es3 & es4 & Hno & H & ->).
  apply lift_ok in Hno as [->%res_filter_lt ->].
  destruct (String.eqb_spec (Config.llm_api_key config) "") as [|_]; [done|].
  cbn [negb] in H.
  apply M_bind_ok in H as (summarized & es5 & es6 & Hsum & H & ->).
  apply mret_ok in H as [-> ->]. rewrite !app_nil_l, app_nil_r.
  exists summarized. split; [reflexivity|].
  destruct (List.filter _ filtered_papers) as [|p high] eqn:Ehigh.
  - apply mret_ok in Hsum as [-> ->]. repeat split; constructor.
  - apply summarize_batch_shape in Hsum; [exact Hsum|].
    unfold AbstractSummarizer.init. cbn [AbstractSummarizer.client].
    destruct (String.eqb_spec (Config.llm_api_key config) ""); [done | discriminate].
Qed.

Lemma summarize_papers_with_key_witness :
  Config.llm_api_key keyed_config ≠ ""
  ∧ ∃ out es,
      summarize_papers sample_world keyed_config scored_papers [] = (Ok out, es)
      ∧ ∃ summarized,
          out = summarized
                ++ map low_relevance
                     (List.filter (without_summary keyed_config) scored_papers)
          ∧ Forall2 with_summaries
              (List.filter (for_summary keyed_config) scored_papers)
              summarized
          ∧ (length es
             ≤ length (List.filter (for_summary keyed_config) scored_papers))%nat
          ∧ Forall (fun ev => ∃ user, ev = EvChat (Config.llm_model keyed_config)
                                             (Config.summarize_prompt keyed_config) user) es.
Proof.
  split; [discriminate|].
  eexists _, _. split; [vm_compute; reflexivity|].
  eapply (summarize_papers_with_key sample_world keyed_config scored_papers []);
    [discriminate | vm_compute; reflexivity].
Defined.

Lemma res_map_original_abstract (papers out : list pydict) :
  res_map original_abstract papers = Ok out →
  Forall2 with_abstract_excerpt papers out.
Proof.
  revert out. induction papers as [|p papers IH]; intros out; cbn [res_map].
  - intros [= <-]. constructor.
  - intros H. apply res_bind_ok in H as (q & Hq & H).
    apply res_bind_ok in H as (qs & Hqs & H). injection H as <-.
    constructor; [|by apply IH].
    unfold original_abstract in Hq. apply res_bind_ok in Hq as (zh & Hzh & Hq).
    injection Hq as <-. unfold py_prefix_dots in Hzh.
    destruct (dict_get "abstract" (PStr "") p) as [|a| | |] eqn:Ea; try discriminate.
    injection Hzh as <-. by exists a.
Qed.

(** X14. Without an API key no request is sent for the summaries:
    every filtered record keeps its place and gets the first 300
    characters of its abstract, followed by three dots, as summary_zh
    and a fixed text as summary_en. *)
Theorem summarize_papers_without_key (w : World) (config : Config.t)
    (filtered_papers : list pydict) (h : list event) (out : list pydict) (es : list event) :
  Config.llm_api_key config = "" →
  summarize_papers w config filtered_papers h = (Ok out, es) →
  es = [] ∧ Forall2 with_abstract_excerpt filtered_papers out.
Proof.
  intros Hkey. unfold summarize_papers. rewrite Hkey. cbn [String.eqb negb]. intros H.
  apply M_bind_ok in H as (yes & es1 & es2 & Hyes & H & ->).
  apply lift_ok in Hyes as [_ ->].
  apply M_bind_ok in H as (no & es3 & es4 & Hno & H & ->).
  apply lift_ok in Hno as [_ ->].
  apply lift_ok in H as [H ->]. split; [reflexivity|].
  by apply res_map_original_abstract.
Qed.

Lemma summarize_papers_without_key_witness :
  Config.llm_api_key sample_config = ""
  ∧ ∃ out,
      summarize_papers sample_world sample_config scored_papers [] = (Ok out, [])
      ∧ [] = @nil event
      ∧ Forall2 with_abstract_excerpt scored_papers out.
Proof.
  split; [reflexivity|].
  eexists. split; [vm_compute; reflexivity|].
  eapply (summarize_papers_without_key sample_world sample_config scored_papers []);
    [reflexivity | vm_compute; reflexivity].
Defined.

(** ** [daily_task]: at most one mail *)














(** ** Runs without an end date *)

Lemma search_not_given_raises (self : OpenAlexSearcher.t) (w : World)
    (keyword : string) (keywords : list string) (days_back max_results : Z)
    (from_date to_date : option string) (verbose : bool) (h : list event) :
  given to_date = false →
  OpenAlexSearcher.search self w (keyword :: keywords) days_back max_results
    from_date to_date verbose h
  = (Raise UnboundLocalError, []).
Proof.
  intros Hto. unfold OpenAlexSearcher.search. rewrite Hto.
  destruct (given from_date), verbose; reflexivity.
Qed.

(** X16. When neither the caller nor the configuration gives an end
    date and there is a keyword to search for, a run of the daily task
    whose probe succeeds stops with UnboundLocalError right after the
    probe: no request is sent and no mail.  (The day the search counts
    back to is a day of [datetime]; otherwise the code stops with
    OverflowError at the same place.) *)
Theorem daily_task_without_end_date (w : World) (config : Config.t)
    (from_date to_date : option string) (days_back : option Z) (h : list event) :
  socket_connect w h (probe config) = true →
  given to_date = false →
  given (Config.to_date config) = false →
  Config.research_keywords config ≠ [] →
  days_ago_defined w (h ++ [probe config]) (int_or days_back (Config.days_back config)) →
  daily_task w config from_date to_date days_back h
  = (Raise UnboundLocalError, [probe config]).
Proof.
  intros Hprobe Hto Hconf Hkw _. unfold daily_task, probe in *.
  unfold mbind at 1, M_bind at 1, perform at 1. rewrite Hprobe. cbn [negb].
  destruct (Config.research_keywords config) as [|keyword keywords]; [done|].
  unfold mbind at 1, M_bind at 1.
  rewrite search_not_given_raises; [reflexivity|].
  unfold str_or. by rewrite Hto.
Qed.

Lemma daily_task_without_end_date_witness :
  socket_connect sample_world [] (probe undated_config) = true
  ∧ given None = false
  ∧ given (Config.to_date undated_config) = false
  ∧ Config.research_keywords undated_config ≠ []
  ∧ days_ago_defined sample_world ([] ++ [probe undated_config])
      (int_or None (Config.days_back undated_config))
  ∧ daily_task sample_world undated_config None None None []
    = (Raise UnboundLocalError, [probe undated_config]).
Proof.
  assert (Hdays : days_ago_defined sample_world ([] ++ [probe undated_config])
                    (int_or None (Config.days_back undated_config))).
  { unfold days_ago_defined. simpl. lia. }
  split; [reflexivity|]. split; [reflexivity|]. split; [reflexivity|].
  split; [discriminate|]. split; [exact Hdays|].
  apply (daily_task_without_end_date sample_world undated_config None None None []);
    [reflexivity | reflexivity | reflexivity | discriminate | exact Hdays].
Defined.

(** X17. The test mode never gets past its search: asking for a
    verbose search without an end date, it stops with
    UnboundLocalError before any request is sent, whatever the
    configuration and the network. *)
Theorem run_test_raises (w : World) (config : Config.t) (h : list event) :
  run_test w config h = (Raise UnboundLocalError, []).
Proof.
  unfold run_test, OpenAlexSearcher.search, OpenAlexSearcher._days_ago.
  cbn [given]. unfold mbind, M_bind, clock, lift, mret, M_ret.
  cbn [fst snd read_local]. reflexivity.
Qed.

(** ** [daily_task]: the filter stage *)






(** ** The digest *)

Lemma contains_here (k post : string) : contains k (k +:+ post) = true.
Proof. apply contains_spec. by exists "", post. Qed.

Lemma contains_skip (k x r : string) : contains k r = true → contains k (x +:+ r) = true.
Proof.
  rewrite !contains_spec. intros (pre & post & ->).
  exists (x +:+ pre), post. by rewrite str_app_assoc.
Qed.

Lemma contains_app_l (k r x : string) : contains k r = true → contains k (r +:+ x) = true.
Proof.
  rewrite !contains_spec. intros (pre & post & ->).
  exists pre, (post +:+ x). by rewrite !str_app_assoc.
Qed.

Ltac find_part := repeat first [ apply contains_here | apply contains_skip ].

Lemma py_str_PStr (s t : string) : py_str (PStr s) = Ok t → t = s.
Proof. by intros [= ->]. Qed.

Lemma add_paper_row_shows (rows : string) (ip : Z * pydict) (rows' : string) :
  EmailSender.add_paper_row rows ip = Ok rows' →
  (∀ k, contains k rows = true → contains k rows' = true)
  ∧ (∀ field dflt s, (field, dflt) ∈ shown_fields →
       dict_get field (PStr dflt) ip.2 = PStr s → contains s rows' = true).
Proof.
  unfold EmailSender.add_paper_row. intros H.
  apply res_bind_ok in H as (ge4 & _ & H).
  apply res_bind_ok in H as (score_color & _ & H).
  apply res_bind_ok in H as (score & _ & H).
  apply res_bind_ok in H as (openalex_url & Hurl & H).
  apply res_bind_ok in H as (title & Htitle & H).
  apply res_bind_ok in H as (authors & Hauthors & H).
  apply res_bind_ok in H as (journal & Hjournal & H).
  apply res_bind_ok in H as (summary_zh & Hzh & H).
  apply res_bind_ok in H as (summary_en & Hen & H).
  injection H as <-. split.
  - intros k Hk. by apply contains_app_l.
  - intros field dflt s Hin Hs. apply contains_skip.
    unfold shown_fields in Hin.
    repeat (apply elem_of_cons in Hin as [[= -> ->] | Hin];
            [ rewrite Hs in *;
              first [ apply py_str_PStr in Htitle as ->
                    | apply py_str_PStr in Hauthors as ->
                    | apply py_str_PStr in Hjournal as ->
                    | apply py_str_PStr in Hzh as ->
                    | apply py_str_PStr in Hen as ->
                    | apply py_str_PStr in Hurl as -> ];
              unfold EmailSender.paper_card; find_part | ]).
    by apply elem_of_nil in Hin.
Qed.

Lemma paper_rows_show (ips : list (Z * pydict)) :
  ∀ rows rows', res_fold EmailSender.add_paper_row rows ips = Ok rows' →
    (∀ k, contains k rows = true → contains k rows' = true)
    ∧ (∀ ip field dflt s, ip ∈ ips → (field, dflt) ∈ shown_fields →
         dict_get field (PStr dflt) ip.2 = PStr s → contains s rows' = true).
Proof.
  induction ips as [|ip ips IH]; intros rows rows'; cbn [res_fold].
  - intros [= <-]. split; [auto|]. intros ip field dflt s Hin. by apply elem_of_nil in Hin.
  - intros H. apply res_bind_ok in H as (rows1 & Hrow & H).
    apply add_paper_row_shows in Hrow as [Hkeep Hshow].
    apply IH in H as [Hkeep' Hshow']. split; [auto|].
    intros ip' field dflt s Hin Hf Hs. apply elem_of_cons in Hin as [-> | Hin].
    + apply Hkeep'. by eapply Hshow.
    + by eapply Hshow'.
Qed.

Lemma zip_numbered (papers : list pydict) (p : pydict) (k : Z) :
  p ∈ papers → ∃ i, (i, p) ∈ zip (seqZ k (Z.of_nat (length papers))) papers.
Proof.
  intros Hin. apply list_elem_of_lookup in Hin as [n Hn].
  exists (k + Z.of_nat n). apply list_elem_of_lookup. exists n.
  apply lookup_zip_with_Some. eexists _, _. split; [reflexivity|]. split; [|exact Hn].
  apply lookup_seqZ. split; [lia|]. apply lookup_lt_Some in Hn. lia.
Qed.

(** X19. A digest that is built shows the date and the greeting and,
    of every record, the title, the authors, the journal, the two
    summaries and the address, each exactly as the record gives them. *)
Theorem digest_shows_every_record (self : EmailSender.t) (papers : list pydict)
    (date_str html : string) :
  EmailSender._build_html_content self papers date_str = Ok html →
  contains date_str html = true
  ∧ contains (Config.email_greeting (EmailSender.config self)) html = true
  ∧ ∀ p field dflt s, p ∈ papers → (field, dflt) ∈ shown_fields →
      dict_get field (PStr dflt) p = PStr s → contains s html = true.
Proof.
  unfold EmailSender._build_html_content. intros H.
  apply res_bind_ok in H as (rows & Hrows & H). injection H as <-.
  apply paper_rows_show in Hrows as [_ Hshow].
  split; [|split].
  - unfold EmailSender.digest_html. find_part.
  - unfold EmailSender.digest_html. find_part.
  - intros p field dflt s Hin Hf Hs.
    destruct (zip_numbered papers p 1 Hin) as [i Hi].
    assert (Hrow : contains s rows = true) by (by eapply (Hshow (i, p))).
    revert Hrow. generalize rows. intros r Hr.
    unfold EmailSender.digest_html.
    repeat first [ exact (contains_app_l _ _ _ Hr) | apply contains_skip ].
Qed.

Lemma digest_shows_every_record_witness :
  ∃ html,
    EmailSender._build_html_content sample_sender scored_papers "2024-02-01" = Ok html
    ∧ contains "2024-02-01" html = true
    ∧ contains (Config.email_greeting (EmailSender.config sample_sender)) html = true
    ∧ ∀ p field dflt s, p ∈ scored_papers → (field, dflt) ∈ shown_fields →
        dict_get field (PStr dflt) p = PStr s → contains s html = true.
Proof.
  eexists. split; [vm_compute; reflexivity|].
  eapply (digest_shows_every_record sample_sender scored_papers "2024-02-01").
  vm_compute; reflexivity.
Defined.

Lemma add_paper_row_ignores_reason (rows : string) (i : Z) (v : pyval) (p : pydict) :
  EmailSender.add_paper_row rows (i, dict_set "relevance_reason" v p)
  = EmailSender.add_paper_row rows (i, p).
Proof.
  unfold EmailSender.add_paper_row. cbn [fst snd].
  by rewrite !dict_get_set_ne.
Qed.

Lemma paper_rows_ignore_reason (reasons : pydict -> pyval) (papers : list pydict) :
  ∀ (rows : string) (k : Z),
    res_fold EmailSender.add_paper_row rows
      (zip (seqZ k (Z.of_nat (length papers)))
           (map (fun p => dict_set "relevance_reason" (reasons p) p) papers))
    = res_fold EmailSender.add_paper_row rows
        (zip (seqZ k (Z.of_nat (length papers))) papers).
Proof.
  induction papers as [|p papers IH]; intros rows k; [reflexivity|].
  cbn [length map]. rewrite Nat2Z.inj_succ, seqZ_cons by lia.
  cbn [zip zip_with res_fold]. rewrite add_paper_row_ignores_reason.
  destruct (EmailSender.add_paper_row rows (k, p)) as [rows1|e]; [|reflexivity].
  cbn [mbind res_bind]. replace (Z.pred (Z.succ (Z.of_nat (length papers))))
    with (Z.of_nat (length papers)) by lia.
  apply IH.
Qed.

(** X20. The reason the model gives for its score never reaches the
    reader: the digest of a list of records is the same document,
    whatever relevance_reason the records carry. *)
Theorem digest_ignores_reason (self : EmailSender.t) (reasons : pydict -> pyval)
    (papers : list pydict) (date_str : string) :
  EmailSender._build_html_content self
    (map (fun p => dict_set "relevance_reason" (reasons p) p) papers) date_str
  = EmailSender._build_html_content self papers date_str.
Proof.
  unfold EmailSender._build_html_content.
  by rewrite length_map, paper_rows_ignore_reason.
Qed.

(** ** [daily_task]: the sender or the recipient unset *)





(** ** [daily_task]: the digest *)



(** ** The reply of the model: [parse_summary] *)

Lemma str_length_app (a b : string) :
  String.length (a +:+ b) = (String.length a + String.length b)%nat.
Proof. induction a as [|c a IH]; [reflexivity|]. rewrite str_app_cons. simpl. by rewrite IH. Qed.

Lemma substring_prefix (k b : string) : String.substring 0 (String.length k) (k +:+ b) = k.
Proof.
  induction k as [|c k IH]; [by destruct b|].
  rewrite str_app_cons. simpl. by rewrite IH.
Qed.

Lemma substring_here (a k b : string) :
  String.substring (String.length a) (String.length k) (a +:+ k +:+ b) = k.
Proof.
  induction a as [|c a IH]; [exact (substring_prefix k b)|].
  rewrite str_app_cons. simpl. exact IH.
Qed.

Lemma substring_rest (a k : string) :
  String.substring (String.length a) (String.length k) (a +:+ k) = k.
Proof.
  pose proof (substring_here a k "") as H. by rewrite str_app_nil_r in H.
Qed.

Lemma substring_0_occ (k s : string) :
  String.substring 0 (String.length k) s = k → ∃ post, s = k +:+ post.
Proof.
  revert s. induction k as [|c k IH]; intros s; [by exists s|].
  destruct s as [|c' s]; simpl; [discriminate|].
  intros [= -> H]. destruct (IH s H) as [post ->]. by exists post.
Qed.

Lemma substring_occ (k : string) (s : string) :
  k ≠ "" →
  ∀ m, String.substring m (String.length k) s = k →
       ∃ pre post, s = pre +:+ k +:+ post ∧ String.length pre = m.
Proof.
  intros Hk. induction s as [|c s IH]; intros m H.
  - destruct m, k; simpl in H; congruence.
  - destruct m as [|m].
    + apply substring_0_occ in H as [post ->]. by exists "", post.
    + simpl in H. destruct (IH m H) as (pre & post & -> & <-).
      by exists (String c pre), post.
Qed.

Lemma index_first (k a b : string) :
  k ≠ "" →
  (∀ pre post, a +:+ k +:+ b = pre +:+ k +:+ post →
               (String.length a ≤ String.length pre)%nat) →
  String.index 0 k (a +:+ k +:+ b) = Some (String.length a).
Proof.
  intros Hk Hfirst.
  destruct (String.index 0 k (a +:+ k +:+ b)) as [m|] eqn:E.
  - pose proof (index_correct1 _ _ _ _ E) as Hm.
    destruct (substring_occ k _ Hk m Hm) as (pre & post & Heq & <-).
    pose proof (Hfirst pre post Heq) as Hle.
    destruct (decide (String.length a < String.length pre)%nat) as [Hlt|Hge].
    + exfalso. apply (index_correct2 _ _ _ _ E (String.length a)); [lia | exact Hlt|].
      apply substring_here.
    + f_equal. lia.
  - exfalso. apply (index_correct3 0 (String.length a) _ _ E Hk); [lia|].
    apply substring_here.
Qed.

Lemma index_absent (k s : string) :
  k ≠ "" → contains k s = false → String.index 0 k s = None.
Proof.
  intros Hk Hno. destruct (String.index 0 k s) as [m|] eqn:E; [|reflexivity].
  pose proof (index_correct1 _ _ _ _ E) as Hm.
  destruct (substring_occ k _ Hk m Hm) as (pre & post & -> & _).
  assert (contains k (pre +:+ k +:+ post) = true) by (apply contains_spec; eauto).
  congruence.
Qed.

(** Two ways to cut one string. *)
Lemma str_app_split (x y x' y' : string) :
  x +:+ y = x' +:+ y' →
  (∃ z, x = x' +:+ z ∧ y' = z +:+ y) ∨ (∃ z, x' = x +:+ z ∧ y = z +:+ y').
Proof.
  revert x'. induction x as [|c x IH]; intros x' H.
  - right. exists x'. split; [reflexivity | exact H].
  - destruct x' as [|c' x'].
    + left. exists (String c x). split; [reflexivity | by rewrite H].
    + rewrite !str_app_cons in H. injection H as -> H.
      destruct (IH x' H) as [(z & -> & ->) | (z & -> & ->)].
      * left. by exists z.
      * right. by exists z.
Qed.

Section Occurrence.
Variable e : ascii.
Variable k' : string.
Hypothesis clean : contains (String e "") k' = false.

Lemma starts_with_clean (x y r : string) :
  contains (String e "") x = false → x +:+ y = String e r → x = "".
Proof.
  destruct x as [|d x]; [reflexivity|].
  rewrite str_app_cons, contains_char_cons. intros Hx [= -> _].
  by rewrite bool_decide_eq_true_2 in Hx.
Qed.

Lemma occurrence_before (a b pre post : string) :
  a +:+ String e k' +:+ b = pre +:+ String e k' +:+ post →
  (String.length pre < String.length a)%nat →
  contains (String e k') a = true.
Proof.
  intros H Hlt. apply str_app_split in H as [(z & -> & H) | (z & -> & _)].
  2:{ rewrite str_length_app in Hlt. lia. }
  apply contains_spec. exists pre.
  apply str_app_split in H as [(z' & Hk & H) | (z' & -> & _)].
  - destruct z' as [|d z'].
    { (* the occurrence ends where the record ends *)
      rewrite str_app_nil_r in Hk. subst z. exists "". by rewrite str_app_nil_r. }
    (* the marker would have to start again inside itself *)
    exfalso. rewrite !str_app_cons in H. injection H as <- _.
    destruct z as [|c z].
    + rewrite str_length_app in Hlt. simpl in Hlt. lia.
    + rewrite str_app_cons in Hk. injection Hk as _ Hk.
      rewrite Hk, contains_char_app, contains_char_cons in clean.
      rewrite bool_decide_eq_true_2 in clean by reflexivity.
      by rewrite orb_true_r in clean.
  - by exists z'.
Qed.

Lemma contains_after_clean (x y : string) :
  contains (String e "") x = false →
  contains (String e k') (x +:+ y) = true →
  contains (String e k') y = true.
Proof.
  intros Hx. rewrite !contains_spec. intros (pre & post & H).
  apply str_app_split in H as [(z & -> & H) | (z & -> & ->)].
  - rewrite contains_char_app in Hx. apply orb_false_elim in Hx as [_ Hz].
    symmetry in H. rewrite str_app_cons in H.
    destruct z as [|d z].
    + exists "", post. change ("" +:+ y) with y in H. by rewrite H.
    + rewrite str_app_cons in H. injection H as -> _.
      rewrite contains_char_cons in Hz. by rewrite bool_decide_eq_true_2 in Hz.
  - by exists z, post.
Qed.
End Occurrence.

Lemma en_marker_first (a b : string) :
  contains AbstractSummarizer.en_marker a = false →
  String.index 0 AbstractSummarizer.en_marker (a +:+ AbstractSummarizer.en_marker +:+ b)
  = Some (String.length a).
Proof.
  intros Hno. apply index_first; [discriminate|].
  intros pre post H.
  destruct (decide (String.length pre < String.length a)%nat) as [Hlt|Hge]; [|lia].
  exfalso.
  assert (contains AbstractSummarizer.en_marker a = true); [|congruence].
  exact (occurrence_before "E" "nglish Abstract:" eq_refl a b pre post H Hlt).
Qed.

(** X23. A reply that consists of the Chinese marker, a Chinese text,
    the English marker and an English text is parsed into exactly the
    two texts, with the white space around them removed (the white
    space of [str.strip], the ideographic space among it), provided the
    English marker does not occur inside the Chinese text. *)
Theorem parse_summary_round_trip (zh en : string) :
  contains AbstractSummarizer.en_marker zh = false →
  AbstractSummarizer.parse_summary (bilingual_reply zh en)
  = [ ("zh", PStr (strip zh)); ("en", PStr (strip en)) ].
Proof.
  intros Hno. unfold AbstractSummarizer.parse_summary, bilingual_reply.
  set (zm := AbstractSummarizer.zh_marker). set (em := AbstractSummarizer.en_marker).
  assert (Hz : String.index 0 zm (zm +:+ zh +:+ em +:+ en) = Some 0%nat).
  { apply (index_first zm "" (zh +:+ em +:+ en)); [discriminate|]. intros; simpl; lia. }
  assert (He : String.index 0 em (zm +:+ zh +:+ em +:+ en)
               = Some (String.length (zm +:+ zh))).
  { rewrite <- (str_app_assoc zm zh). apply en_marker_first.
    apply not_true_is_false. intros Hin.
    pose proof (contains_after_clean "E" "nglish Abstract:" zm zh eq_refl Hin) as Hzh.
    change (contains AbstractSummarizer.en_marker zh = true) in Hzh. congruence. }
  rewrite Hz, He. cbn [Nat.add].
  replace (String.length (zm +:+ zh) - String.length zm)%nat with (String.length zh)
    by (rewrite str_length_app; lia).
  rewrite (substring_here zm zh (em +:+ en)).
  replace (String.length (zm +:+ zh +:+ em +:+ en)
           - (String.length (zm +:+ zh) + String.length em))%nat
    with (String.length en) by (rewrite !str_length_app; lia).
  replace (String.length (zm +:+ zh) + String.length em)%nat
    with (String.length ((zm +:+ zh) +:+ em)) by (by rewrite !str_length_app).
  replace (zm +:+ zh +:+ em +:+ en) with (((zm +:+ zh) +:+ em) +:+ en)
    by (by rewrite !str_app_assoc).
  by rewrite substring_rest.
Qed.

Lemma parse_summary_round_trip_witness :
  contains AbstractSummarizer.en_marker sample_reply_zh = false
  ∧ AbstractSummarizer.parse_summary (bilingual_reply sample_reply_zh sample_reply_en)
    = [ ("zh", PStr "本文综述了固态电池的研究进展。");
        ("en", PStr "The paper reviews solid-state batteries.") ].
Proof.
  split; [vm_compute; reflexivity|].
  apply (parse_summary_round_trip sample_reply_zh sample_reply_en). vm_compute; reflexivity.
Defined.

(** X24. A reply in which neither marker occurs gives two empty
    summaries: nothing of the reply is kept. *)
Theorem parse_summary_without_markers (content : string) :
  contains AbstractSummarizer.zh_marker content = false →
  contains AbstractSummarizer.en_marker content = false →
  AbstractSummarizer.parse_summary content = [ ("zh", PStr ""); ("en", PStr "") ].
Proof.
  intros Hzh Hen. unfold AbstractSummarizer.parse_summary.
  rewrite (index_absent AbstractSummarizer.zh_marker content) by (discriminate || exact Hzh).
  by rewrite (index_absent AbstractSummarizer.en_marker content) by (discriminate || exact Hen).
Qed.

Lemma parse_summary_without_markers_witness :
  contains AbstractSummarizer.zh_marker "Sorry, I cannot summarize this paper." = false
  ∧ contains AbstractSummarizer.en_marker "Sorry, I cannot summarize this paper." = false
  ∧ AbstractSummarizer.parse_summary "Sorry, I cannot summarize this paper."
    = [ ("zh", PStr ""); ("en", PStr "") ].
Proof.
  split; [vm_compute; reflexivity|]. split; [vm_compute; reflexivity|].
  apply (parse_summary_without_markers "Sorry, I cannot summarize this paper.");
    vm_compute; reflexivity.
Defined.

(** ** [daily_task]: the order of the stages *)















(** ** [search]: the records are parsed works *)

Lemma res_map_images {A B : Type} (f : A -> res B) (xs : list A) (ys : list B) :
  res_map f xs = Ok ys → Forall (fun y => ∃ x, f x = Ok y) ys.
Proof.
  revert ys. induction xs as [|x xs IH]; intros ys; cbn [res_map].
  - intros [= <-]. constructor.
  - intros H. apply res_bind_ok in H as (y & Hy & H).
    apply res_bind_ok in H as (ys' & Hys & H). injection H as <-.
    constructor; [by exists x | by apply IH].
Qed.

Lemma search_rest_api_parsed (self : OpenAlexSearcher.t) (w : World)
    (keyword from_date to_date : string) (max_results : Z)
    (h : list event) (papers : list pydict) (es : list event) :
  OpenAlexSearcher._search_rest_api self w keyword from_date to_date max_results h
  = (Ok papers, es) →
  Forall parsed_record papers.
Proof.
  unfold OpenAlexSearcher._search_rest_api. intros H.
  apply M_bind_ok in H as (reply & es1 & es2 & _ & H & _).
  destruct reply as [|data].
  - apply mret_ok in H as [-> _]. constructor.
  - apply lift_ok in H as [H _]. apply res_bind_ok in H as (results & _ & H).
    by apply res_map_images in H.
Qed.

Lemma search_single_keyword_parsed (self : OpenAlexSearcher.t) (w : World)
    (keyword from_date to_date : string) (max_results : Z)
    (h : list event) (papers : list pydict) (es : list event) :
  OpenAlexSearcher._search_single_keyword self w keyword from_date to_date max_results h
  = (Ok papers, es) →
  Forall parsed_record papers.
Proof.
  unfold OpenAlexSearcher._search_single_keyword. intros H.
  apply M_bind_ok in H as (reply & es1 & es2 & _ & H & _).
  destruct reply as [|data]; [by eapply search_rest_api_parsed|].
  destruct data as [| | | |d]; try (by apply lift_ok in H as [[=] _]).
  apply M_bind_ok in H as (works & es3 & es4 & _ & H & _).
  destruct (_ && _); [by eapply search_rest_api_parsed|].
  apply lift_ok in H as [H _]. apply res_bind_ok in H as (results & _ & H).
  by apply res_map_images in H.
Qed.

Lemma parsed_record_keys (paper : pydict) :
  parsed_record paper → dict_keys paper = paper_keys.
Proof.
  intros [work H]. destruct work as [| | | |d]; try discriminate.
  apply parse_work_inv in H
    as (authorships & authors & journal & cs & concepts & kws & kwds & id & authors5
        & _ & _ & _ & _ & _ & _ & _ & _ & _ & ->).
  reflexivity.
Qed.

(** X26. Every record a search returns is what [_parse_work] made of a
    work the provider sent, and so has exactly the eleven fields of a
    record, in their order. *)
Theorem search_records_complete (self : OpenAlexSearcher.t) (w : World)
    (keywords : list string) (days_back max_results : Z)
    (from_date to_date : option string) (verbose : bool)
    (h : list event) (out : list pydict) (es : list event) :
  OpenAlexSearcher.search self w keywords days_back max_results from_date to_date verbose h
  = (Ok out, es) →
  Forall (fun paper => parsed_record paper ∧ dict_keys paper = paper_keys) out.
Proof.
  intros H. apply search_ok in H as (from_dt & t & fetched & st & Hf & Hd & Hsort).
  apply sort_by_key_reverse_spec in Hsort as [Hperm _].
  apply dedup_spec in Hd as [_ Hmem]; [|apply seen_inv_empty].
  assert (Hfetched : Forall parsed_record (concat fetched)).
  { clear -Hf. unfold fetched_for in Hf.
    induction Hf as [|keyword papers keywords fetched (h & es & Hk) _ IH]; [constructor|].
    simpl. apply Forall_app. split; [by eapply search_single_keyword_parsed | exact IH]. }
  rewrite Hperm. apply Forall_forall. intros p Hp.
  destruct (proj1 (Hmem p) Hp) as [Hnil | (_ & _ & pre & post & Hraw & _)];
    [by apply elem_of_nil in Hnil|].
  assert (Hparsed : parsed_record p).
  { rewrite Forall_forall in Hfetched. apply Hfetched. rewrite Hraw.
    apply elem_of_app. right. by apply elem_of_cons; left. }
  split; [exact Hparsed | by apply parsed_record_keys].
Qed.

Lemma search_records_complete_witness :
  OpenAlexSearcher.search sample_searcher sample_world ["battery"; "solar"] 7 20
    None (Some "2024-02-01") false []
  = (Ok [sample_W2; sample_W1], sample_events)
  ∧ Forall (fun paper => parsed_record paper ∧ dict_keys paper = paper_keys)
           [sample_W2; sample_W1].
Proof.
  split; [vm_compute; reflexivity|].
  apply (search_records_complete sample_searcher sample_world ["battery"; "solar"] 7 20
           None (Some "2024-02-01") false [] [sample_W2; sample_W1] sample_events).
  vm_compute; reflexivity.
Defined.

(** ** [daily_task]: what the model is asked at the filter stage *)



(** ** [OpenAlexSearcher.__init__]: the address *)

Lemma str_app_slash_nonempty (s : string) : s +:+ "/" ≠ "".
Proof. by destruct s. Qed.

Lemma rstrip_slash_spec (url : string) :
  (∃ n, url = rstrip_slash url +:+ slashes n)
  ∧ ∀ s, rstrip_slash url ≠ s +:+ "/".
Proof.
  induction url as [|c url [[n Hn] Hend]].
  - split; [by exists 0%nat|]. intros s H. by eapply str_app_slash_nonempty.
  - cbn [rstrip_slash]. destruct (rstrip_slash url) as [|d r] eqn:Hr.
    + change ("" +:+ slashes n) with (slashes n) in Hn.
      destruct (Ascii.eqb_spec c "/") as [->|Hc].
      * split; [exists (S n); by rewrite Hn|].
        intros s H. by eapply str_app_slash_nonempty.
      * split; [exists n; by rewrite Hn|].
        intros [|c' s]; [intros [= ->]; by apply Hc|].
        rewrite str_app_cons. intros [= _ H]. by eapply str_app_slash_nonempty.
    + split; [exists n; by rewrite Hn|].
      intros [|c' s]; [discriminate|].
      rewrite str_app_cons. intros [= _ H]. by eapply Hend.
Qed.

(** X28. The searcher keeps the address it is given without its
    trailing slashes: the address is the kept one followed by slashes
    only, and the kept one does not end in a slash, so that a request
    address has one slash before its path. *)
Theorem init_strips_trailing_slashes (url : string) :
  (∃ n, url = OpenAlexSearcher.api_url (OpenAlexSearcher.init url) +:+ slashes n)
  ∧ ∀ s, OpenAlexSearcher.api_url (OpenAlexSearcher.init url) ≠ s +:+ "/".
Proof.
  unfold OpenAlexSearcher.init. cbn [OpenAlexSearcher.api_url].
  destruct (rstrip_slash_spec url) as [Hn Hend]. split; [exact Hn | exact Hend].
Qed.

(** ** [daily_task]: empty lists without a notice *)

